(** * vendor_monitor: retrieval and aggregation pipeline

    A shallow embedding of [vendor_monitor.py]: the sentiment aggregation
    ([get_max_sentiment]), the query generation
    ([get_smart_search_queries]), the two retrying fetchers
    ([get_stock_data], [get_news_articles]), the two classifier wrappers and
    the per-vendor loop of [process_vendors].

    Python strings are [string]s; a character is read as the code point of
    the same number.  The external collaborators (yfinance, NewsAPI, VADER,
    FinBERT, [time.sleep]) are oracles over an abstract world, and every
    call to one of them is recorded in a trace. *)

From Stdlib Require Import Bool Arith List String Ascii ZArith QArith Qround Lia.
From Stdlib Require Import DecimalString Permutation Lqa.
Import ListNotations.

Local Close Scope Q_scope.
Local Open Scope nat_scope.
Local Open Scope string_scope.
Local Open Scope list_scope.

(* ================================================================== *)
(** ** Python string operations *)

Module PyStr.

(** [str.isspace] on a single character, for the code points below 256:
    TAB, LF, VT, FF, CR, the four separators FS GS RS US, SPACE, NEL and
    NO-BREAK SPACE. *)
Definition is_space (c : ascii) : bool :=
  let n := nat_of_ascii c in
  (Nat.leb 9 n && Nat.leb n 13) || (Nat.leb 28 n && Nat.leb n 32)
  || Nat.eqb n 133 || Nat.eqb n 160.

Fixpoint lstrip (s : string) : string :=
  match s with
  | EmptyString => EmptyString
  | String c s' => if is_space c then lstrip s' else s
  end.

Fixpoint rstrip (s : string) : string :=
  match s with
  | EmptyString => EmptyString
  | String c s' =>
      match rstrip s' with
      | EmptyString => if is_space c then EmptyString else String c EmptyString
      | r => String c r
      end
  end.

(** [s.strip()] *)
Definition strip (s : string) : string := rstrip (lstrip s).

(** [s.endswith(suffix)] *)
Fixpoint endswith (s suffix : string) : bool :=
  if String.eqb s suffix then true
  else match s with
       | EmptyString => false
       | String _ s' => endswith s' suffix
       end.

(** [s.startswith(prefix)] *)
Fixpoint startswith (s prefix : string) : bool :=
  match prefix, s with
  | EmptyString, _ => true
  | String _ _, EmptyString => false
  | String a p', String b s' => Ascii.eqb a b && startswith s' p'
  end.

(** [sub in s] *)
Fixpoint contains (sub s : string) : bool :=
  if startswith s sub then true
  else match s with
       | EmptyString => false
       | String _ s' => contains sub s'
       end.

(** [s[:-n]]; for [n = 0] Python reads the slice as [s[:0]]. *)
Definition drop_last (n : nat) (s : string) : string :=
  match n with
  | O => EmptyString
  | S _ => substring 0 (String.length s - n) s
  end.

(** [s.upper()] for ASCII text: the letters a to z are mapped, the other
    characters are left as they are.  Python also maps the letters
    outside ASCII, some of them to two characters or to code points above
    255; text with such letters is outside this model, and no statement
    below depends on what [upper] does to it. *)
Definition upper_char (c : ascii) : ascii :=
  let n := nat_of_ascii c in
  if Nat.leb 97 n && Nat.leb n 122 then ascii_of_nat (n - 32) else c.

Fixpoint upper (s : string) : string :=
  match s with
  | EmptyString => EmptyString
  | String c s' => String (upper_char c) (upper s')
  end.

(** Truth value of a string: [bool(s)]. *)
Definition truthy (s : string) : bool :=
  match s with EmptyString => false | _ => true end.

End PyStr.

(* ================================================================== *)
(** ** Sentiment aggregation *)

(** [get_max_sentiment], on the strings the code passes around. *)
Definition get_max_sentiment (sentiments : list string) : string :=
  if match sentiments with [] => true | _ => false end
     || forallb (fun s => s =? "N/A") sentiments
  then "N/A"
  else
    let valid_sentiments := filter (fun s => negb (s =? "N/A")) sentiments in
    match valid_sentiments with
    | [] => "N/A"
    | _ =>
        if existsb (String.eqb "bullish") valid_sentiments then "bullish"
        else if existsb (String.eqb "neutral") valid_sentiments then "neutral"
        else "bearish"
    end.

(** The four labels of the data model and their text. *)
Inductive SentimentLabel := Bullish | Neutral | Bearish | NA.

Definition label_text (l : SentimentLabel) : string :=
  match l with
  | Bullish => "bullish"
  | Neutral => "neutral"
  | Bearish => "bearish"
  | NA => "N/A"
  end.

(** The aggregation as the specification words it: [N/A] takes no part in
    the vote, and the remaining labels are reduced with the maximum for the
    precedence bullish > neutral > bearish. *)
Definition precedence (l : SentimentLabel) : nat :=
  match l with Bullish => 3 | Neutral => 2 | Bearish => 1 | NA => 0 end.

Definition max_by_precedence (a b : SentimentLabel) : SentimentLabel :=
  if Nat.ltb (precedence a) (precedence b) then b else a.

Definition is_vote (l : SentimentLabel) : bool :=
  match l with NA => false | _ => true end.

Definition aggregate_spec (labels : list SentimentLabel) : SentimentLabel :=
  match filter is_vote labels with
  | [] => NA
  | l :: ls => fold_left max_by_precedence ls l
  end.

(* ================================================================== *)
(** ** Query generation *)

Definition suffixes : list string :=
  [ " Holding Corporation"; " Holding Corp.";
    " Corporation"; " Incorporated";
    " Holdings"; " Company"; " Limited";
    " Corp."; " Corp";
    " Inc."; " Inc";
    " Co."; " Co";
    " Ltd."; " Ltd";
    " L.L.C."; " LLC"; " PLC"; " Group" ].

(** The [for suffix in suffixes: ... break] loop: the first suffix that
    [short_name] ends with is cut off and the rest is stripped of white
    space; no later suffix is looked at. *)
Fixpoint shorten (sufs : list string) (short_name : string) : string :=
  match sufs with
  | [] => short_name
  | suffix :: rest =>
      if PyStr.endswith short_name suffix
      then PyStr.strip (PyStr.drop_last (String.length suffix) short_name)
      else shorten rest short_name
  end.

(** No suffix of the list is the tail of one that comes after it: of two
    suffixes that a name ends with, the longer one is met first. *)
Fixpoint most_specific_first (sufs : list string) : bool :=
  match sufs with
  | [] => true
  | s :: rest =>
      forallb (fun later => negb (PyStr.endswith later s)) rest
      && most_specific_first rest
  end.

Definition get_smart_search_queries (company_name symbol : string)
  : list string :=
  let queries := [] in
  let queries :=
    if PyStr.truthy company_name then
      let short_name := shorten suffixes company_name in
      let queries :=
        if negb (short_name =? company_name) then queries ++ [short_name]
        else queries in
      let queries := queries ++ [company_name] in
      if negb (short_name =? company_name)
      then queries ++ [(short_name ++ " " ++ symbol)%string]
      else queries
    else queries in
  queries ++ [symbol].


(* ================================================================== *)
(** ** Numbers

    Prices, percentages and scores are floating-point numbers in the
    source.  The model takes the float type and the operations the code
    uses on it as an interface, so that every statement below holds for
    each implementation of it; [QFloat] at the end of the definitions is
    the exact-arithmetic instance the examples run on. *)

Class FloatOps (F : Type) := {
  f_zero : F;                       (* 0.0 *)
  f_hundred : F;                    (* 100 *)
  f_pos_threshold : F;              (* 0.05 *)
  f_neg_threshold : F;              (* -0.05 *)
  f_sub : F -> F -> F;
  f_mul : F -> F -> F;
  f_div : F -> F -> F;
  f_round2 : F -> F;                (* round(x, 2) *)
  f_gt : F -> F -> bool;            (* x > y *)
  f_ge : F -> F -> bool;            (* x >= y *)
  f_le : F -> F -> bool;            (* x <= y *)
  f_eq : F -> F -> bool;            (* x == y *)
  f_to_int : F -> option Z;         (* int(x); None when int raises *)
  f_zero_not_positive : f_gt f_zero f_zero = false
}.

(** [max(a, b, c)]: the first of the greatest. *)
Definition f_max3 {F} `{FloatOps F} (a b c : F) : F :=
  let m := a in
  let m := if f_gt b m then b else m in
  if f_gt c m then c else m.

(* ================================================================== *)
(** ** Values that cross the boundary *)

(** A value found in a dict of strings: a string or [None]. *)
Inductive PyVal := PyNone | PyStr (s : string).

Definition PyDict := list (string * PyVal).

(** [d.get(key, default)] *)
Fixpoint dict_get (d : PyDict) (key : string) (default : PyVal) : PyVal :=
  match d with
  | [] => default
  | (k, v) :: d' => if k =? key then v else dict_get d' key default
  end.

(** How an f-string prints the value. *)
Definition py_format (v : PyVal) : string :=
  match v with PyNone => "None" | PyStr s => s end.

(** The exceptions the model distinguishes; each carries [str(e)]. *)
Inductive Exn :=
| KeyError (msg : string)
| NewsAPIException (msg : string)
| Exception (msg : string).

Definition exn_str (e : Exn) : string :=
  match e with KeyError m | NewsAPIException m | Exception m => m end.

(** One row of the price history; [None] stands for a column the frame
    does not have, where the subscript raises [KeyError]. *)
Record Bar (F : Type) := mkBar { Close : option F; Volume : option F }.
Arguments mkBar {F}.
Arguments Close {F}.
Arguments Volume {F}.

(** What [yf.Ticker(symbol).history(period="5d")] does. *)
Inductive HistOutcome (F : Type) :=
| HistKeyError (msg : string)
| HistException (msg : string)
| HistFrame (hist : list (Bar F)).
Arguments HistKeyError {F}.
Arguments HistException {F}.
Arguments HistFrame {F}.

(** A NewsAPI response: [status] is [response.get('status')] and
    [articles] is the list under ['articles'], [None] where the key is
    absent or null. *)
Record Response := mkResponse {
  status : option string;
  articles : option (list PyDict)
}.

(** What [newsapi.get_everything] does; a [None] response is a falsy one. *)
Inductive NewsOutcome :=
| NewsApiError (msg : string)
| NewsError (msg : string)
| NewsResponse (response : option Response).

(** What [analyzer.polarity_scores(text)['compound']] does. *)
Inductive VaderOutcome (F : Type) :=
| VaderError (msg : string)
| VaderCompound (compound : F).
Arguments VaderError {F}.
Arguments VaderCompound {F}.

(** What loading and running FinBERT does: no model, an exception, or the
    three softmax scores. *)
Inductive FinbertOutcome (F : Type) :=
| FinbertUnavailable
| FinbertError (msg : string)
| FinbertScores (positive_score negative_score neutral_score : F).
Arguments FinbertUnavailable {F}.
Arguments FinbertError {F}.
Arguments FinbertScores {F}.

(** The calls the program makes to the outside, in the order made. *)
Inductive Event (F : Type) :=
| EvHistory (symbol : string) (o : HistOutcome F)
| EvSearch (query : string) (use_domains : bool) (page_size : nat)
           (o : NewsOutcome)
| EvSleep (seconds : nat)
| EvVader (text : string) (o : VaderOutcome F)
| EvFinbert (text : string) (o : FinbertOutcome F).
Arguments EvHistory {F}.
Arguments EvSearch {F}.
Arguments EvSleep {F}.
Arguments EvVader {F}.
Arguments EvFinbert {F}.

(** The collaborators, as transitions of a world. *)
Record Collaborators (F World : Type) := mkCollaborators {
  yf_history : string -> World -> HistOutcome F * World;
  newsapi_get_everything :
    string -> bool -> nat -> World -> NewsOutcome * World;
  polarity_scores : string -> World -> VaderOutcome F * World;
  finbert_scores : string -> World -> FinbertOutcome F * World;
  time_sleep : nat -> World -> World
}.
Arguments yf_history {F World}.
Arguments newsapi_get_everything {F World}.
Arguments polarity_scores {F World}.
Arguments finbert_scores {F World}.
Arguments time_sleep {F World}.

(** The world together with the trace of the calls made so far. *)
Record Sys (F World : Type) := mkSys {
  world : World;
  trace : list (Event F)
}.
Arguments mkSys {F World}.
Arguments world {F World}.
Arguments trace {F World}.

(** How a loop body or a function ends. *)
Inductive Res (A : Type) :=
| Ok (a : A)
| Raise (e : Exn).
Arguments Ok {A}.
Arguments Raise {A}.

(** An article as [get_news_articles] returns it. *)
Record Article := mkArticle {
  title : string;
  description : PyVal;
  content : PyVal;
  full_text : string
}.

Definition Quote (F : Type) : Type := (F * F * Z)%type.

Record StockRow (F : Type) := mkStockRow {
  sr_symbol : string;
  sr_companyname : string;
  sr_closeprice : F;
  sr_pctchange : F;
  sr_volume : Z;
  sr_sentiment : string
}.
Arguments mkStockRow {F}.
Arguments sr_symbol {F}.
Arguments sr_companyname {F}.
Arguments sr_closeprice {F}.
Arguments sr_pctchange {F}.
Arguments sr_volume {F}.
Arguments sr_sentiment {F}.

Record HeadlineRow := mkHeadlineRow {
  hr_symbol : string;
  hr_headline : string;
  hr_sentiment : string
}.

Record Stats := mkStats {
  total_vendors : nat;
  stock_success : nat;
  stock_failures : nat;
  news_success : nat;
  news_failures : nat;
  total_headlines : nat;
  errors : list string
}.

(** How one pass through the [try] block of [get_news_articles] ends: at
    the [return], at one of the [break]s, or with an exception. *)
Inductive TryResult :=
| TryReturn (article_list : list Article)
| TryBreak
| TryRaised (e : Exn).

(** How a loop nested in the fetch ends: it is left for the next round of
    the loop around it, the function returns, or an exception leaves it. *)
Inductive Flow (A : Type) :=
| Next
| Return (a : A)
| Raised (e : Exn).
Arguments Next {A}.
Arguments Return {A}.
Arguments Raised {A}.

(* ================================================================== *)
(** ** The program *)

Section Pipeline.

Context {F : Type} {FO : FloatOps F} {World : Type}.
Variable C : Collaborators F World.

(** *** Calls to the collaborators *)

Definition call_history (symbol : string) (s : Sys F World)
  : HistOutcome F * Sys F World :=
  let (o, w) := yf_history C symbol (world s) in
  (o, mkSys w (trace s ++ [EvHistory symbol o])).

Definition call_search (query : string) (use_domains : bool)
  (page_size : nat) (s : Sys F World) : NewsOutcome * Sys F World :=
  let (o, w) := newsapi_get_everything C query use_domains page_size (world s) in
  (o, mkSys w (trace s ++ [EvSearch query use_domains page_size o])).

Definition call_vader (text : string) (s : Sys F World)
  : VaderOutcome F * Sys F World :=
  let (o, w) := polarity_scores C text (world s) in
  (o, mkSys w (trace s ++ [EvVader text o])).

Definition call_finbert (text : string) (s : Sys F World)
  : FinbertOutcome F * Sys F World :=
  let (o, w) := finbert_scores C text (world s) in
  (o, mkSys w (trace s ++ [EvFinbert text o])).

Definition sleep (seconds : nat) (s : Sys F World) : Sys F World :=
  mkSys (time_sleep C seconds (world s)) (trace s ++ [EvSleep seconds]).

(** *** The classifiers *)

Definition analyze_sentiment_finbert (text : string) (s : Sys F World)
  : string * Sys F World :=
  if negb (PyStr.truthy text) || (text =? "N/A") then ("N/A", s)
  else
    let (o, s1) := call_finbert text s in
    match o with
    | FinbertUnavailable => ("neutral", s1)
    | FinbertError _ => ("neutral", s1)
    | FinbertScores positive_score negative_score neutral_score =>
        let max_score := f_max3 positive_score negative_score neutral_score in
        if f_eq positive_score max_score then ("bullish", s1)
        else if f_eq negative_score max_score then ("bearish", s1)
        else ("neutral", s1)
    end.

Definition analyze_sentiment_vader (text : string) (s : Sys F World)
  : string * Sys F World :=
  if negb (PyStr.truthy text) || (text =? "N/A") then ("N/A", s)
  else
    let (o, s1) := call_vader text s in
    match o with
    | VaderError _ => ("neutral", s1)
    | VaderCompound compound =>
        if f_ge compound f_pos_threshold then ("bullish", s1)
        else if f_le compound f_neg_threshold then ("bearish", s1)
        else ("neutral", s1)
    end.

(** *** The stock fetch *)

Definition zero_quote : Quote F := (f_zero, f_zero, 0%Z).

(** The [try] block of [get_stock_data] on what the history call gave:
    the quote it returns or the exception that leaves it. *)
Definition stock_try (o : HistOutcome F) : Res (Quote F) :=
  match o with
  | HistKeyError msg => Raise (KeyError msg)
  | HistException msg => Raise (Exception msg)
  | HistFrame hist =>
      match rev hist with
      | [] => Ok zero_quote
      | latest :: earlier =>
          match Close latest with
          | None => Raise (KeyError "'Close'")
          | Some latest_close =>
              let close_price := f_round2 latest_close in
              match Volume latest with
              | None => Raise (KeyError "'Volume'")
              | Some latest_volume =>
                  match f_to_int latest_volume with
                  | None => Raise (Exception "cannot convert float to integer")
                  | Some volume =>
                      match earlier with
                      | previous :: _ =>
                          match Close previous with
                          | None => Raise (KeyError "'Close'")
                          | Some prev_close =>
                              let pct_change :=
                                f_round2
                                  (f_mul
                                     (f_div (f_sub close_price prev_close)
                                            prev_close)
                                     f_hundred) in
                              Ok (close_price, pct_change, volume)
                          end
                      | [] => Ok (close_price, f_zero, volume)
                      end
                  end
              end
          end
      end
  end.

(** The [for attempt in range(max_retries)] loop over the attempts still
    to make; [None] is the fall through the end of the loop. *)
Fixpoint stock_attempts (symbol : string) (max_retries : nat)
  (attempts : list nat) (s : Sys F World) : option (Quote F) * Sys F World :=
  match attempts with
  | [] => (None, s)
  | attempt :: rest =>
      let (o, s1) := call_history symbol s in
      match stock_try o with
      | Ok q => (Some q, s1)
      | Raise (KeyError _) => (Some zero_quote, s1)
      | Raise _ =>
          if Nat.ltb attempt (max_retries - 1)
          then stock_attempts symbol max_retries rest (sleep (2 ^ attempt) s1)
          else (Some zero_quote, s1)
      end
  end.

Definition get_stock_data (symbol : string) (max_retries : nat)
  (s : Sys F World) : option (Quote F) * Sys F World :=
  stock_attempts symbol max_retries (seq 0 max_retries) s.

(** *** The news fetch *)

(** The body of the loop over [articles[:max_articles]]: the record that
    is appended to [article_list], if any. *)
Definition usable_article (article : PyDict) : option Article :=
  let title := dict_get article "title" (PyStr "") in
  let description := dict_get article "description" (PyStr "") in
  let content := dict_get article "content" (PyStr "") in
  match title with
  | PyNone => None
  | PyStr title =>
      if PyStr.truthy title && negb (title =? "[Removed]") then
        let full_text :=
          PyStr.strip (title ++ ". " ++ py_format description ++ " "
                       ++ py_format content)%string in
        Some (mkArticle title description content full_text)
      else None
  end.

Fixpoint collect_articles (articles : list PyDict) : list Article :=
  match articles with
  | [] => []
  | article :: rest =>
      match usable_article article with
      | Some a => a :: collect_articles rest
      | None => collect_articles rest
      end
  end.

Definition status_ok (response : Response) : bool :=
  match status response with
  | Some st => st =? "ok"
  | None => false
  end.

(** The [try] block of [get_news_articles] on what the search gave. *)
Definition news_try (max_articles : nat) (o : NewsOutcome)
  : TryResult :=
  match o with
  | NewsApiError msg => TryRaised (NewsAPIException msg)
  | NewsError msg => TryRaised (Exception msg)
  | NewsResponse None => TryBreak
  | NewsResponse (Some response) =>
      if negb (status_ok response) then TryBreak
      else
        match articles response with
        | None => TryBreak
        | Some [] => TryBreak
        | Some articles =>
            match collect_articles (firstn max_articles articles) with
            | [] => TryBreak
            | article_list => TryReturn article_list
            end
        end
  end.

Definition is_rate_limited (msg : string) : bool :=
  PyStr.contains "rateLimited" msg || PyStr.contains "429" msg.

Definition is_key_invalid (msg : string) : bool :=
  PyStr.contains "apiKeyInvalid" msg || PyStr.contains "401" msg.

Fixpoint news_attempts (query : string) (use_domains : bool)
  (max_articles max_retries : nat) (attempts : list nat) (s : Sys F World)
  : Flow (list Article) * Sys F World :=
  match attempts with
  | [] => (Next, s)
  | attempt :: rest =>
      let (o, s1) := call_search query use_domains max_articles s in
      match news_try max_articles o with
      | TryReturn article_list => (Return article_list, s1)
      | TryBreak => (Next, s1)
      | TryRaised (NewsAPIException msg) =>
          if is_rate_limited msg then (Return [], s1)
          else if is_key_invalid msg then (Raised (NewsAPIException msg), s1)
          else if Nat.ltb attempt (max_retries - 1)
          then news_attempts query use_domains max_articles max_retries rest
                 (sleep (2 ^ attempt) s1)
          else (Next, s1)
      | TryRaised _ =>
          if Nat.ltb attempt (max_retries - 1)
          then news_attempts query use_domains max_articles max_retries rest
                 (sleep (2 ^ attempt) s1)
          else (Next, s1)
      end
  end.

Fixpoint news_tiers (query : string) (max_articles max_retries : nat)
  (tiers : list bool) (s : Sys F World) : Flow (list Article) * Sys F World :=
  match tiers with
  | [] => (Next, s)
  | use_domains :: rest =>
      match news_attempts query use_domains max_articles max_retries
              (seq 0 max_retries) s with
      | (Next, s1) => news_tiers query max_articles max_retries rest s1
      | r => r
      end
  end.

Fixpoint news_queries (max_articles max_retries : nat)
  (search_queries : list string) (s : Sys F World)
  : Flow (list Article) * Sys F World :=
  match search_queries with
  | [] => (Next, s)
  | query :: rest =>
      match news_tiers query max_articles max_retries [true; false] s with
      | (Next, s1) => news_queries max_articles max_retries rest s1
      | r => r
      end
  end.

Definition get_news_articles (symbol company_name : string)
  (max_articles max_retries : nat) (s : Sys F World)
  : Res (list Article) * Sys F World :=
  let search_queries := get_smart_search_queries company_name symbol in
  match news_queries max_articles max_retries search_queries s with
  | (Next, s1) => (Ok [], s1)
  | (Return article_list, s1) => (Ok article_list, s1)
  | (Raised e, s1) => (Raise e, s1)
  end.


(** *** The loop over the vendors *)

(** The local state of [process_vendors] and the outside. *)
Record Run := mkRun {
  stats : Stats;
  stock_data : list (StockRow F);
  headline_data : list HeadlineRow;
  sys : Sys F World
}.

Definition set_sys (s : Sys F World) (r : Run) : Run :=
  mkRun (stats r) (stock_data r) (headline_data r) s.

Definition set_stats (st : Stats) (r : Run) : Run :=
  mkRun st (stock_data r) (headline_data r) (sys r).

Definition add_headline (row : HeadlineRow) (r : Run) : Run :=
  mkRun (stats r) (stock_data r) (headline_data r ++ [row]) (sys r).

Definition add_stock_row (row : StockRow F) (r : Run) : Run :=
  mkRun (stats r) (stock_data r ++ [row]) (headline_data r) (sys r).

Definition add_error (msg : string) (st : Stats) : Stats :=
  mkStats (total_vendors st) (stock_success st) (stock_failures st)
          (news_success st) (news_failures st) (total_headlines st)
          (errors st ++ [msg]).

Definition incr_stock_success (st : Stats) : Stats :=
  mkStats (total_vendors st) (stock_success st + 1) (stock_failures st)
          (news_success st) (news_failures st) (total_headlines st)
          (errors st).

Definition incr_stock_failures (st : Stats) : Stats :=
  mkStats (total_vendors st) (stock_success st) (stock_failures st + 1)
          (news_success st) (news_failures st) (total_headlines st)
          (errors st).

Definition incr_news_success (found : nat) (st : Stats) : Stats :=
  mkStats (total_vendors st) (stock_success st) (stock_failures st)
          (news_success st + 1) (news_failures st)
          (total_headlines st + found) (errors st).

Definition incr_news_failures (st : Stats) : Stats :=
  mkStats (total_vendors st) (stock_success st) (stock_failures st)
          (news_success st) (news_failures st + 1) (total_headlines st)
          (errors st).

(** The choice of the classifier in the loop over the articles. *)
Definition classify (analyzer text : string) (s : Sys F World)
  : string * Sys F World :=
  if analyzer =? "vader" then analyze_sentiment_vader text s
  else if analyzer =? "finbert" then analyze_sentiment_finbert text s
  else ("neutral", s).

(** [for article in articles]: one classification and one headline row
    per article. *)
Fixpoint score_articles (analyzer symbol : string) (articles : list Article)
  (article_sentiments : list string) (r : Run) : list string * Run :=
  match articles with
  | [] => (article_sentiments, r)
  | article :: rest =>
      let text_to_analyze := full_text article in
      let (sentiment, s1) := classify analyzer text_to_analyze (sys r) in
      score_articles analyzer symbol rest
        (article_sentiments ++ [sentiment])
        (add_headline (mkHeadlineRow symbol (title article) sentiment)
           (set_sys s1 r))
  end.

(** [v.strip()] on a value read from the vendor record; [None] has no such
    method. *)
Definition py_strip (v : PyVal) : Res string :=
  match v with
  | PyStr s => Ok (PyStr.strip s)
  | PyNone => Raise (Exception "'NoneType' object has no attribute 'strip'")
  end.

(** The stock stage's entry in the statistics. *)
Definition record_stock (symbol : string) (close_price : F) (r : Run) : Run :=
  if f_gt close_price f_zero
  then set_stats (incr_stock_success (stats r)) r
  else set_stats
         (add_error (symbol ++ ": No stock data available")%string
            (incr_stock_failures (stats r))) r.

(** The [if articles: ... else: ...] of the news stage: the sentiments of
    the articles and the headline rows, or the placeholder. *)
Definition record_news (analyzer symbol : string) (articles : list Article)
  (r : Run) : list string * Run :=
  match articles with
  | _ :: _ =>
      score_articles analyzer symbol articles []
        (set_stats (incr_news_success (List.length articles) (stats r)) r)
  | [] =>
      (["N/A"],
       add_headline (mkHeadlineRow symbol "N/A" "N/A")
         (set_stats
            (add_error (symbol ++ ": No articles found")%string
               (incr_news_failures (stats r))) r))
  end.

(** The [try] block of the loop over the vendors.  [Ok tt] is the end of
    the block or the [continue] of a vendor without symbol. *)
Definition vendor_try (analyzer : string) (vendor : PyDict) (r : Run)
  : Res unit * Run :=
  match py_strip (dict_get vendor "symbol" (PyStr "")) with
  | Raise e => (Raise e, r)
  | Ok stripped =>
      let symbol := PyStr.upper stripped in
      match py_strip (dict_get vendor "companyname" (PyStr "")) with
      | Raise e => (Raise e, r)
      | Ok company_name =>
          if negb (PyStr.truthy symbol) then (Ok tt, r)
          else
            match get_stock_data symbol 3 (sys r) with
            | (None, s1) =>
                (Raise (Exception "cannot unpack non-iterable NoneType object"),
                 set_sys s1 r)
            | (Some (close_price, pct_change, volume), s1) =>
                let r1 := record_stock symbol close_price (set_sys s1 r) in
                match get_news_articles symbol company_name 10 3 (sys r1) with
                | (Raise e, s2) => (Raise e, set_sys s2 r1)
                | (Ok articles, s2) =>
                    let (article_sentiments, r3) :=
                      record_news analyzer symbol articles (set_sys s2 r1) in
                    let max_sentiment := get_max_sentiment article_sentiments in
                    (Ok tt,
                     add_stock_row
                       (mkStockRow symbol company_name close_price pct_change
                          volume max_sentiment) r3)
                end
            end
      end
  end.

Definition str_of_nat (n : nat) : string :=
  NilEmpty.string_of_uint (Nat.to_uint n).

(** One round of the loop: the [try] block and its two handlers, both of
    which record the error and go on with the next vendor. *)
Definition process_vendor (analyzer : string) (idx : nat) (vendor : PyDict)
  (r : Run) : Run :=
  match vendor_try analyzer vendor r with
  | (Ok _, r1) => r1
  | (Raise (KeyError msg), r1) =>
      set_stats
        (add_error ("Row " ++ str_of_nat idx ++ ": Missing field " ++ msg)%string
           (stats r1)) r1
  | (Raise e, r1) =>
      set_stats
        (add_error ("Row " ++ str_of_nat idx ++ ": Unexpected error - "
                    ++ exn_str e)%string
           (stats r1)) r1
  end.

(** [for idx, vendor in enumerate(vendors, 1)] from [idx] on. *)
Fixpoint process_loop (analyzer : string) (idx : nat) (vendors : list PyDict)
  (r : Run) : Run :=
  match vendors with
  | [] => r
  | vendor :: rest =>
      process_loop analyzer (S idx) rest (process_vendor analyzer idx vendor r)
  end.

(** [process_vendors] from the list of the records read to the data the
    reports are written from; [None] is the [sys.exit(1)] on an input
    without records. *)
Definition process_vendors (vendors : list PyDict) (analyzer : string)
  (s : Sys F World) : option Run :=
  match vendors with
  | [] => None
  | _ =>
      let stats := mkStats (List.length vendors) 0 0 0 0 0 [] in
      Some (process_loop analyzer 1 vendors (mkRun stats [] [] s))
  end.

End Pipeline.

Arguments Run : clear implicits.
Arguments mkRun {F World}.
Arguments stats {F World}.
Arguments stock_data {F World}.
Arguments headline_data {F World}.
Arguments sys {F World}.

(* ================================================================== *)
(** ** What the statements speak about *)

(** The calls of a stock fetch whose attempts got the outcomes [outs], the
    first of them being attempt number [attempt]: one history call per
    outcome and, between two calls, a sleep of [2 ^ attempt] seconds. *)
Fixpoint stock_events {F} (symbol : string) (attempt : nat)
  (outs : list (HistOutcome F)) : list (Event F) :=
  match outs with
  | [] => []
  | [o] => [EvHistory symbol o]
  | o :: rest =>
      EvHistory symbol o :: EvSleep (2 ^ attempt)
        :: stock_events symbol (S attempt) rest
  end.

(** An outcome on which the [try] block of the stock fetch raises
    something that is not a [KeyError]. *)
Definition raises_other {F} `{FloatOps F} (o : HistOutcome F) : bool :=
  match stock_try o with
  | Raise (KeyError _) => false
  | Raise _ => true
  | Ok _ => false
  end.

(** An outcome on which the [try] block raises a [KeyError]. *)
Definition raises_key_error {F} `{FloatOps F} (o : HistOutcome F) : bool :=
  match stock_try o with
  | Raise (KeyError _) => true
  | _ => false
  end.

(** The kinds of outcome of a history call, read off the data alone.

    An empty window: the call gave a frame without a row. *)
Definition empty_window {F} (o : HistOutcome F) : bool :=
  match o with
  | HistFrame [] => true
  | _ => false
  end.

(** The rows a quote is read from: the latest row and, if there is one,
    the row before it. *)
Definition latest_rows {F} (hist : list (Bar F))
  : option (Bar F * option (Bar F)) :=
  match rev hist with
  | [] => None
  | [latest] => Some (latest, None)
  | latest :: previous :: _ => Some (latest, Some previous)
  end.

(** The latest row has both columns and its volume is not a number that
    [int] converts (a NaN or an infinity: [ValueError], [OverflowError]). *)
Definition volume_not_convertible {F} `{FloatOps F} (hist : list (Bar F))
  : bool :=
  match latest_rows hist with
  | Some (latest, _) =>
      match Close latest, Volume latest with
      | Some _, Some latest_volume =>
          match f_to_int latest_volume with
          | None => true
          | Some _ => false
          end
      | _, _ => false
      end
  | None => false
  end.

(** A column is missing where it is read: the close or the volume of the
    latest row, or the close of the row before it. *)
Definition column_missing {F} (hist : list (Bar F)) : bool :=
  match latest_rows hist with
  | Some (latest, previous) =>
      match Close latest, Volume latest with
      | Some _, Some _ =>
          match previous with
          | Some previous =>
              match Close previous with
              | None => true
              | Some _ => false
              end
          | None => false
          end
      | _, _ => true
      end
  | None => false
  end.

(** A transient error: an error that is not a malformed-data error.  The
    history call raised something other than [KeyError], or the volume of
    the latest row cannot be converted. *)
Definition transient {F} `{FloatOps F} (o : HistOutcome F) : bool :=
  match o with
  | HistException _ => true
  | HistKeyError _ => false
  | HistFrame hist => volume_not_convertible hist
  end.

(** A malformed-data error: the history call raised [KeyError], or the
    frame lacks a column that is read (the close of the row before the
    latest is read only once the volume has been converted). *)
Definition malformed {F} `{FloatOps F} (o : HistOutcome F) : bool :=
  match o with
  | HistKeyError _ => true
  | HistException _ => false
  | HistFrame hist => column_missing hist && negb (volume_not_convertible hist)
  end.

(** The (query, tier) combinations of a fetch, in the order of the nested
    loops. *)
Definition combinations (search_queries : list string)
  : list (string * bool) :=
  flat_map (fun query => [(query, true); (query, false)]) search_queries.

(** The cascade as one loop over the combinations, left at the first one
    that does not end in [Next]. *)
Fixpoint run_combinations {F} `{FloatOps F} {World}
  (C : Collaborators F World) (max_articles max_retries : nat)
  (combos : list (string * bool)) (s : Sys F World)
  : Flow (list Article) * Sys F World :=
  match combos with
  | [] => (Next, s)
  | (query, use_domains) :: rest =>
      match news_attempts C query use_domains max_articles max_retries
              (seq 0 max_retries) s with
      | (Next, s1) => run_combinations C max_articles max_retries rest s1
      | r => r
      end
  end.

(** The (query, tier) of each search call of a trace. *)
Fixpoint search_calls {F} (tr : list (Event F)) : list (string * bool) :=
  match tr with
  | [] => []
  | EvSearch query use_domains _ _ :: rest =>
      (query, use_domains) :: search_calls rest
  | _ :: rest => search_calls rest
  end.

(** A call that gave the fetch no article to return. *)
Definition no_usable {F} (e : Event F) : bool :=
  match e with
  | EvSearch _ _ page_size o =>
      match news_try page_size o with
      | TryReturn _ => false
      | _ => true
      end
  | _ => true
  end.

(** A search call that failed with the rate-limit kind. *)
Definition rate_limit_event {F} (e : Event F) : bool :=
  match e with
  | EvSearch _ _ _ (NewsApiError msg) => is_rate_limited msg
  | _ => false
  end.

(** A search call that failed with the invalid-credential kind: the
    second branch of the handler. *)
Definition invalid_credential_event {F} (e : Event F) : bool :=
  match e with
  | EvSearch _ _ _ (NewsApiError msg) =>
      negb (is_rate_limited msg) && is_key_invalid msg
  | _ => false
  end.

(** A call after which the fetch goes on: it gave no article to return
    and did not fail with one of the two terminal kinds.  Sleeps are
    quiet. *)
Definition quiet {F} (e : Event F) : bool :=
  no_usable e && negb (rate_limit_event e)
  && negb (invalid_credential_event e).

(** What the calls [new] of a fetch say about the way it ended: all calls
    but the last are quiet, and the last one is a search that gave the
    articles returned, or hit the rate limit, or was refused for its
    credential; a fetch that runs through all its loops made quiet calls
    only. *)
Definition explains {F} (max_articles : nat) (new : list (Event F))
  (flow : Flow (list Article)) : Prop :=
  match flow with
  | Next => Forall (fun e => quiet e = true) new
  | Return article_list =>
      exists pre query use_domains o,
        new = pre ++ [EvSearch query use_domains max_articles o]
        /\ Forall (fun e => quiet e = true) pre
        /\ ((article_list <> [] /\ news_try max_articles o = TryReturn article_list)
            \/ (article_list = []
                /\ rate_limit_event
                     (@EvSearch F query use_domains max_articles o) = true))
  | Raised e =>
      exists pre query use_domains msg,
        new = pre ++ [EvSearch query use_domains max_articles (NewsApiError msg)]
        /\ Forall (fun e => quiet e = true) pre
        /\ is_rate_limited msg = false
        /\ is_key_invalid msg = true
        /\ e = NewsAPIException msg
  end.

(** The result of [get_news_articles] for each way its loops end. *)
Definition flow_of_res (r : Res (list Article)) (flow : Flow (list Article))
  : Prop :=
  match flow, r with
  | Next, Ok [] => True
  | Return l, Ok l' => l = l'
  | Raised e, Raise e' => e = e'
  | _, _ => False
  end.

(** A title the fetch keeps. *)
Definition usable_title (t : string) : Prop :=
  t <> "" /\ t <> "[Removed]".

(** What [usable_article] keeps and what it builds. *)
Definition well_formed (a : Article) : Prop :=
  usable_title (title a)
  /\ full_text a
     = PyStr.strip (title a ++ ". " ++ py_format (description a) ++ " "
              ++ py_format (content a))%string.

Definition is_label (s : string) : Prop :=
  s = "bullish" \/ s = "bearish" \/ s = "neutral".

(** [repeat]ed combinations: combination [i] called [nth i counts] times. *)
Fixpoint grouped_calls (combos : list (string * bool)) (counts : list nat)
  : list (string * bool) :=
  match combos, counts with
  | c :: combos', k :: counts' => repeat c k ++ grouped_calls combos' counts'
  | _, _ => []
  end.

(** The cascade in the words of the specification, on the data of the
    responses alone.

    A usable article: its title is a string that is not empty and is not
    the sentinel "[Removed]". *)
Definition usable (article : PyDict) : bool :=
  match dict_get article "title" (PyStr "") with
  | PyStr t => negb (t =? "") && negb (t =? "[Removed]")
  | PyNone => false
  end.

(** The articles a search offers: those of a response with status "ok",
    cut at [max_articles]; none for any other outcome. *)
Definition offered (max_articles : nat) (o : NewsOutcome) : list PyDict :=
  match o with
  | NewsResponse (Some response) =>
      match status response, articles response with
      | Some st, Some arts =>
          if st =? "ok" then firstn max_articles arts else []
      | _, _ => []
      end
  | _ => []
  end.

(** The usable articles of a search, in the order of the response. *)
Definition usable_articles (max_articles : nat) (o : NewsOutcome)
  : list PyDict :=
  filter usable (offered max_articles o).

(** A call that yielded no usable article; a sleep yields none. *)
Definition yields_none {F} (e : Event F) : bool :=
  match e with
  | EvSearch _ _ page_size o =>
      match usable_articles page_size o with
      | [] => true
      | _ => false
      end
  | _ => true
  end.

(** An article as returned stands for an article of the response: it has
    its title, its description and its content. *)
Definition returned_for (a : Article) (article : PyDict) : Prop :=
  dict_get article "title" (PyStr "") = PyStr (title a)
  /\ description a = dict_get article "description" (PyStr "")
  /\ content a = dict_get article "content" (PyStr "").

(** The percent change in the words of the specification:
    [(latest_close - previous_close) / previous_close * 100] rounded to
    two places, on the closes of the two bars. *)
Definition percent_change_spec {F} `{FloatOps F}
  (latest_close previous_close : F) : F :=
  f_round2
    (f_mul (f_div (f_sub latest_close previous_close) previous_close)
           f_hundred).

(* ================================================================== *)
(** ** Exact arithmetic as an instance of the numbers

    The rationals with exact operations, for the examples.  They are not
    the binary floats of the source: [round2] rounds the exact decimal
    value, half to even, where [round(x, 2)] rounds the binary float
    nearest to it (1.015 gives 1.02 here and 1.01 there); a division by
    zero gives 0 here, an infinity or a NaN there; and there is no NaN or
    infinity, so that [int] never raises.  The examples keep to values on
    which the two agree, and no general statement depends on this
    instance, but for the order of the FinBERT scores, which is stated on
    it. *)

Module QFloat.

Definition round_half_even (q : Q) : Z :=
  let fl := Qfloor q in
  match Qcompare (q - inject_Z fl) (1 # 2) with
  | Lt => fl
  | Gt => (fl + 1)%Z
  | Eq => if Z.even fl then fl else (fl + 1)%Z
  end.

Definition round2 (q : Q) : Q :=
  Qred (inject_Z (round_half_even (q * 100)) / 100).

Definition gtb (a b : Q) : bool := negb (Qle_bool a b).

Definition truncate (q : Q) : Z := Z.quot (Qnum q) (Zpos (Qden q)).

#[global] Instance ops : FloatOps Q := {|
  f_zero := 0%Q;
  f_hundred := 100%Q;
  f_pos_threshold := (1 # 20)%Q;
  f_neg_threshold := (- 1 # 20)%Q;
  f_sub := fun a b => Qred (a - b);
  f_mul := fun a b => Qred (a * b);
  f_div := fun a b => Qred (a / b);
  f_round2 := round2;
  f_gt := gtb;
  f_ge := fun a b => Qle_bool b a;
  f_le := Qle_bool;
  f_eq := Qeq_bool;
  f_to_int := fun q => Some (truncate q);
  f_zero_not_positive := eq_refl
|}.

End QFloat.

(* ================================================================== *)
(** ** Scripted collaborators

    A world for running the program on a concrete input: each collaborator
    answers its next call with the head of its script, whatever the
    arguments, and with a fixed answer once the script is used up. *)

Module Scripted.

Record Script := mkScript {
  hist_script : list (HistOutcome Q);
  news_script : list NewsOutcome;
  vader_script : list (VaderOutcome Q);
  finbert_script : list (FinbertOutcome Q)
}.

Definition collaborators : Collaborators Q Script := {|
  yf_history := fun _ w =>
    match hist_script w with
    | [] => (HistFrame [], w)
    | o :: rest =>
        (o, mkScript rest (news_script w) (vader_script w) (finbert_script w))
    end;
  newsapi_get_everything := fun _ _ _ w =>
    match news_script w with
    | [] => (NewsResponse None, w)
    | o :: rest =>
        (o, mkScript (hist_script w) rest (vader_script w) (finbert_script w))
    end;
  polarity_scores := fun _ w =>
    match vader_script w with
    | [] => (VaderError "no score", w)
    | o :: rest =>
        (o, mkScript (hist_script w) (news_script w) rest (finbert_script w))
    end;
  finbert_scores := fun _ w =>
    match finbert_script w with
    | [] => (FinbertUnavailable, w)
    | o :: rest =>
        (o, mkScript (hist_script w) (news_script w) (vader_script w) rest)
    end;
  time_sleep := fun _ w => w
|}.

Definition start (w : Script) : Sys Q Script := mkSys w [].

Definition bar (close volume : Q) : Bar Q := mkBar (Some close) (Some volume).

Definition vendor (symbol companyname : string) : PyDict :=
  [("symbol", PyStr symbol); ("companyname", PyStr companyname)].

Definition news_item (title : string) : PyDict :=
  [("title", PyStr title); ("description", PyNone); ("content", PyStr "")].

Definition ok_response (items : list PyDict) : NewsOutcome :=
  NewsResponse (Some (mkResponse (Some "ok") (Some items))).

End Scripted.

(* ================================================================== *)
(** ** Further parts of the program *)

(** The headline as the console shows it in the loop over the articles:
    cut to 75 characters and marked when the title is longer. *)
Definition display_headline (title : string) : string :=
  if Nat.ltb 75 (String.length title)
  then (substring 0 75 title ++ "...")%string
  else title.

(** What the first lines of the [try] block make of a vendor record: a
    field that is [None] has no [strip], a record without symbol is left
    with [continue], the others reach the stock stage with their
    normalised symbol and company name. *)
Inductive VendorKind :=
| Malformed
| Skipped
| Reached (symbol company_name : string).

Definition vendor_kind (vendor : PyDict) : VendorKind :=
  match dict_get vendor "symbol" (PyStr ""),
        dict_get vendor "companyname" (PyStr "") with
  | PyStr raw_symbol, PyStr raw_name =>
      let symbol := PyStr.upper (PyStr.strip raw_symbol) in
      if PyStr.truthy symbol then Reached symbol (PyStr.strip raw_name)
      else Skipped
  | _, _ => Malformed
  end.

Definition is_reached (vendor : PyDict) : bool :=
  match vendor_kind vendor with Reached _ _ => true | _ => false end.

Definition is_skipped (vendor : PyDict) : bool :=
  match vendor_kind vendor with Skipped => true | _ => false end.

(** The lazily loaded FinBERT model: the two globals, the three steps of
    the load (tokenizer, model, [eval] and [to(device)]) as collaborators
    that may raise, and [load_finbert_model] over them. *)
Module FinbertCache.

Section Loader.

Variables Model Tokenizer World : Type.

Record Globals := mkGlobals {
  finbert_model : option Model;
  finbert_tokenizer : option Tokenizer
}.

Inductive LoadCall := CallTokenizer | CallModel | CallPrepare.

(** [None] and [false] stand for a step that raises. *)
Record Loader := mkLoader {
  tokenizer_from_pretrained : World -> option Tokenizer * World;
  model_from_pretrained : World -> option Model * World;
  prepare : Model -> World -> bool * World
}.

Record State := mkState {
  globals : Globals;
  world : World;
  calls : list LoadCall
}.

(** The result is [Some (model, tokenizer)] or [None] for the pair
    [(None, None)]. *)
Definition load_finbert_model (FINBERT_AVAILABLE : bool) (L : Loader)
  (st : State) : option (Model * Tokenizer) * State :=
  match finbert_model (globals st), finbert_tokenizer (globals st) with
  | Some m, Some t => (Some (m, t), st)
  | _, _ =>
      if negb FINBERT_AVAILABLE then (None, st)
      else
        let (loaded_tokenizer, w1) := tokenizer_from_pretrained L (world st) in
        match loaded_tokenizer with
        | None => (None, mkState (globals st) w1 (calls st ++ [CallTokenizer]))
        | Some t =>
            let (loaded_model, w2) := model_from_pretrained L w1 in
            match loaded_model with
            | None =>
                (None,
                 mkState (mkGlobals (finbert_model (globals st)) (Some t)) w2
                   (calls st ++ [CallTokenizer; CallModel]))
            | Some m =>
                let (prepared, w3) := prepare L m w2 in
                let st' :=
                  mkState (mkGlobals (Some m) (Some t)) w3
                    (calls st ++ [CallTokenizer; CallModel; CallPrepare]) in
                if prepared then (Some (m, t), st') else (None, st')
            end
        end
  end.

End Loader.

Arguments mkGlobals {Model Tokenizer}.
Arguments finbert_model {Model Tokenizer}.
Arguments finbert_tokenizer {Model Tokenizer}.
Arguments mkLoader {Model Tokenizer World}.
Arguments tokenizer_from_pretrained {Model Tokenizer World}.
Arguments model_from_pretrained {Model Tokenizer World}.
Arguments prepare {Model Tokenizer World}.
Arguments mkState {Model Tokenizer World}.
Arguments globals {Model Tokenizer World}.
Arguments world {Model Tokenizer World}.
Arguments calls {Model Tokenizer World}.
Arguments load_finbert_model {Model Tokenizer World}.

(** A loader for the examples: the model is number 7 and the tokenizer
    number 3, and the preparation fails as long as the world is [true]. *)
Definition example_loader : Loader nat nat bool :=
  mkLoader (fun w => (Some 3, w)) (fun w => (Some 7, w))
           (fun _ w => (negb w, false)).

End FinbertCache.

(** A run over four records: one that is reported, one without symbol,
    one with a [None] symbol, and one whose news fetch is refused for its
    credential. *)
Definition accounting_vendors : list PyDict :=
  [Scripted.vendor "pcty" "Paylocity Holding Corp.";
   Scripted.vendor "  " "No Symbol Inc";
   [("symbol", PyNone)];
   Scripted.vendor "fisv" "Fiserv"].

Definition accounting_start : Sys Q Scripted.Script :=
  Scripted.start
    (Scripted.mkScript
       [HistFrame [Scripted.bar 100 5; Scripted.bar 110 7]; HistFrame []]
       [Scripted.ok_response [Scripted.news_item "Paylocity up"];
        NewsApiError "apiKeyInvalid"]
       [VaderCompound (1 # 2)%Q] []).

Definition accounting_example : option (Run Q Scripted.Script) :=
  process_vendors Scripted.collaborators accounting_vendors "vader"
    accounting_start.

(* ================================================================== *)
(** ** Further vocabulary of the statements *)

(** The seconds slept in a trace. *)
Fixpoint total_sleep {F} (tr : list (Event F)) : nat :=
  match tr with
  | [] => 0
  | EvSleep seconds :: rest => seconds + total_sleep rest
  | _ :: rest => total_sleep rest
  end.

(** The number of history calls of a trace. *)
Fixpoint history_calls {F} (tr : list (Event F)) : nat :=
  match tr with
  | [] => 0
  | EvHistory _ _ :: rest => S (history_calls rest)
  | _ :: rest => history_calls rest
  end.

(** The texts given to a classifier in a trace, whichever it is. *)
Fixpoint scored_texts {F} (tr : list (Event F)) : list string :=
  match tr with
  | [] => []
  | EvVader text _ :: rest => text :: scored_texts rest
  | EvFinbert text _ :: rest => text :: scored_texts rest
  | _ :: rest => scored_texts rest
  end.

(** The calls of a trace that are not calls to a classifier. *)
Definition is_scoring {F} (e : Event F) : bool :=
  match e with
  | EvVader _ _ | EvFinbert _ _ => true
  | _ => false
  end.

(** An outcome of a search after which the same combination is tried
    again, if attempts are left: an exception other than the two
    terminal ones.  A response is never such an outcome. *)
Definition retried (o : NewsOutcome) : bool :=
  match o with
  | NewsApiError msg => negb (is_rate_limited msg) && negb (is_key_invalid msg)
  | NewsError _ => true
  | NewsResponse _ => false
  end.

(** The calls of one combination whose attempts got the outcomes [outs],
    the first of them being attempt number [attempt]. *)
Fixpoint search_events {F} (query : string) (use_domains : bool)
  (page_size attempt : nat) (outs : list NewsOutcome) : list (Event F) :=
  match outs with
  | [] => []
  | [o] => [EvSearch query use_domains page_size o]
  | o :: rest =>
      EvSearch query use_domains page_size o :: EvSleep (2 ^ attempt)
        :: search_events query use_domains page_size (S attempt) rest
  end.

(** The calls of a fetch that tried the first combinations of [combos]
    and got the outcomes [outss], one list per combination tried. *)
Fixpoint cascade_events {F} (page_size : nat) (combos : list (string * bool))
  (outss : list (list NewsOutcome)) : list (Event F) :=
  match combos, outss with
  | (query, use_domains) :: combos', outs :: outss' =>
      search_events query use_domains page_size 0 outs
      ++ cascade_events page_size combos' outss'
  | _, _ => []
  end.

(** Every sleep of the trace comes directly after a search that ended in
    an outcome that is retried; [prev] is the call before the trace. *)
Fixpoint sleeps_justified {F} (prev : option (Event F)) (tr : list (Event F))
  : bool :=
  match tr with
  | [] => true
  | e :: rest =>
      match e with
      | EvSleep _ =>
          match prev with
          | Some (EvSearch _ _ _ o) => retried o
          | _ => false
          end
      | _ => true
      end
      && sleeps_justified (Some e) rest
  end.

(** [l] is [l'] with some elements left out. *)
Inductive subsequence {A : Type} : list A -> list A -> Prop :=
| subsequence_nil : subsequence [] []
| subsequence_skip : forall x l l', subsequence l l' -> subsequence l (x :: l')
| subsequence_keep : forall x l l',
    subsequence l l' -> subsequence (x :: l) (x :: l').

(** The symbol and the company name of the vendors that reach the stock
    stage, in the order of the input. *)
Fixpoint reached_vendors (vendors : list PyDict) : list (string * string) :=
  match vendors with
  | [] => []
  | vendor :: rest =>
      match vendor_kind vendor with
      | Reached symbol company_name =>
          (symbol, company_name) :: reached_vendors rest
      | _ => reached_vendors rest
      end
  end.

(** A sentiment a report may carry. *)
Definition is_sentiment (s : string) : Prop := is_label s \/ s = "N/A".

(* ================================================================== *)
(** * Properties *)

(** ** Strings *)

Module PyStrFacts.
Import PyStr.

Lemma length_app (p q : string) :
  String.length (p ++ q)%string = String.length p + String.length q.
Proof. induction p as [|c p IH]; simpl; [reflexivity | now rewrite IH]. Qed.

Lemma endswith_refl (s : string) : endswith s s = true.
Proof. destruct s; cbn [endswith]; now rewrite String.eqb_refl. Qed.

Lemma endswith_app (p suffix : string) : endswith (p ++ suffix) suffix = true.
Proof.
  induction p as [|c p IH].
  - apply endswith_refl.
  - change (endswith (String c (p ++ suffix)) suffix = true).
    cbn [endswith]. rewrite IH.
    now destruct (String.eqb (String c (p ++ suffix)) suffix).
Qed.

Lemma endswith_inv (s suffix : string) :
  endswith s suffix = true -> exists p, s = (p ++ suffix)%string.
Proof.
  induction s as [|c s IH]; cbn [endswith].
  - destruct suffix; [exists ""; reflexivity | discriminate].
  - destruct (String.eqb (String c s) suffix) eqn:E.
    + apply String.eqb_eq in E. exists "". now rewrite <- E.
    + intros H. destruct (IH H) as [p Hp]. exists (String c p).
      simpl. now rewrite Hp.
Qed.

Lemma substring_prefix (p q : string) :
  substring 0 (String.length p) (p ++ q) = p.
Proof.
  induction p as [|c p IH]; simpl.
  - now destruct q.
  - now rewrite IH.
Qed.

Lemma drop_last_app (p suffix : string) :
  suffix <> "" -> drop_last (String.length suffix) (p ++ suffix) = p.
Proof.
  intros Hne. unfold drop_last.
  destruct (String.length suffix) eqn:E.
  - destruct suffix; [congruence | discriminate].
  - rewrite length_app, E.
    replace (String.length p + S n - S n) with (String.length p) by lia.
    apply substring_prefix.
Qed.

Lemma length_lstrip (s : string) : String.length (lstrip s) <= String.length s.
Proof.
  induction s as [|c s IH]; simpl; [lia|].
  destruct (is_space c); simpl; lia.
Qed.

Lemma length_rstrip (s : string) : String.length (rstrip s) <= String.length s.
Proof.
  induction s as [|c s IH]; simpl; [lia|].
  destruct (rstrip s); [destruct (is_space c)|]; simpl in *; lia.
Qed.

Lemma length_strip (s : string) : String.length (strip s) <= String.length s.
Proof.
  unfold strip. etransitivity; [apply length_rstrip | apply length_lstrip].
Qed.

(** Two tails of one string: the shorter is a tail of the longer. *)
Lemma tails_comparable (p1 s1 p2 s2 : string) :
  (p1 ++ s1 = p2 ++ s2)%string ->
  String.length s2 <= String.length s1 ->
  exists x, s1 = (x ++ s2)%string.
Proof.
  revert p2. induction p1 as [|c p1 IH]; intros p2 H Hlen; simpl in H.
  - now exists p2.
  - destruct p2 as [|d p2]; simpl in H.
    + exfalso. rewrite <- H in Hlen. simpl in Hlen. rewrite length_app in Hlen. lia.
    + injection H as _ H. now apply (IH p2).
Qed.

Lemma truthy_true (s : string) : truthy s = true <-> s <> "".
Proof. destruct s; simpl; split; congruence. Qed.

Lemma truthy_false (s : string) : truthy s = false <-> s = "".
Proof. destruct s; simpl; split; congruence. Qed.

End PyStrFacts.

(** ** Sentiment aggregation *)

Section Aggregation.

Let not_na := fun s : string => negb (s =? "N/A").

Lemma forallb_na (l : list string) :
  forallb (fun s => s =? "N/A") l = true <-> Forall (eq "N/A") l.
Proof.
  rewrite forallb_forall, Forall_forall. split; intros H x Hx.
  - symmetry. apply String.eqb_eq. now apply H.
  - apply String.eqb_eq. symmetry. now apply H.
Qed.

Lemma existsb_eqb_in (x : string) (l : list string) :
  existsb (String.eqb x) l = true <-> In x l.
Proof.
  rewrite existsb_exists. split.
  - intros [y [Hy E]]. apply String.eqb_eq in E. now subst.
  - intros H. exists x. split; [assumption | apply String.eqb_refl].
Qed.

Lemma in_valid (x : string) (l : list string) :
  x <> "N/A" -> (In x (filter not_na l) <-> In x l).
Proof.
  intros Hx. rewrite filter_In. unfold not_na. split; [tauto|].
  intros H. split; [assumption|].
  apply negb_true_iff. now apply String.eqb_neq.
Qed.

Lemma valid_nil (l : list string) :
  filter not_na l = [] <-> Forall (eq "N/A") l.
Proof.
  induction l as [|a l IH]; simpl.
  - split; constructor.
  - unfold not_na at 1. destruct (String.eqb_spec a "N/A") as [E|E]; simpl.
    + rewrite IH. split; intros H.
      * constructor; [now symmetry | assumption].
      * now inversion H.
    + split; [discriminate|]. intros H. inversion H. congruence.
Qed.

(** The four cases of [get_max_sentiment]. *)
Lemma get_max_sentiment_cases (l : list string) :
  ((l = [] \/ Forall (eq "N/A") l) /\ get_max_sentiment l = "N/A")
  \/ (In "bullish" l /\ get_max_sentiment l = "bullish")
  \/ (~ In "bullish" l /\ In "neutral" l /\ get_max_sentiment l = "neutral")
  \/ (~ (l = [] \/ Forall (eq "N/A") l) /\ ~ In "bullish" l
      /\ ~ In "neutral" l /\ get_max_sentiment l = "bearish").
Proof.
  unfold get_max_sentiment.
  destruct (forallb (fun s => s =? "N/A") l) eqn:Hall.
  - left. split; [right; now apply forallb_na | now rewrite orb_true_r].
  - assert (Hnot : ~ Forall (eq "N/A") l).
    { intros H. apply forallb_na in H. congruence. }
    destruct l as [|a l]; [discriminate Hall|].
    cbn [orb]. fold not_na.
    destruct (filter not_na (a :: l)) eqn:Hv.
    + exfalso. apply Hnot. now apply valid_nil.
    + rewrite <- Hv. clear Hv.
      destruct (existsb (String.eqb "bullish") (filter not_na (a :: l))) eqn:Hb.
      * right; left. split; [|reflexivity].
        apply existsb_eqb_in in Hb.
        now apply (proj1 (in_valid "bullish" _ ltac:(discriminate))).
      * assert (Hnb : ~ In "bullish" (a :: l)).
        { intros H. apply (proj2 (in_valid "bullish" _ ltac:(discriminate))) in H.
          apply existsb_eqb_in in H. congruence. }
        destruct (existsb (String.eqb "neutral") (filter not_na (a :: l))) eqn:Hn.
        -- right; right; left. split; [assumption|]. split; [|reflexivity].
           apply existsb_eqb_in in Hn.
           now apply (proj1 (in_valid "neutral" _ ltac:(discriminate))).
        -- right; right; right. repeat split; try assumption.
           ++ intros [H|H]; [discriminate | contradiction].
           ++ intros H. apply (proj2 (in_valid "neutral" _ ltac:(discriminate))) in H.
              apply existsb_eqb_in in H. congruence.
Qed.

End Aggregation.

Lemma label_text_inj (a b : SentimentLabel) :
  label_text a = label_text b -> a = b.
Proof. destruct a, b; simpl; congruence. Qed.

Lemma in_label_text (x : SentimentLabel) (labels : list SentimentLabel) :
  In (label_text x) (map label_text labels) <-> In x labels.
Proof.
  rewrite in_map_iff. split.
  - intros [y [E Hy]]. apply label_text_inj in E. now subst.
  - intros H. now exists x.
Qed.

Lemma forall_na_label_text (labels : list SentimentLabel) :
  Forall (eq "N/A") (map label_text labels) <-> Forall (eq NA) labels.
Proof.
  rewrite Forall_map. split; apply Forall_impl; intros a H.
  - apply label_text_inj. exact H.
  - now subst.
Qed.

Lemma votes_nil (labels : list SentimentLabel) :
  filter is_vote labels = [] <-> Forall (eq NA) labels.
Proof.
  induction labels as [|a l IH]; simpl.
  - split; constructor.
  - destruct a; simpl; try (split; [discriminate | intros H; inversion H; discriminate]).
    rewrite IH. split; intros H; [now constructor | now inversion H].
Qed.

Lemma in_votes (x : SentimentLabel) (labels : list SentimentLabel) :
  x <> NA -> (In x (filter is_vote labels) <-> In x labels).
Proof.
  intros Hx. rewrite filter_In. split; [tauto|].
  intros H. split; [assumption | now destruct x].
Qed.

Lemma fold_max_bullish (ls : list SentimentLabel) :
  forall l, In Bullish (l :: ls) -> fold_left max_by_precedence ls l = Bullish.
Proof.
  induction ls as [|a ls IH]; intros l H; simpl in *.
  - destruct H as [H|[]]. assumption.
  - apply IH. destruct H as [H|[H|H]]; subst.
    + left. now destruct a.
    + left. now destruct l.
    + now right.
Qed.

Lemma fold_max_neutral (ls : list SentimentLabel) :
  forall l, ~ In Bullish (l :: ls) -> In Neutral (l :: ls) ->
            fold_left max_by_precedence ls l = Neutral.
Proof.
  induction ls as [|a ls IH]; intros l Hb H; simpl in *.
  - destruct H as [H|[]]. assumption.
  - apply IH.
    + intros [E|E]; [|tauto].
      destruct l, a; cbn in E; try discriminate; tauto.
    + destruct H as [H|[H|H]]; subst.
      * left. destruct a; cbn; try reflexivity. tauto.
      * left. destruct l; cbn; try reflexivity. tauto.
      * now right.
Qed.

Lemma fold_max_bearish (ls : list SentimentLabel) :
  forall l, l <> NA -> ~ In Bullish (l :: ls) -> ~ In Neutral (l :: ls) ->
            fold_left max_by_precedence ls l = Bearish.
Proof.
  induction ls as [|a ls IH]; intros l Hl Hb Hn; simpl in *.
  - destruct l; tauto.
  - assert (E : max_by_precedence l a = Bearish).
    { destruct l, a; cbn; try reflexivity; tauto. }
    rewrite E. apply IH; [discriminate | |]; intros [H|H]; try discriminate; tauto.
Qed.

(** The four cases of the aggregation of the specification. *)
Lemma aggregate_spec_cases (labels : list SentimentLabel) :
  (Forall (eq NA) labels /\ aggregate_spec labels = NA)
  \/ (In Bullish labels /\ aggregate_spec labels = Bullish)
  \/ (~ In Bullish labels /\ In Neutral labels
      /\ aggregate_spec labels = Neutral)
  \/ (~ Forall (eq NA) labels /\ ~ In Bullish labels /\ ~ In Neutral labels
      /\ aggregate_spec labels = Bearish).
Proof.
  unfold aggregate_spec.
  destruct (filter is_vote labels) as [|l ls] eqn:Hv.
  - left. split; [now apply votes_nil | reflexivity].
  - assert (Hnot : ~ Forall (eq NA) labels).
    { intros H. apply votes_nil in H. congruence. }
    assert (Hl : l <> NA).
    { assert (Hin : In l (filter is_vote labels)) by (rewrite Hv; now left).
      apply filter_In in Hin. destruct Hin as [_ Hin]. now destruct l. }
    assert (Hiff : forall x, x <> NA -> (In x (l :: ls) <-> In x labels)).
    { intros x Hx. rewrite <- Hv. now apply in_votes. }
    destruct (in_dec (fun a b : SentimentLabel =>
                        ltac:(decide equality) : {a = b} + {a <> b})
                Bullish (l :: ls)) as [Hb|Hb].
    + right; left. split; [apply Hiff; [discriminate | assumption]|].
      now apply fold_max_bullish.
    + destruct (in_dec (fun a b : SentimentLabel =>
                          ltac:(decide equality) : {a = b} + {a <> b})
                  Neutral (l :: ls)) as [Hn|Hn].
      * right; right; left.
        split; [intros H; apply Hb; apply Hiff; [discriminate | assumption]|].
        split; [apply Hiff; [discriminate | assumption]|].
        now apply fold_max_neutral.
      * right; right; right.
        split; [assumption|].
        split; [intros H; apply Hb; apply Hiff; [discriminate | assumption]|].
        split; [intros H; apply Hn; apply Hiff; [discriminate | assumption]|].
        now apply fold_max_bearish.
Qed.

Lemma na_not_label (l : list string) (x : string) :
  x <> "N/A" -> In x l -> Forall (eq "N/A") l -> False.
Proof.
  intros Hx Hin Hall. rewrite Forall_forall in Hall.
  apply Hx. symmetry. now apply Hall.
Qed.

(** C3. For every sequence of sentiment strings, [get_max_sentiment]
    returns "N/A" if the sequence is empty or every element is "N/A";
    otherwise it returns "bullish" if any element is "bullish", else
    "neutral" if any element is "neutral", else "bearish".  On the four
    labels this is the max-by-precedence reduction of the specification
    ([aggregate_spec]): precedence bullish > neutral > bearish, with N/A
    taking no part in the vote. *)
Theorem get_max_sentiment_spec :
  (forall sentiments : list string,
      ((sentiments = [] \/ Forall (eq "N/A") sentiments) ->
       get_max_sentiment sentiments = "N/A")
      /\ (~ (sentiments = [] \/ Forall (eq "N/A") sentiments) ->
          (In "bullish" sentiments ->
           get_max_sentiment sentiments = "bullish")
          /\ (~ In "bullish" sentiments -> In "neutral" sentiments ->
              get_max_sentiment sentiments = "neutral")
          /\ (~ In "bullish" sentiments -> ~ In "neutral" sentiments ->
              get_max_sentiment sentiments = "bearish")))
  /\ (forall labels : list SentimentLabel,
         get_max_sentiment (map label_text labels)
         = label_text (aggregate_spec labels)).
Proof.
  split.
  - intros l.
    destruct (get_max_sentiment_cases l)
      as [[H E]|[[Hb E]|[[Hnb [Hn E]]|[Hne [Hnb [Hn E]]]]]]; rewrite E.
    + split; [reflexivity | tauto].
    + split.
      * intros [H|H]; [subst; contradiction|].
        exfalso. apply (na_not_label l "bullish"); [discriminate | assumption..].
      * intros _. repeat split; tauto.
    + split.
      * intros [H|H]; [subst; contradiction|].
        exfalso. apply (na_not_label l "neutral"); [discriminate | assumption..].
      * intros _. repeat split; tauto.
    + split; [tauto|]. intros _. repeat split; tauto.
  - intros labels.
    destruct (aggregate_spec_cases labels)
      as [[H E]|[[Hb E]|[[Hnb [Hn E]]|[Hne [Hnb [Hn E]]]]]]; rewrite E; simpl.
    + destruct (get_max_sentiment_cases (map label_text labels))
        as [[H' E']|[[Hb' E']|[[Hnb' [Hn' E']]|[Hne' [_ [_ E']]]]]].
      * assumption.
      * exfalso. apply (na_not_label _ "bullish") in Hb';
          [assumption | discriminate | now apply forall_na_label_text].
      * exfalso. apply (na_not_label _ "neutral") in Hn';
          [assumption | discriminate | now apply forall_na_label_text].
      * exfalso. apply Hne'. right. now apply forall_na_label_text.
    + apply (in_label_text Bullish) in Hb.
      destruct (get_max_sentiment_cases (map label_text labels))
        as [[[H'|H'] E']|[[Hb' E']|[[Hnb' [Hn' E']]|[Hne' [Hnb' [_ E']]]]]];
        try assumption; try contradiction.
      * rewrite H' in Hb. contradiction.
      * exfalso. now apply (na_not_label _ "bullish") in Hb.
    + apply (in_label_text Neutral) in Hn.
      assert (Hnb' : ~ In "bullish" (map label_text labels)).
      { intros H. now apply (in_label_text Bullish) in H. }
      destruct (get_max_sentiment_cases (map label_text labels))
        as [[[H'|H'] E']|[[Hb' E']|[[_ [_ E']]|[_ [_ [Hn' E']]]]]];
        try assumption; try contradiction.
      * rewrite H' in Hn. contradiction.
      * exfalso. now apply (na_not_label _ "neutral") in Hn.
    + assert (Hnb' : ~ In "bullish" (map label_text labels)).
      { intros H. now apply (in_label_text Bullish) in H. }
      assert (Hn' : ~ In "neutral" (map label_text labels)).
      { intros H. now apply (in_label_text Neutral) in H. }
      destruct (get_max_sentiment_cases (map label_text labels))
        as [[[H'|H'] E']|[[Hb' E']|[[_ [Hn'' E']]|[_ [_ [_ E']]]]]];
        try assumption; try contradiction.
      * exfalso. apply Hne. apply forall_na_label_text. rewrite H'. constructor.
      * exfalso. apply Hne. now apply forall_na_label_text.
Qed.

Lemma get_max_sentiment_spec_witness :
  get_max_sentiment ["bearish"; "N/A"; "neutral"] = "neutral"
  /\ get_max_sentiment ["N/A"; "N/A"] = "N/A".
Proof.
  split.
  - apply (proj2 (proj1 get_max_sentiment_spec ["bearish"; "N/A"; "neutral"])).
    + intros [H|H]; [discriminate | inversion H; discriminate].
    + simpl. intros [H|[H|[H|[]]]]; discriminate.
    + simpl. auto.
  - apply (proj1 (proj1 get_max_sentiment_spec ["N/A"; "N/A"])).
    right. repeat constructor.
Defined.

(** The aggregation examples of the specification. *)
Example aggregate_examples :
  get_max_sentiment ["bearish"; "neutral"; "bullish"] = "bullish"
  /\ get_max_sentiment ["bearish"; "neutral"] = "neutral"
  /\ get_max_sentiment ["bearish"] = "bearish"
  /\ get_max_sentiment [] = "N/A"
  /\ get_max_sentiment ["N/A"; "N/A"] = "N/A".
Proof. repeat split. Qed.

(** ** Query generation *)

Section Queries.
Import PyStr PyStrFacts.

Lemma suffixes_nonempty : Forall (fun s => s <> "") suffixes.
Proof. unfold suffixes. repeat constructor; discriminate. Qed.

(** The loop either finds no suffix and leaves the name as it is, or cuts
    the first suffix of the list that the name ends with. *)
Lemma shorten_cases (sufs : list string) (name : string) :
  Forall (fun s => s <> "") sufs ->
  (Forall (fun s => endswith name s = false) sufs
   /\ shorten sufs name = name)
  \/ (exists before suffix after stem,
         sufs = before ++ suffix :: after
         /\ name = (stem ++ suffix)%string
         /\ Forall (fun s => endswith name s = false) before
         /\ shorten sufs name = strip stem
         /\ shorten sufs name <> name).
Proof.
  induction sufs as [|suffix rest IH]; intros Hne.
  - left. split; [constructor | reflexivity].
  - inversion Hne as [|? ? Hs Hrest]; subst. cbn [shorten].
    destruct (endswith name suffix) eqn:E.
    + right. destruct (endswith_inv _ _ E) as [stem Hstem].
      exists [], suffix, rest, stem.
      rewrite Hstem at 2 3. rewrite drop_last_app by assumption.
      repeat split; try assumption; [constructor|].
      intros Heq.
      pose proof (length_strip stem) as Hlen.
      rewrite Heq, Hstem, length_app in Hlen.
      destruct suffix; [congruence | simpl in Hlen; lia].
    + destruct (IH Hrest) as [[Hall Hsame]|
                              [before [suf [after [stem [H1 [H2 [H3 [H4 H5]]]]]]]]].
      * left. split; [now constructor | assumption].
      * right. exists (suffix :: before), suf, after, stem.
        subst rest. repeat split; try assumption. now constructor.
Qed.

Lemma most_specific_first_split (before after : list string) (s : string) :
  most_specific_first (before ++ s :: after) = true ->
  Forall (fun later => endswith later s = false) after.
Proof.
  induction before as [|b before IH]; simpl; intros H.
  - apply andb_true_iff in H. destruct H as [H _].
    rewrite forallb_forall in H. apply Forall_forall. intros x Hx.
    apply negb_true_iff. now apply H.
  - apply andb_true_iff in H. destruct H as [_ H]. now apply IH.
Qed.

Lemma suffixes_most_specific_first : most_specific_first suffixes = true.
Proof. reflexivity. Qed.

(** With the list in that order, the suffix cut off is the longest of the
    suffixes the name ends with. *)
Lemma first_match_longest (before after : list string)
  (suffix stem name : string) :
  most_specific_first (before ++ suffix :: after) = true ->
  name = (stem ++ suffix)%string ->
  Forall (fun s => endswith name s = false) before ->
  Forall (fun s => endswith name s = true ->
                   String.length s <= String.length suffix)
         (before ++ suffix :: after).
Proof.
  intros Hmsf Hname Hbefore.
  apply Forall_app. split.
  - eapply Forall_impl; [|exact Hbefore]. cbn. intros s H1 H2. congruence.
  - constructor; [intros _; lia|].
    pose proof (most_specific_first_split _ _ _ Hmsf) as Hafter.
    eapply Forall_impl; [|exact Hafter]. cbn. intros s Hs Hends.
    destruct (le_lt_dec (String.length s) (String.length suffix)) as [Hle|Hlt];
      [assumption|].
    exfalso. destruct (endswith_inv _ _ Hends) as [p Hp].
    destruct (tails_comparable p s stem suffix) as [x Hx].
    + congruence.
    + lia.
    + rewrite Hx, endswith_app in Hs. discriminate.
Qed.

(** C4. For every company name and symbol, [get_smart_search_queries]
    strips at most one trailing corporate suffix, the first of the list
    that the name ends with (the list is ordered most specific first, so
    this is the longest one that matches), and returns the queries in the
    order: shortened name (only if it differs from the original), full
    company name, shortened name plus symbol (only if a shortened name was
    produced), bare symbol.  For an empty company name the bare symbol is
    the only query.  The shortened name is the name without the suffix,
    stripped of surrounding white space.  In particular the queries for
    "Paylocity Holding Corp." / "PCTY" and for "" / "PCTY" are the ones
    of the specification. *)
Theorem get_smart_search_queries_spec (company_name symbol : string) :
  (company_name = "" ->
   get_smart_search_queries company_name symbol = [symbol])
  /\ (company_name <> "" ->
      (Forall (fun s => endswith company_name s = false) suffixes
       /\ get_smart_search_queries company_name symbol
          = [company_name; symbol])
      \/ (exists before suffix after stem,
             suffixes = before ++ suffix :: after
             /\ company_name = (stem ++ suffix)%string
             /\ Forall (fun s => endswith company_name s = false) before
             /\ Forall (fun s => endswith company_name s = true ->
                                 String.length s <= String.length suffix)
                       suffixes
             /\ strip stem <> company_name
             /\ get_smart_search_queries company_name symbol
                = [strip stem; company_name;
                   (strip stem ++ " " ++ symbol)%string; symbol]))
  /\ most_specific_first suffixes = true
  /\ get_smart_search_queries "Paylocity Holding Corp." "PCTY"
     = ["Paylocity"; "Paylocity Holding Corp."; "Paylocity PCTY"; "PCTY"]
  /\ get_smart_search_queries "" "PCTY" = ["PCTY"].
Proof.
  split; [|split; [|repeat split]].
  - intros ->. reflexivity.
  - intros Hne. unfold get_smart_search_queries.
    apply truthy_true in Hne. rewrite Hne.
    destruct (shorten_cases suffixes company_name suffixes_nonempty)
      as [[Hall Hsame]|[before [suffix [after [stem [H1 [H2 [H3 [H4 H5]]]]]]]]].
    + left. split; [assumption|].
      rewrite Hsame, String.eqb_refl. reflexivity.
    + right. exists before, suffix, after, stem.
      split; [assumption|]. split; [assumption|]. split; [assumption|].
      split.
      { rewrite H1. apply first_match_longest with (stem := stem);
          [rewrite <- H1; reflexivity | assumption | assumption]. }
      rewrite H4 in *. split; [assumption|].
      apply String.eqb_neq in H5. rewrite H5. reflexivity.
Qed.

Lemma get_smart_search_queries_spec_witness :
  get_smart_search_queries "" "FISV" = ["FISV"]
  /\ get_smart_search_queries "Fiserv" "FISV" = ["Fiserv"; "FISV"].
Proof.
  split.
  - exact (proj1 (get_smart_search_queries_spec "" "FISV") eq_refl).
  - destruct (proj1 (proj2 (get_smart_search_queries_spec "Fiserv" "FISV")))
      as [[_ H]|[before [suffix [after [stem [_ [_ [_ [_ [_ H]]]]]]]]]].
    + discriminate.
    + exact H.
    + exfalso.
      change (get_smart_search_queries "Fiserv" "FISV")
        with ["Fiserv"; "FISV"] in H.
      discriminate H.
Defined.

End Queries.

(** ** The stock fetch *)

Section StockFetch.

Context {F : Type} {FO : FloatOps F} {World : Type}.
Variable C : Collaborators F World.

Lemma call_history_trace (symbol : string) (s : Sys F World) :
  trace (snd (call_history C symbol s))
  = trace s ++ [EvHistory symbol (fst (call_history C symbol s))].
Proof.
  unfold call_history. now destruct (yf_history C symbol (world s)).
Qed.

Lemma stock_events_cons (symbol : string) (a : nat) (o : HistOutcome F)
  (rest : list (HistOutcome F)) :
  rest <> [] ->
  stock_events symbol a (o :: rest)
  = EvHistory symbol o :: EvSleep (2 ^ a) :: stock_events symbol (S a) rest.
Proof. destruct rest; [congruence | reflexivity]. Qed.

Lemma stock_events_last (symbol : string) (outs : list (HistOutcome F)) :
  forall a last_o, exists pre,
    stock_events symbol a (outs ++ [last_o]) = pre ++ [EvHistory symbol last_o].
Proof.
  induction outs as [|o outs IH]; intros a last_o.
  - now exists [].
  - destruct (IH (S a) last_o) as [pre Hpre].
    exists (EvHistory symbol o :: EvSleep (2 ^ a) :: pre).
    change ((o :: outs) ++ [last_o]) with (o :: (outs ++ [last_o])).
    rewrite stock_events_cons by (now destruct outs).
    now rewrite Hpre.
Qed.

Lemma transient_ok (o : HistOutcome F) (q : Quote F) :
  stock_try o = Ok q -> raises_other o = false /\ raises_key_error o = false.
Proof. unfold raises_other, raises_key_error. now intros ->. Qed.

(** The loop with [S n] attempts left, the next one being attempt [a]. *)
Lemma stock_attempts_run (symbol : string) (max_retries : nat) :
  forall n a s,
    a + S n = max_retries ->
    exists outs last_o q s',
      stock_attempts C symbol max_retries (seq a (S n)) s = (Some q, s')
      /\ trace s' = trace s ++ stock_events symbol a (outs ++ [last_o])
      /\ List.length outs <= n
      /\ Forall (fun o => raises_other o = true) outs
      /\ (raises_other last_o = true ->
          List.length outs = n /\ q = zero_quote)
      /\ (raises_key_error last_o = true -> q = zero_quote)
      /\ (forall q', stock_try last_o = Ok q' -> q = q').
Proof.
  induction n as [|n IH]; intros a s Ha.
  - cbn [seq stock_attempts].
    pose proof (call_history_trace symbol s) as Htr.
    destruct (call_history C symbol s) as [o s1]. cbn [fst snd] in Htr.
    assert (Hcond : Nat.ltb a (max_retries - 1) = false)
      by (apply Nat.ltb_ge; lia).
    rewrite Hcond.
    destruct (stock_try o) as [q|e] eqn:E.
    + exists [], o, q, s1. unfold raises_other, raises_key_error. rewrite E.
      repeat split; try assumption; try discriminate; try (simpl; lia);
        try (now constructor).
      intros q' Hq. congruence.
    + exists [], o, zero_quote, s1. unfold raises_other, raises_key_error. rewrite E.
      destruct e; repeat split; try assumption; try discriminate;
        try (simpl; lia); try (now constructor).
  - cbn [seq stock_attempts].
    pose proof (call_history_trace symbol s) as Htr.
    destruct (call_history C symbol s) as [o s1]. cbn [fst snd] in Htr.
    assert (Hcond : Nat.ltb a (max_retries - 1) = true)
      by (apply Nat.ltb_lt; lia).
    rewrite Hcond.
    assert (Hretry :
      raises_other o = true ->
      exists outs last_o q s',
        stock_attempts C symbol max_retries (seq (S a) (S n))
          (sleep C (2 ^ a) s1) = (Some q, s')
        /\ trace s' = trace s ++ stock_events symbol a (outs ++ [last_o])
        /\ List.length outs <= S n
        /\ Forall (fun o => raises_other o = true) outs
        /\ (raises_other last_o = true ->
            List.length outs = S n /\ q = zero_quote)
        /\ (raises_key_error last_o = true -> q = zero_quote)
        /\ (forall q', stock_try last_o = Ok q' -> q = q')).
    { intros Ht.
      destruct (IH (S a) (sleep C (2 ^ a) s1) ltac:(lia))
        as [outs [last_o [q [s' [H1 [H2 [H3 [H4 [H5 [H6 H7]]]]]]]]]].
      exists (o :: outs), last_o, q, s'.
      split; [exact H1|]. split.
      { rewrite H2. cbn [sleep trace]. rewrite Htr.
        change ((o :: outs) ++ [last_o]) with (o :: (outs ++ [last_o])).
        rewrite stock_events_cons by (now destruct outs).
        rewrite <- !app_assoc. reflexivity. }
      split; [simpl; lia|]. split; [now constructor|].
      split; [|split; assumption].
      intros Hl. destruct (H5 Hl) as [Hlen Hq]. split; [simpl; lia | assumption]. }
    destruct (stock_try o) as [q|e] eqn:E.
    + exists [], o, q, s1. unfold raises_other, raises_key_error. rewrite E.
      repeat split; try assumption; try discriminate; try (simpl; lia);
        try (now constructor).
      intros q' Hq. congruence.
    + destruct e.
      * exists [], o, zero_quote, s1. unfold raises_other, raises_key_error. rewrite E.
        repeat split; try assumption; try discriminate; try (simpl; lia);
          try (now constructor).
      * apply Hretry. unfold raises_other. now rewrite E.
      * apply Hretry. unfold raises_other. now rewrite E.
Qed.

(** The kinds of outcome read off the data are those the [try] block
    tells apart. *)
Lemma transient_raises (o : HistOutcome F) : transient o = raises_other o.
Proof.
  unfold raises_other, transient, volume_not_convertible, latest_rows.
  destruct o as [msg|msg|hist]; cbn [stock_try]; try reflexivity.
  destruct (rev hist) as [|latest [|previous earlier]]; try reflexivity;
    destruct (Close latest); try reflexivity;
    destruct (Volume latest) as [latest_volume|]; try reflexivity;
    destruct (f_to_int latest_volume); try reflexivity.
  now destruct (Close previous).
Qed.

Lemma malformed_raises (o : HistOutcome F) :
  malformed o = raises_key_error o.
Proof.
  unfold raises_key_error, malformed, column_missing, volume_not_convertible,
    latest_rows.
  destruct o as [msg|msg|hist]; cbn [stock_try]; try reflexivity.
  destruct (rev hist) as [|latest [|previous earlier]]; try reflexivity;
    destruct (Close latest); try reflexivity;
    destruct (Volume latest) as [latest_volume|]; try reflexivity;
    destruct (f_to_int latest_volume); try reflexivity;
    now destruct (Close previous).
Qed.

Lemma empty_window_ok (o : HistOutcome F) :
  empty_window o = true -> stock_try o = Ok zero_quote.
Proof. destruct o as [| |[|bar hist]]; try discriminate. reflexivity. Qed.

(** An outcome is of one kind at most. *)
Lemma transient_exclusive (o : HistOutcome F) :
  transient o = true -> malformed o = false /\ empty_window o = false.
Proof.
  destruct o as [msg|msg|hist]; cbn [transient malformed empty_window];
    try discriminate; [now split|].
  intros Hv. rewrite Hv, andb_false_r. split; [reflexivity|].
  destruct hist; [discriminate Hv | reflexivity].
Qed.

(** C7. For every symbol and every [max_retries >= 1] the stock fetch
    returns a quote after at most [max_retries] history calls, and between
    two consecutive calls it sleeps [2 ^ attempt] seconds.  Every call
    that was followed by another one ended in a transient error: the
    history call raised something other than [KeyError], or the volume
    could not be converted; none of them ended in a malformed-data error
    or gave an empty window.  When the last call ended in a transient
    error too, all [max_retries] attempts are used up and the quote is the
    zero sentinel.  A malformed-data error ([KeyError] from the call, or a
    column missing in the frame) and an empty window each give the zero
    sentinel at the call where they occur, which is therefore the last
    one.  On any other outcome the quote is the one read off the frame. *)
Theorem get_stock_data_retry (symbol : string) (max_retries : nat)
  (s : Sys F World) :
  1 <= max_retries ->
  exists outs last_o q s',
    get_stock_data C symbol max_retries s = (Some q, s')
    /\ trace s' = trace s ++ stock_events symbol 0 (outs ++ [last_o])
    /\ List.length outs < max_retries
    /\ Forall (fun o => transient o = true) outs
    /\ Forall (fun o => malformed o = false /\ empty_window o = false) outs
    /\ (transient last_o = true ->
        S (List.length outs) = max_retries /\ q = zero_quote)
    /\ (malformed last_o = true -> q = zero_quote)
    /\ (empty_window last_o = true -> q = zero_quote)
    /\ (transient last_o = false -> malformed last_o = false ->
        stock_try last_o = Ok q).
Proof.
  intros Hmax. unfold get_stock_data.
  destruct max_retries as [|n]; [lia|].
  destruct (stock_attempts_run symbol (S n) n 0 s eq_refl)
    as [outs [last_o [q [s' [H1 [H2 [H3 [H4 [H5 [H6 H7]]]]]]]]]].
  assert (Hout : Forall (fun o => transient o = true) outs).
  { eapply Forall_impl; [|exact H4]. intros o Ho.
    now rewrite transient_raises. }
  exists outs, last_o, q, s'.
  split; [exact H1|]. split; [exact H2|]. split; [lia|].
  split; [exact Hout|]. split.
  { eapply Forall_impl; [|exact Hout]. apply transient_exclusive. }
  split.
  { rewrite transient_raises. intros Ht. destruct (H5 Ht).
    split; [lia | assumption]. }
  split; [rewrite malformed_raises; exact H6|]. split.
  { intros He. apply H7. now apply empty_window_ok. }
  rewrite transient_raises, malformed_raises.
  unfold raises_other, raises_key_error.
  destruct (stock_try last_o) as [q'|[msg|msg|msg]] eqn:E; try discriminate.
  intros _ _. f_equal. symmetry. now apply H7.
Qed.

End StockFetch.

Lemma get_stock_data_retry_witness :
  exists outs last_o q s',
    get_stock_data Scripted.collaborators "PCTY" 3
      (Scripted.start
         (Scripted.mkScript
            [HistException "timeout"; HistKeyError "'Close'"] [] [] []))
    = (Some q, s')
    /\ trace s' = [] ++ stock_events "PCTY" 0 (outs ++ [last_o])
    /\ List.length outs < 3
    /\ Forall (fun o => transient o = true) outs
    /\ Forall (fun o => malformed o = false /\ empty_window o = false) outs
    /\ (transient last_o = true ->
        S (List.length outs) = 3 /\ q = zero_quote)
    /\ (malformed last_o = true -> q = zero_quote)
    /\ (empty_window last_o = true -> q = zero_quote)
    /\ (transient last_o = false -> malformed last_o = false ->
        stock_try last_o = Ok q).
Proof.
  apply (get_stock_data_retry Scripted.collaborators "PCTY" 3). lia.
Defined.

(** The retry examples: three transient errors use up the three attempts
    with sleeps of 1 and 2 seconds in between; a malformed frame and an
    empty window end the fetch at the first call. *)
Example get_stock_data_exhausted :
  let w := Scripted.mkScript
             [HistException "e1"; HistException "e2"; HistException "e3";
              HistFrame [Scripted.bar 110 7]] [] [] [] in
  let r := get_stock_data Scripted.collaborators "PCTY" 3 (Scripted.start w) in
  fst r = Some (0%Q, 0%Q, 0%Z)
  /\ trace (snd r)
     = [EvHistory "PCTY" (HistException "e1"); EvSleep 1;
        EvHistory "PCTY" (HistException "e2"); EvSleep 2;
        EvHistory "PCTY" (HistException "e3")].
Proof. split; reflexivity. Qed.

Example get_stock_data_no_retry :
  let run := fun o =>
    get_stock_data Scripted.collaborators "PCTY" 3
      (Scripted.start
         (Scripted.mkScript [o; HistFrame [Scripted.bar 110 7]] [] [] [])) in
  (fst (run (HistFrame [])) = Some (0%Q, 0%Q, 0%Z)
   /\ trace (snd (run (HistFrame []))) = [EvHistory "PCTY" (HistFrame [])])
  /\ (fst (run (HistKeyError "'Close'")) = Some (0%Q, 0%Q, 0%Z)
      /\ trace (snd (run (HistKeyError "'Close'")))
         = [EvHistory "PCTY" (HistKeyError "'Close'")]).
Proof. repeat split. Qed.

Section StockQuote.

Context {F : Type} {FO : FloatOps F} {World : Type}.
Variable C : Collaborators F World.

(** A fetch that returns has made a last history call, and the quote is
    what the [try] block makes of that call. *)
Lemma get_stock_data_last (symbol : string) (max_retries : nat)
  (s s' : Sys F World) (q : Quote F) :
  get_stock_data C symbol max_retries s = (Some q, s') ->
  exists pre last_o,
    trace s' = trace s ++ pre ++ [EvHistory symbol last_o]
    /\ (forall q', stock_try last_o = Ok q' -> q = q')
    /\ (forall e, stock_try last_o = Raise e -> q = zero_quote).
Proof.
  intros Hrun. destruct max_retries as [|n]; [discriminate Hrun|].
  destruct (stock_attempts_run C symbol (S n) n 0 s eq_refl)
    as [outs [last_o [q0 [s0 [H1 [H2 [_ [_ [H5 [H6 H7]]]]]]]]]].
  unfold get_stock_data in Hrun. rewrite H1 in Hrun.
  injection Hrun as -> ->.
  destruct (stock_events_last symbol outs 0 last_o) as [pre Hpre].
  exists pre, last_o. rewrite H2, Hpre. split; [reflexivity|].
  split; [exact H7|].
  intros e He. destruct e.
  - apply H6. unfold raises_key_error. now rewrite He.
  - apply H5. unfold raises_other. now rewrite He.
  - apply H5. unfold raises_other. now rewrite He.
Qed.

(** C8. On a stock fetch that returns from a history of at least two
    bars, the percent change of the quote is
    [(latest_close - previous_close) / previous_close * 100] rounded to
    two places, where [latest_close] is the close price of the quote (the
    close of the latest bar, itself rounded to two places when it was
    taken) and [previous_close] the close of the bar before; from a
    history of exactly one bar the percent change is 0.0. *)
Theorem stock_percent_change (symbol : string) (max_retries : nat)
  (s s' : Sys F World) (q : Quote F) (tr : list (Event F))
  (hist : list (Bar F)) :
  get_stock_data C symbol max_retries s = (Some q, s') ->
  trace s' = tr ++ [EvHistory symbol (HistFrame hist)] ->
  (forall earlier previous latest latest_close latest_volume volume prev_close,
      hist = earlier ++ [previous; latest] ->
      Close latest = Some latest_close ->
      Volume latest = Some latest_volume ->
      f_to_int latest_volume = Some volume ->
      Close previous = Some prev_close ->
      let close_price := f_round2 latest_close in
      q = (close_price,
           f_round2
             (f_mul (f_div (f_sub close_price prev_close) prev_close)
                    f_hundred),
           volume))
  /\ (forall latest latest_close latest_volume volume,
         hist = [latest] ->
         Close latest = Some latest_close ->
         Volume latest = Some latest_volume ->
         f_to_int latest_volume = Some volume ->
         q = (f_round2 latest_close, f_zero, volume)).
Proof.
  intros Hrun Htrace.
  destruct (get_stock_data_last _ _ _ _ _ Hrun) as [pre [last_o [Htr [Hok _]]]].
  rewrite Htrace, app_assoc in Htr.
  apply app_inj_tail in Htr. destruct Htr as [_ Hev].
  injection Hev as Hev. subst last_o.
  split.
  - intros earlier previous latest lc lv volume pc -> Hc Hv Hi Hp close_price.
    apply Hok. cbn [stock_try].
    rewrite rev_app_distr. cbn [rev app]. now rewrite Hc, Hv, Hi, Hp.
  - intros latest lc lv volume -> Hc Hv Hi.
    apply Hok. cbn [stock_try rev app]. now rewrite Hc, Hv, Hi.
Qed.

End StockQuote.

(** The close price the percent change is computed from is the rounded
    one: a latest close of 1.004 after a close of 1.00 is reported as 1.00
    with a change of 0.0. *)
Example percent_change_from_rounded_close :
  let w := Scripted.mkScript
             [HistFrame [Scripted.bar 1 5; Scripted.bar (1004 # 1000)%Q 7]]
             [] [] [] in
  fst (get_stock_data Scripted.collaborators "PCTY" 3 (Scripted.start w))
  = Some (1%Q, 0%Q, 7%Z).
Proof. reflexivity. Qed.

Lemma stock_percent_change_witness :
  (let w := Scripted.mkScript
              [HistFrame [Scripted.bar 100 5; Scripted.bar 110 7]] [] [] [] in
   fst (get_stock_data Scripted.collaborators "PCTY" 3 (Scripted.start w))
   = Some (110%Q, 10%Q, 7%Z))
  /\
  (let w := Scripted.mkScript [HistFrame [Scripted.bar 110 7]] [] [] [] in
   fst (get_stock_data Scripted.collaborators "PCTY" 3 (Scripted.start w))
   = Some (110%Q, 0%Q, 7%Z))
  /\
  (let w := Scripted.mkScript
              [HistFrame [Scripted.bar 3 5; Scripted.bar (4004 # 1000)%Q 7]]
              [] [] [] in
   fst (get_stock_data Scripted.collaborators "PCTY" 3 (Scripted.start w))
   = Some (4%Q, (3333 # 100)%Q, 7%Z)).
Proof.
  split; [|split].
  - intros w.
    destruct (get_stock_data Scripted.collaborators "PCTY" 3 (Scripted.start w))
      as [q s'] eqn:E.
    pose proof (stock_percent_change Scripted.collaborators "PCTY" 3
                  (Scripted.start w) s') as H.
    vm_compute in E. injection E as <- <-.
    specialize (H _ [] [Scripted.bar 100 5; Scripted.bar 110 7]
                  eq_refl eq_refl).
    exact (f_equal Some
             (proj1 H [] (Scripted.bar 100 5) (Scripted.bar 110 7)
                110%Q 7%Q 7%Z 100%Q eq_refl eq_refl eq_refl eq_refl eq_refl)).
  - intros w.
    destruct (get_stock_data Scripted.collaborators "PCTY" 3 (Scripted.start w))
      as [q s'] eqn:E.
    pose proof (stock_percent_change Scripted.collaborators "PCTY" 3
                  (Scripted.start w) s') as H.
    vm_compute in E. injection E as <- <-.
    specialize (H _ [] [Scripted.bar 110 7] eq_refl eq_refl).
    exact (f_equal Some
             (proj2 H (Scripted.bar 110 7) 110%Q 7%Q 7%Z
                eq_refl eq_refl eq_refl eq_refl)).
  - intros w.
    destruct (get_stock_data Scripted.collaborators "PCTY" 3 (Scripted.start w))
      as [q s'] eqn:E.
    pose proof (stock_percent_change Scripted.collaborators "PCTY" 3
                  (Scripted.start w) s') as H.
    vm_compute in E. injection E as <- <-.
    specialize (H _ [] [Scripted.bar 3 5; Scripted.bar (4004 # 1000)%Q 7]
                  eq_refl eq_refl).
    exact (f_equal Some
             (proj1 H [] (Scripted.bar 3 5) (Scripted.bar (4004 # 1000)%Q 7)
                (4004 # 1000)%Q 7%Q 7%Z 3%Q
                eq_refl eq_refl eq_refl eq_refl eq_refl)).
Defined.

(** ** The news fetch *)

Section Articles.
Import PyStr PyStrFacts.

Lemma usable_article_some (article : PyDict) (a : Article) :
  usable_article article = Some a ->
  well_formed a /\ dict_get article "title" (PyStr "") = PyStr (title a).
Proof.
  unfold usable_article.
  destruct (dict_get article "title" (PyStr "")) as [|t]; [discriminate|].
  destruct (truthy t) eqn:Ht; [|discriminate].
  destruct (String.eqb_spec t "[Removed]") as [E|E]; [discriminate|].
  cbn [andb negb]. intros H. injection H as <-.
  split; [|reflexivity]. split; [|reflexivity].
  split; [now apply truthy_true | assumption].
Qed.

Lemma collect_articles_well_formed (articles : list PyDict) :
  Forall well_formed (collect_articles articles).
Proof.
  induction articles as [|article rest IH]; cbn [collect_articles].
  - constructor.
  - destruct (usable_article article) as [a|] eqn:E; [|assumption].
    constructor; [|assumption]. now apply usable_article_some in E.
Qed.

Lemma collect_articles_length (articles : list PyDict) :
  List.length (collect_articles articles) <= List.length articles.
Proof.
  induction articles as [|article rest IH]; cbn [collect_articles];
    [simpl; lia|].
  destruct (usable_article article); simpl; lia.
Qed.

(** The [try] block returns only a list that is not empty, read off a
    response with status "ok". *)
Lemma news_try_return (max_articles : nat) (o : NewsOutcome)
  (article_list : list Article) :
  news_try max_articles o = TryReturn article_list ->
  article_list <> []
  /\ exists response arts,
      o = NewsResponse (Some response)
      /\ status response = Some "ok"
      /\ articles response = Some arts
      /\ article_list = collect_articles (firstn max_articles arts).
Proof.
  destruct o as [msg|msg|[response|]]; cbn [news_try]; try discriminate.
  unfold status_ok.
  destruct (status response) as [st|] eqn:Est; [|discriminate].
  destruct (String.eqb_spec st "ok") as [->|]; [|discriminate].
  cbn [negb].
  destruct (articles response) as [[|a arts]|] eqn:Ea; try discriminate.
  destruct (collect_articles (firstn max_articles (a :: arts))) eqn:Ec;
    [discriminate|].
  intros H. injection H as <-. split; [discriminate|].
  exists response, (a :: arts). rewrite Ec. auto.
Qed.

End Articles.

Section NewsFetch.

Context {F : Type} {FO : FloatOps F} {World : Type}.
Variable C : Collaborators F World.

Lemma call_search_trace (query : string) (use_domains : bool)
  (page_size : nat) (s : Sys F World) :
  trace (snd (call_search C query use_domains page_size s))
  = trace s
    ++ [EvSearch query use_domains page_size
          (fst (call_search C query use_domains page_size s))].
Proof.
  unfold call_search.
  now destruct (newsapi_get_everything C query use_domains page_size (world s)).
Qed.

Lemma search_calls_app (a b : list (Event F)) :
  search_calls (a ++ b) = search_calls a ++ search_calls b.
Proof.
  induction a as [|e a IH]; [reflexivity|].
  destruct e; simpl; now rewrite IH.
Qed.

Lemma explains_prepend (max_articles : nat) (pre new : list (Event F))
  (flow : Flow (list Article)) :
  Forall (fun e => quiet e = true) pre ->
  explains max_articles new flow ->
  explains max_articles (pre ++ new) flow.
Proof.
  intros Hpre. destruct flow as [|l|e]; cbn [explains].
  - intros H. apply Forall_app. now split.
  - intros [pre' [q [t [o [H1 [H2 H3]]]]]].
    exists (pre ++ pre'), q, t, o. rewrite H1, app_assoc.
    split; [reflexivity|]. split; [|assumption]. apply Forall_app. now split.
  - intros [pre' [q [t [msg [H1 [H2 H3]]]]]].
    exists (pre ++ pre'), q, t, msg. rewrite H1, app_assoc.
    split; [reflexivity|]. split; [|assumption]. apply Forall_app. now split.
Qed.

(** One combination: the retry loop calls the search for this query and
    tier only, once per attempt at most. *)
Lemma news_attempts_run (query : string) (use_domains : bool)
  (max_articles max_retries : nat) :
  forall attempts s,
    let r := news_attempts C query use_domains max_articles max_retries
               attempts s in
    exists new k,
      trace (snd r) = trace s ++ new
      /\ search_calls new = repeat (query, use_domains) k
      /\ k <= List.length attempts
      /\ (attempts <> [] -> 1 <= k)
      /\ explains max_articles new (fst r).
Proof.
  induction attempts as [|attempt rest IH]; intros s r; subst r.
  - exists [], 0. cbn. rewrite app_nil_r.
    repeat split; try constructor; congruence.
  - cbn [news_attempts].
    pose proof (call_search_trace query use_domains max_articles s) as Htr.
    destruct (call_search C query use_domains max_articles s) as [o s1].
    cbn [fst snd] in Htr.
    set (ev := @EvSearch F query use_domains max_articles o) in *.
    (* the round that goes on with the next attempt or leaves the loop *)
    assert (Hgo :
      quiet ev = true ->
      let r := if Nat.ltb attempt (max_retries - 1)
               then news_attempts C query use_domains max_articles max_retries
                      rest (sleep C (2 ^ attempt) s1)
               else (Next, s1) in
      exists new k,
        trace (snd r) = trace s ++ new
        /\ search_calls new = repeat (query, use_domains) k
        /\ k <= List.length (attempt :: rest)
        /\ (attempt :: rest <> [] -> 1 <= k)
        /\ explains max_articles new (fst r)).
    { intros Hq. destruct (Nat.ltb attempt (max_retries - 1)).
      - destruct (IH (sleep C (2 ^ attempt) s1))
          as [new [k [H1 [H2 [H3 [_ H5]]]]]].
        exists (ev :: EvSleep (2 ^ attempt) :: new), (S k).
        split.
        { rewrite H1. cbn [sleep trace]. rewrite Htr, <- !app_assoc.
          reflexivity. }
        split; [subst ev; cbn; now rewrite H2|].
        split; [simpl; lia|]. split; [lia|].
        apply (explains_prepend max_articles [ev; EvSleep (2 ^ attempt)]);
          [|exact H5].
        repeat constructor. exact Hq.
      - exists [ev], 1. cbn [fst snd].
        repeat split; try assumption; try (simpl; lia).
        cbn [explains]. now repeat constructor. }
    destruct o as [msg|msg|[response|]].
    + (* NewsAPIException *)
      cbn [news_try].
      destruct (is_rate_limited msg) eqn:Erate.
      * exists [ev], 1. cbn [fst snd].
        repeat split; try assumption; try (simpl; lia).
        cbn [explains]. exists [], query, use_domains, (NewsApiError msg).
        split; [reflexivity|]. split; [constructor|]. right. now split.
      * destruct (is_key_invalid msg) eqn:Ekey.
        -- exists [ev], 1. cbn [fst snd].
           repeat split; try assumption; try (simpl; lia).
           cbn [explains]. exists [], query, use_domains, msg.
           repeat split; try assumption; constructor.
        -- apply Hgo. subst ev. unfold quiet. cbn. now rewrite Erate, Ekey.
    + (* another exception *)
      cbn [news_try]. apply Hgo. reflexivity.
    + (* a response *)
      destruct (news_try max_articles (NewsResponse (Some response)))
        as [article_list| |e] eqn:Etry.
      * exists [ev], 1. cbn [fst snd].
        repeat split; try assumption; try (simpl; lia).
        cbn [explains].
        exists [], query, use_domains, (NewsResponse (Some response)).
        split; [reflexivity|]. split; [constructor|]. left.
        split; [|assumption]. now apply news_try_return in Etry.
      * exists [ev], 1. cbn [fst snd].
        repeat split; try assumption; try (simpl; lia).
        cbn [explains]. repeat constructor.
        subst ev. unfold quiet. cbn [no_usable]. now rewrite Etry.
      * exfalso. cbn [news_try] in Etry.
        destruct (negb (status_ok response)); [discriminate|].
        destruct (articles response) as [[|a arts]|]; try discriminate.
        destruct (collect_articles (firstn max_articles (a :: arts)));
          discriminate.
    + (* a falsy response *)
      cbn [news_try]. exists [ev], 1. cbn [fst snd].
      repeat split; try assumption; try (simpl; lia).
      cbn [explains]. now repeat constructor.
Qed.

End NewsFetch.

Section Cascade.

Context {F : Type} {FO : FloatOps F} {World : Type}.
Variable C : Collaborators F World.

Lemma grouped_calls_nil (combos : list (string * bool)) :
  grouped_calls combos [] = [].
Proof. now destruct combos. Qed.

(** The nested loops over the queries and over the two tiers are one loop
    over the combinations. *)
Lemma news_queries_flat (max_articles max_retries : nat) :
  forall search_queries s,
    news_queries C max_articles max_retries search_queries s
    = run_combinations C max_articles max_retries
        (combinations search_queries) s.
Proof.
  induction search_queries as [|query rest IH]; intros s; [reflexivity|].
  cbn [news_queries combinations flat_map app news_tiers run_combinations].
  fold (combinations rest).
  destruct (news_attempts C query true max_articles max_retries
              (seq 0 max_retries) s) as [[|l|e] s1]; try reflexivity.
  destruct (news_attempts C query false max_articles max_retries
              (seq 0 max_retries) s1) as [[|l|e] s2]; try reflexivity.
  apply IH.
Qed.

(** The loop over the combinations: the calls are those of a first part
    of the list, in its order, and their outcomes explain the result. *)
Lemma run_combinations_run (max_articles max_retries : nat) :
  forall combos s,
    let r := run_combinations C max_articles max_retries combos s in
    exists new counts,
      trace (snd r) = trace s ++ new
      /\ search_calls new = grouped_calls combos counts
      /\ List.length counts <= List.length combos
      /\ Forall (fun k => k <= max_retries /\ (1 <= max_retries -> 1 <= k))
                counts
      /\ explains max_articles new (fst r)
      /\ (fst r = Next -> List.length counts = List.length combos).
Proof.
  induction combos as [|[query use_domains] rest IH]; intros s r; subst r.
  - exists [], []. cbn. rewrite app_nil_r. repeat split; constructor.
  - cbn [run_combinations].
    destruct (news_attempts_run C query use_domains max_articles max_retries
                (seq 0 max_retries) s)
      as [new1 [k [H1 [H2 [H3 [H4 H5]]]]]].
    rewrite length_seq in H3.
    assert (Hk : k <= max_retries /\ (1 <= max_retries -> 1 <= k)).
    { split; [assumption|]. intros Hm. apply H4.
      destruct max_retries; [lia | discriminate]. }
    destruct (news_attempts C query use_domains max_articles max_retries
                (seq 0 max_retries) s) as [flow s1].
    cbn [fst snd] in *.
    destruct flow as [|l|e].
    + destruct (IH s1) as [new2 [counts [G1 [G2 [G3 [G4 [G5 G6]]]]]]].
      exists (new1 ++ new2), (k :: counts).
      split; [rewrite G1, H1, app_assoc; reflexivity|].
      split; [rewrite search_calls_app, H2, G2; reflexivity|].
      split; [simpl; lia|]. split; [now constructor|].
      split; [now apply explains_prepend|].
      intros Hn. simpl. now rewrite (G6 Hn).
    + exists new1, [k].
      split; [assumption|].
      split; [cbn [grouped_calls]; now rewrite grouped_calls_nil, app_nil_r|].
      split; [simpl; lia|]. split; [now repeat constructor|].
      split; [assumption | discriminate].
    + exists new1, [k].
      split; [assumption|].
      split; [cbn [grouped_calls]; now rewrite grouped_calls_nil, app_nil_r|].
      split; [simpl; lia|]. split; [now repeat constructor|].
      split; [assumption | discriminate].
Qed.

(** The calls of a whole fetch. *)
Lemma get_news_articles_run (symbol company_name : string)
  (max_articles max_retries : nat) (s : Sys F World) :
  let combos := combinations (get_smart_search_queries company_name symbol) in
  let r := get_news_articles C symbol company_name max_articles max_retries s in
  exists new counts flow,
    trace (snd r) = trace s ++ new
    /\ search_calls new = grouped_calls combos counts
    /\ List.length counts <= List.length combos
    /\ Forall (fun k => k <= max_retries /\ (1 <= max_retries -> 1 <= k))
              counts
    /\ explains max_articles new flow
    /\ flow_of_res (fst r) flow
    /\ (flow = Next -> List.length counts = List.length combos).
Proof.
  intros combos r. subst r. unfold get_news_articles.
  rewrite news_queries_flat. fold combos.
  destruct (run_combinations_run max_articles max_retries combos s)
    as [new [counts [H1 [H2 [H3 [H4 [H5 H6]]]]]]].
  destruct (run_combinations C max_articles max_retries combos s)
    as [flow s1].
  cbn [fst snd] in *.
  exists new, counts, flow.
  destruct flow; cbn [fst snd flow_of_res]; repeat split; assumption.
Qed.

End Cascade.

Lemma last_or_before {A : Type} (pre post pre' : list A) (x y : A) :
  pre ++ x :: post = pre' ++ [y] ->
  (post = [] /\ x = y) \/ In x pre'.
Proof.
  intros H. destruct (exists_last (l := x :: post) ltac:(discriminate))
    as [l [z Hl]].
  destruct post as [|p post].
  - left. split; [reflexivity|].
    apply app_inj_tail in H. now destruct H.
  - right.
    destruct (exists_last (l := p :: post) ltac:(discriminate))
      as [l' [z' Hl']].
    rewrite Hl' in H.
    change (pre ++ x :: l' ++ [z']) with (pre ++ (x :: l') ++ [z']) in H.
    rewrite app_assoc in H. apply app_inj_tail in H. destruct H as [H _].
    rewrite <- H. apply in_or_app. right. now left.
Qed.

Section CascadeWords.
Import PyStr PyStrFacts.

(** The filter of the fetch is the one of the specification: an article
    is kept exactly when it is usable, with its three fields. *)
Lemma usable_article_usable (article : PyDict) :
  match usable_article article with
  | Some a => usable article = true /\ returned_for a article
  | None => usable article = false
  end.
Proof.
  unfold usable_article, usable, returned_for.
  destruct (dict_get article "title" (PyStr "")) as [|t]; [reflexivity|].
  destruct (String.eqb_spec t "") as [->|Hne]; [reflexivity|].
  assert (Ht : truthy t = true) by now apply truthy_true.
  rewrite Ht. cbn [andb negb].
  destruct (t =? "[Removed]"); cbn [negb]; [reflexivity|].
  cbn [title description content]. now repeat split.
Qed.

Lemma collect_articles_usable (articles : list PyDict) :
  Forall2 returned_for (collect_articles articles) (filter usable articles).
Proof.
  induction articles as [|article rest IH]; cbn [collect_articles filter];
    [constructor|].
  pose proof (usable_article_usable article) as H.
  destruct (usable_article article) as [a|].
  - destruct H as [-> H]. now constructor.
  - now rewrite H.
Qed.

(** What the [try] block returns is the list of the usable articles
    offered, and it breaks off only when there is none. *)
Lemma news_try_usable (max_articles : nat) (o : NewsOutcome) :
  match news_try max_articles o with
  | TryReturn article_list =>
      article_list <> []
      /\ Forall2 returned_for article_list (usable_articles max_articles o)
  | _ => usable_articles max_articles o = []
  end.
Proof.
  unfold usable_articles, offered.
  destruct o as [msg|msg|[response|]]; cbn [news_try]; try reflexivity.
  unfold status_ok.
  destruct (status response) as [st|]; [|reflexivity].
  destruct (st =? "ok"); cbn [negb];
    [|now destruct (articles response)].
  destruct (articles response) as [[|a arts]|]; try reflexivity;
    [now rewrite firstn_nil|].
  pose proof (collect_articles_usable (firstn max_articles (a :: arts))) as H.
  destruct (collect_articles (firstn max_articles (a :: arts))) as [|x l].
  - now inversion H.
  - split; [discriminate | exact H].
Qed.

Lemma no_usable_yields_none {F : Type} (e : Event F) :
  no_usable e = true -> yields_none e = true.
Proof.
  destruct e as [|query use_domains page_size o| | |]; try reflexivity.
  cbn [no_usable yields_none].
  pose proof (news_try_usable page_size o) as H.
  destruct (news_try page_size o); try discriminate; now rewrite H.
Qed.

End CascadeWords.

Section CascadeClaims.

Context {F : Type} {FO : FloatOps F} {World : Type}.
Variable C : Collaborators F World.

Lemma quiet_no_usable (e : Event F) : quiet e = true -> no_usable e = true.
Proof.
  unfold quiet. intros H.
  apply andb_true_iff in H. destruct H as [H _].
  apply andb_true_iff in H. now destruct H.
Qed.

Lemma rate_limit_no_usable (e : Event F) :
  rate_limit_event e = true -> no_usable e = true.
Proof. destruct e as [| ? ? ? [ | | ] | | | ]; cbn; congruence. Qed.

Lemma quiet_yields_none (e : Event F) :
  quiet e = true -> yields_none e = true.
Proof. intros H. now apply no_usable_yields_none, quiet_no_usable. Qed.

(** C5. The news fetch calls the search for the (query, tier)
    combinations in the order of the list: the queries in the order
    generated and, for each query, the tier restricted to the business
    domains before the unrestricted one; each combination is called at
    most [max_retries] times and the calls are those of a first part of
    the list.  An article is usable when its title is a string that is
    neither empty nor "[Removed]", and a call yields the usable articles
    among the first [max_articles] articles of a response with status
    "ok".  When the fetch returns articles, its last call yielded them:
    the articles returned are all the usable articles of that call, in
    the order of the response, each with its title, description and
    content, at most [max_articles] of them, and no call before it
    yielded a usable article.  Conversely a call that yields a usable
    article is the last call of the fetch, which then returns articles:
    no later tier or query is tried, and the unrestricted tier of a query
    is reached only after the restricted tier yielded none.  An empty
    result means that no call yielded a usable article, and, unless the
    rate limit was hit, that every combination was tried.  No article
    with an empty title or titled "[Removed]" is ever returned. *)
Theorem news_cascade (symbol company_name : string)
  (max_articles max_retries : nat) (s : Sys F World) :
  let combos := combinations (get_smart_search_queries company_name symbol) in
  let r := get_news_articles C symbol company_name max_articles max_retries s in
  exists new counts,
    trace (snd r) = trace s ++ new
    /\ search_calls new = grouped_calls combos counts
    /\ List.length counts <= List.length combos
    /\ Forall (fun k => k <= max_retries /\ (1 <= max_retries -> 1 <= k))
              counts
    /\ (forall article_list,
          fst r = Ok article_list -> article_list <> [] ->
          exists pre query use_domains o,
            new = pre ++ [EvSearch query use_domains max_articles o]
            /\ Forall (fun e => yields_none e = true) pre
            /\ Forall2 returned_for article_list
                 (usable_articles max_articles o)
            /\ List.length article_list <= max_articles)
    /\ (forall pre e post,
          new = pre ++ e :: post -> yields_none e = false ->
          post = []
          /\ exists article_list,
              fst r = Ok article_list /\ article_list <> [])
    /\ (fst r = Ok [] ->
        Forall (fun e => yields_none e = true) new
        /\ (Forall (fun e => rate_limit_event e = false) new ->
            List.length counts = List.length combos))
    /\ (forall article_list,
          fst r = Ok article_list ->
          Forall (fun a => usable_title (title a)) article_list).
Proof.
  intros combos r.
  destruct (get_news_articles_run C symbol company_name max_articles
              max_retries s)
    as [new [counts [flow [H1 [H2 [H3 [H4 [H5 [H6 H7]]]]]]]]].
  fold combos in H2, H3, H7. fold r in H1, H6.
  exists new, counts.
  split; [assumption|]. split; [assumption|]. split; [assumption|].
  split; [assumption|].
  assert (Hfound : forall article_list,
    fst r = Ok article_list -> article_list <> [] ->
    exists pre query use_domains o,
      new = pre ++ [EvSearch query use_domains max_articles o]
      /\ Forall (fun e => yields_none e = true) pre
      /\ Forall2 returned_for article_list (usable_articles max_articles o)
      /\ List.length article_list <= max_articles
      /\ Forall (fun a => usable_title (title a)) article_list).
  { intros l Hr Hl. rewrite Hr in H6.
    destruct flow as [|l'|e]; cbn [flow_of_res] in H6.
    - destruct l; [congruence | contradiction].
    - subst l'. cbn [explains] in H5.
      destruct H5 as [pre [q [t [o [G1 [G2 [[_ G3]|[G3 _]]]]]]]]; [|congruence].
      pose proof (news_try_usable max_articles o) as Hu. rewrite G3 in Hu.
      destruct (news_try_return _ _ _ G3)
        as [_ [response [arts [-> [E1 [E2 E3]]]]]].
      exists pre, q, t, (NewsResponse (Some response)).
      split; [assumption|].
      split; [eapply Forall_impl; [|exact G2]; apply quiet_yields_none|].
      split; [apply Hu|].
      split.
      + rewrite E3. etransitivity; [apply collect_articles_length|].
        apply firstn_le_length.
      + rewrite E3.
        eapply Forall_impl; [|apply collect_articles_well_formed].
        intros a [Ha _]. exact Ha.
    - contradiction. }
  split.
  { intros l Hr Hl.
    destruct (Hfound l Hr Hl) as [pre [q [t [o [G1 [G2 [G3 [G4 _]]]]]]]].
    now exists pre, q, t, o. }
  split.
  { intros pre e post Hnew He.
    assert (Hloud : quiet e = false).
    { destruct (quiet e) eqn:Eq; [|reflexivity].
      apply quiet_yields_none in Eq. congruence. }
    destruct flow as [|l|ex]; cbn [explains] in H5.
    - exfalso. rewrite Hnew in H5. apply Forall_app in H5.
      destruct H5 as [_ H5]. inversion H5; subst. congruence.
    - destruct H5 as [pre' [q [t [o [G1 [G2 G3]]]]]].
      rewrite Hnew in G1.
      destruct (last_or_before _ _ _ _ _ G1) as [[-> ->]|Hin].
      + split; [reflexivity|].
        destruct G3 as [[G3 _]|[_ G3]].
        * exists l. split; [|assumption].
          destruct (fst r) as [l'|ex]; cbn [flow_of_res] in H6;
            [now subst | contradiction].
        * exfalso. apply rate_limit_no_usable, no_usable_yields_none in G3.
          congruence.
      + exfalso. rewrite Forall_forall in G2. specialize (G2 _ Hin).
        congruence.
    - destruct H5 as [pre' [q [t [msg [G1 [G2 _]]]]]].
      exfalso. rewrite Hnew in G1.
      destruct (last_or_before _ _ _ _ _ G1) as [[_ ->]|Hin].
      + discriminate He.
      + rewrite Forall_forall in G2. specialize (G2 _ Hin). congruence. }
  split.
  - intros Hr. rewrite Hr in H6.
    destruct flow as [|l'|e]; cbn [flow_of_res] in H6; [| |contradiction].
    + cbn [explains] in H5. split.
      * eapply Forall_impl; [|exact H5]. apply quiet_yields_none.
      * intros _. now apply H7.
    + subst l'. cbn [explains] in H5.
      destruct H5 as [pre [q [t [o [G1 [G2 [[G3 _]|[_ G3]]]]]]]]; [congruence|].
      split.
      * rewrite G1. apply Forall_app. split.
        -- eapply Forall_impl; [|exact G2]. apply quiet_yields_none.
        -- constructor; [|constructor].
           now apply no_usable_yields_none, rate_limit_no_usable.
      * intros Hno. exfalso. rewrite G1 in Hno.
        apply Forall_app in Hno. destruct Hno as [_ Hno].
        inversion Hno; subst. congruence.
  - intros l Hr. destruct l as [|a l]; [constructor|].
    destruct (Hfound (a :: l) Hr ltac:(discriminate))
      as [_ [_ [_ [_ [_ [_ [_ [_ Hu]]]]]]]].
    exact Hu.
Qed.

End CascadeClaims.

(** A fetch for "Fiserv Inc": the restricted search for the first query
    gives a removed article only, the unrestricted one fails once and
    then gives two articles, one of them removed; the fetch returns the
    other and tries no further query. *)
Example news_cascade_run :
  let w := Scripted.mkScript []
             [Scripted.ok_response [Scripted.news_item "[Removed]"];
              NewsError "timeout";
              Scripted.ok_response
                [Scripted.news_item "Fiserv beats estimates";
                 Scripted.news_item "[Removed]"];
              Scripted.ok_response [Scripted.news_item "never asked for"]]
             [] [] in
  let r := get_news_articles Scripted.collaborators "FISV" "Fiserv Inc" 10 3
             (Scripted.start w) in
  fst r = Ok [mkArticle "Fiserv beats estimates" PyNone (PyStr "")
                "Fiserv beats estimates. None"]
  /\ search_calls (trace (snd r))
     = [("Fiserv", true); ("Fiserv", false); ("Fiserv", false)].
Proof. split; reflexivity. Qed.

Lemma news_cascade_witness :
  let w := Scripted.mkScript []
             [Scripted.ok_response [Scripted.news_item "[Removed]"];
              Scripted.ok_response
                [Scripted.news_item "Fiserv beats estimates"]] [] [] in
  let r := get_news_articles Scripted.collaborators "FISV" "Fiserv Inc" 10 3
             (Scripted.start w) in
  exists pre query use_domains o,
    trace (snd r) = pre ++ [EvSearch query use_domains 10 o]
    /\ Forall (fun e => yields_none e = true) pre
    /\ Forall2 returned_for
         [mkArticle "Fiserv beats estimates" PyNone (PyStr "")
            "Fiserv beats estimates. None"]
         (usable_articles 10 o).
Proof.
  intros w r.
  destruct (news_cascade Scripted.collaborators "FISV" "Fiserv Inc" 10 3
              (Scripted.start w))
    as [new [counts [Htr [_ [_ [_ [H _]]]]]]].
  destruct (H _ eq_refl ltac:(discriminate))
    as [pre [query [use_domains [o [Hnew [Hpre [Hret _]]]]]]].
  exists pre, query, use_domains, o.
  split; [|split; assumption].
  fold r in Htr. rewrite Htr, Hnew. reflexivity.
Defined.

Section TerminalCalls.

Context {F : Type} {FO : FloatOps F} {World : Type}.
Variable C : Collaborators F World.

(** A call that is not quiet is the last call of its fetch. *)
Lemma loud_call_last (max_articles : nat) (pre post : list (Event F))
  (e : Event F) (flow : Flow (list Article)) :
  explains max_articles (pre ++ e :: post) flow ->
  quiet e = false ->
  post = []
  /\ match flow with
     | Next => False
     | Return article_list =>
         (article_list <> []
          /\ exists query use_domains o,
              e = EvSearch query use_domains max_articles o
              /\ news_try max_articles o = TryReturn article_list)
         \/ (article_list = [] /\ rate_limit_event e = true)
     | Raised x =>
         exists query use_domains msg,
           e = EvSearch query use_domains max_articles (NewsApiError msg)
           /\ is_rate_limited msg = false
           /\ is_key_invalid msg = true
           /\ x = NewsAPIException msg
     end.
Proof.
  intros Hex Hloud.
  assert (Hnot : forall l, Forall (fun e => quiet e = true) l -> ~ In e l).
  { intros l Hl Hin. rewrite Forall_forall in Hl.
    specialize (Hl e Hin). congruence. }
  destruct flow as [|l|x]; cbn [explains] in Hex.
  - exfalso. apply (Hnot _ Hex). apply in_or_app. right. now left.
  - destruct Hex as [pre' [q [t [o [G1 [G2 G3]]]]]].
    destruct (last_or_before _ _ _ _ _ G1) as [[-> ->]|Hin];
      [|exfalso; now apply (Hnot _ G2)].
    split; [reflexivity|].
    destruct G3 as [[G3 G4]|[G3 G4]]; [left | right]; split; try assumption.
    now exists q, t, o.
  - destruct Hex as [pre' [q [t [msg [G1 [G2 [G3 [G4 G5]]]]]]]].
    destruct (last_or_before _ _ _ _ _ G1) as [[-> ->]|Hin];
      [|exfalso; now apply (Hnot _ G2)].
    split; [reflexivity|]. now exists q, t, msg.
Qed.

(** A search that hits the rate limit ends the fetch there, with no
    article. *)
Lemma fetch_rate_limited (symbol company_name : string)
  (max_articles max_retries : nat) (s : Sys F World)
  (pre post : list (Event F)) (e : Event F) :
  let r := get_news_articles C symbol company_name max_articles max_retries s in
  trace (snd r) = trace s ++ pre ++ e :: post ->
  rate_limit_event e = true ->
  post = [] /\ fst r = Ok [].
Proof.
  intros r Htr Hrate.
  destruct (get_news_articles_run C symbol company_name max_articles
              max_retries s)
    as [new [counts [flow [H1 [_ [_ [_ [H5 [H6 _]]]]]]]]].
  fold r in H1, H6. rewrite H1 in Htr. apply app_inv_head in Htr. subst new.
  assert (Hloud : quiet e = false).
  { unfold quiet. rewrite Hrate. cbn. now rewrite andb_false_r. }
  destruct (loud_call_last _ _ _ _ _ H5 Hloud) as [Hpost Hflow].
  split; [assumption|].
  destruct flow as [|l|x]; [contradiction | |].
  - destruct Hflow as [[_ [q [t [o [-> Htry]]]]]|[-> _]].
    + exfalso. destruct o as [msg|msg|[resp|]]; cbn in Hrate, Htry;
        discriminate.
    + destruct (fst r) as [l|x]; cbn [flow_of_res] in H6;
        [now subst | contradiction].
  - exfalso. destruct Hflow as [q [t [msg [-> [G1 _]]]]].
    cbn in Hrate. congruence.
Qed.

(** A search refused for its credential ends the fetch there, with the
    exception of the search. *)
Lemma fetch_invalid_credential (symbol company_name : string)
  (max_articles max_retries : nat) (s : Sys F World)
  (pre post : list (Event F)) (e : Event F) :
  let r := get_news_articles C symbol company_name max_articles max_retries s in
  trace (snd r) = trace s ++ pre ++ e :: post ->
  invalid_credential_event e = true ->
  post = []
  /\ exists query use_domains msg,
      e = EvSearch query use_domains max_articles (NewsApiError msg)
      /\ fst r = Raise (NewsAPIException msg).
Proof.
  intros r Htr Hinv.
  destruct (get_news_articles_run C symbol company_name max_articles
              max_retries s)
    as [new [counts [flow [H1 [_ [_ [_ [H5 [H6 _]]]]]]]]].
  fold r in H1, H6. rewrite H1 in Htr. apply app_inv_head in Htr. subst new.
  assert (Hloud : quiet e = false).
  { unfold quiet. rewrite Hinv. cbn. now rewrite andb_false_r. }
  destruct (loud_call_last _ _ _ _ _ H5 Hloud) as [Hpost Hflow].
  split; [assumption|].
  destruct flow as [|l|x]; [contradiction | |].
  - exfalso. destruct Hflow as [[_ [q [t [o [-> Htry]]]]]|[_ Hrate]].
    + destruct o as [msg|msg|[resp|]]; cbn in Hinv, Htry; discriminate.
    + destruct e as [| ? ? ? [ | | ] | | | ]; cbn in Hinv, Hrate;
        try discriminate.
      rewrite Hrate in Hinv. discriminate.
  - destruct Hflow as [q [t [msg [-> [_ [_ ->]]]]]].
    exists q, t, msg. split; [reflexivity|].
    destruct (fst r) as [l|x]; cbn [flow_of_res] in H6;
      [contradiction | now subst].
Qed.

End TerminalCalls.

(** ** The text that is scored *)

Section FullText.
Import PyStr PyStrFacts.

Lemma lstrip_app_nonspace (t u : string) (c : ascii) :
  is_space c = false ->
  lstrip (t ++ String c u) = (lstrip t ++ String c u)%string.
Proof.
  intros Hc. induction t as [|x t IH]; cbn [append lstrip].
  - now rewrite Hc.
  - now destruct (is_space x).
Qed.

Lemma rstrip_nonspace (u : string) (c : ascii) :
  is_space c = false -> exists tail, rstrip (String c u) = String c tail.
Proof.
  intros Hc. cbn [rstrip]. destruct (rstrip u) as [|y r].
  - rewrite Hc. now exists "".
  - now exists (String y r).
Qed.

Lemma rstrip_app_nonspace (a u : string) (c : ascii) :
  is_space c = false ->
  rstrip (a ++ String c u) = (a ++ rstrip (String c u))%string.
Proof.
  intros Hc. destruct (rstrip_nonspace u c Hc) as [tail Htail].
  induction a as [|x a IH]; [reflexivity|].
  rewrite Htail in *.
  change (rstrip (String x (a ++ String c u))
          = String x (a ++ String c tail)).
  cbn [rstrip]. rewrite IH.
  now destruct a.
Qed.

(** The text built for an article that is kept: the title without its
    leading white space, a full stop, and what is left of the rest. *)
Lemma full_text_shape (a : Article) :
  well_formed a ->
  exists tail, full_text a = (lstrip (title a) ++ "." ++ tail)%string.
Proof.
  intros [_ ->]. unfold strip.
  set (rest := (" " ++ py_format (description a) ++ " "
                ++ py_format (content a))%string).
  change (title a ++ ". " ++ py_format (description a) ++ " "
          ++ py_format (content a))%string
    with (title a ++ String "." rest)%string.
  rewrite lstrip_app_nonspace by reflexivity.
  rewrite rstrip_app_nonspace by reflexivity.
  destruct (rstrip_nonspace rest "." eq_refl) as [tail ->].
  now exists tail.
Qed.

Lemma dotted_not_empty (x tail : string) : (x ++ "." ++ tail)%string <> "".
Proof. destruct x; discriminate. Qed.

Lemma dotted_not_na (x tail : string) : (x ++ "." ++ tail)%string <> "N/A".
Proof.
  destruct x as [|c1 [|c2 [|c3 [|c4 x]]]]; cbn; intros H;
    try discriminate H; injection H; intros; try discriminate;
    try (destruct x; discriminate).
Qed.

Lemma full_text_scorable (a : Article) :
  well_formed a -> full_text a <> "" /\ full_text a <> "N/A".
Proof.
  intros Hwf. destruct (full_text_shape a Hwf) as [tail ->].
  split; [apply dotted_not_empty | apply dotted_not_na].
Qed.

End FullText.

(** ** The loop over the vendors *)

Section Vendors.
Import PyStr PyStrFacts.

Context {F : Type} {FO : FloatOps F} {World : Type}.
Variable C : Collaborators F World.

Lemma classify_label (analyzer text : string) (s : Sys F World) :
  text <> "" -> text <> "N/A" -> is_label (fst (classify C analyzer text s)).
Proof.
  intros H1 H2.
  assert (Hg : negb (truthy text) || (text =? "N/A") = false).
  { apply truthy_true in H1. rewrite H1. cbn. now apply String.eqb_neq. }
  unfold classify, is_label.
  destruct (analyzer =? "vader").
  - unfold analyze_sentiment_vader. rewrite Hg.
    destruct (call_vader C text s) as [[msg|compound] s1]; cbn; auto.
    destruct (f_ge compound f_pos_threshold); cbn; auto.
    destruct (f_le compound f_neg_threshold); cbn; auto.
  - destruct (analyzer =? "finbert"); cbn; auto.
    unfold analyze_sentiment_finbert. rewrite Hg.
    destruct (call_finbert C text s) as [[|msg|ps ns us] s1]; cbn; auto.
    destruct (f_eq ps (f_max3 ps ns us)); cbn; auto.
    destruct (f_eq ns (f_max3 ps ns us)); cbn; auto.
Qed.

(** The loop over the articles: one sentiment and one headline row per
    article, and nothing else changes but the world. *)
Lemma score_articles_run (analyzer symbol : string) :
  forall articles sents (r : Run F World),
    let res := score_articles C analyzer symbol articles sents r in
    exists new_sents,
      fst res = sents ++ new_sents
      /\ List.length new_sents = List.length articles
      /\ stats (snd res) = stats r
      /\ stock_data (snd res) = stock_data r
      /\ headline_data (snd res)
         = headline_data r
           ++ map (fun p => mkHeadlineRow symbol (title (fst p)) (snd p))
                (combine articles new_sents)
      /\ (Forall well_formed articles -> Forall is_label new_sents).
Proof.
  intros arts. induction arts as [|a rest IH]; intros sents r res; subst res.
  - exists []. cbn. rewrite !app_nil_r. repeat split; constructor.
  - cbn [score_articles].
    pose proof (classify_label analyzer (full_text a) (sys r)) as Hlab.
    destruct (classify C analyzer (full_text a) (sys r)) as [sentiment s1].
    cbn [fst] in Hlab.
    destruct (IH (sents ++ [sentiment])
                (add_headline (mkHeadlineRow symbol (title a) sentiment)
                   (set_sys s1 r)))
      as [new [H1 [H2 [H3 [H4 [H5 H6]]]]]].
    exists (sentiment :: new).
    split; [rewrite H1, <- app_assoc; reflexivity|].
    split; [simpl; now rewrite H2|].
    split; [rewrite H3; reflexivity|].
    split; [rewrite H4; reflexivity|].
    split; [rewrite H5; cbn; rewrite <- app_assoc; reflexivity|].
    intros Hwf. inversion Hwf as [|? ? Ha Hrest]; subst.
    constructor; [|now apply H6].
    destruct (full_text_scorable a Ha). now apply Hlab.
Qed.

(** What the fetch returns was built by [usable_article]. *)
Lemma fetched_well_formed (symbol company_name : string)
  (max_articles max_retries : nat) (s : Sys F World)
  (article_list : list Article) :
  fst (get_news_articles C symbol company_name max_articles max_retries s)
  = Ok article_list ->
  Forall well_formed article_list.
Proof.
  intros Hr.
  destruct (get_news_articles_run C symbol company_name max_articles
              max_retries s)
    as [new [counts [flow [_ [_ [_ [_ [H5 [H6 _]]]]]]]]].
  rewrite Hr in H6.
  destruct flow as [|l|e]; cbn [flow_of_res] in H6.
  - destruct article_list; [constructor | contradiction].
  - subst l. cbn [explains] in H5.
    destruct H5 as [pre [q [t [o [_ [_ [[_ G]|[-> _]]]]]]]]; [|constructor].
    destruct (news_try_return _ _ _ G) as [_ [resp [arts [_ [_ [_ ->]]]]]].
    apply collect_articles_well_formed.
  - contradiction.
Qed.

Lemma sys_record_stock (symbol : string) (close_price : F) (r : Run F World) :
  sys (record_stock symbol close_price r) = sys r.
Proof. unfold record_stock. now destruct (f_gt close_price f_zero). Qed.

Lemma rows_record_stock (symbol : string) (close_price : F) (r : Run F World) :
  stock_data (record_stock symbol close_price r) = stock_data r
  /\ headline_data (record_stock symbol close_price r) = headline_data r.
Proof. unfold record_stock. now destruct (f_gt close_price f_zero). Qed.

(** The stock stage counts the vendor once: as a success if the close
    price is greater than zero and as a failure if not. *)
Lemma stats_record_stock (symbol : string) (close_price : F)
  (r : Run F World) :
  let st := stats r in
  let st' := stats (record_stock symbol close_price r) in
  stock_success st'
  = stock_success st + (if f_gt close_price f_zero then 1 else 0)
  /\ stock_failures st'
     = stock_failures st + (if f_gt close_price f_zero then 0 else 1)
  /\ news_success st' = news_success st
  /\ news_failures st' = news_failures st
  /\ total_headlines st' = total_headlines st.
Proof.
  unfold record_stock. destruct (f_gt close_price f_zero); cbn;
    repeat split; lia.
Qed.

(** The news stage. *)
Lemma record_news_run (analyzer symbol : string) (articles : list Article)
  (r : Run F World) :
  let res := record_news C analyzer symbol articles r in
  let st := stats r in
  let st' := stats (snd res) in
  exists hrows,
    stock_data (snd res) = stock_data r
    /\ headline_data (snd res) = headline_data r ++ hrows
    /\ stock_success st' = stock_success st
    /\ stock_failures st' = stock_failures st
    /\ (articles = [] ->
        fst res = ["N/A"]
        /\ hrows = [mkHeadlineRow symbol "N/A" "N/A"]
        /\ news_failures st' = news_failures st + 1
        /\ news_success st' = news_success st
        /\ total_headlines st' = total_headlines st)
    /\ (articles <> [] ->
        List.length (fst res) = List.length articles
        /\ hrows = map (fun p => mkHeadlineRow symbol (title (fst p)) (snd p))
                     (combine articles (fst res))
        /\ (Forall well_formed articles -> Forall is_label (fst res))
        /\ news_success st' = news_success st + 1
        /\ news_failures st' = news_failures st
        /\ total_headlines st' = total_headlines st + List.length articles).
Proof.
  intros res st st'. subst res st st'. unfold record_news.
  destruct articles as [|a rest].
  - exists [mkHeadlineRow symbol "N/A" "N/A"]. cbn.
    repeat split; congruence.
  - destruct (score_articles_run analyzer symbol (a :: rest) []
                (set_stats
                   (incr_news_success (List.length (a :: rest)) (stats r)) r))
      as [new [H1 [H2 [H3 [H4 [H5 H6]]]]]].
    cbn [app] in H1.
    exists (map (fun p => mkHeadlineRow symbol (title (fst p)) (snd p))
              (combine (a :: rest) new)).
    rewrite H1, H3, H4, H5.
    split; [reflexivity|]. split; [reflexivity|].
    split; [reflexivity|]. split; [reflexivity|].
    split; [discriminate|]. intros _.
    repeat split; try assumption; reflexivity.
Qed.

(** The [try] block for a vendor that reaches the stock stage. *)
Lemma vendor_try_reached (analyzer : string) (vendor : PyDict)
  (r : Run F World) (raw_symbol raw_name : string)
  (close_price pct_change : F) (volume : Z) (s1 : Sys F World) :
  dict_get vendor "symbol" (PyStr "") = PyStr raw_symbol ->
  dict_get vendor "companyname" (PyStr "") = PyStr raw_name ->
  upper (strip raw_symbol) <> "" ->
  get_stock_data C (upper (strip raw_symbol)) 3 (sys r)
  = (Some (close_price, pct_change, volume), s1) ->
  vendor_try C analyzer vendor r
  = let symbol := upper (strip raw_symbol) in
    let company_name := strip raw_name in
    let r1 := record_stock symbol close_price (set_sys s1 r) in
    match get_news_articles C symbol company_name 10 3 s1 with
    | (Raise e, s2) => (Raise e, set_sys s2 r1)
    | (Ok articles, s2) =>
        let (article_sentiments, r3) :=
          record_news C analyzer symbol articles (set_sys s2 r1) in
        (Ok tt,
         add_stock_row
           (mkStockRow symbol company_name close_price pct_change volume
              (get_max_sentiment article_sentiments)) r3)
    end.
Proof.
  intros Hs Hn Hne Hstock. unfold vendor_try.
  rewrite Hs, Hn. cbn [py_strip].
  apply truthy_true in Hne. rewrite Hne. cbn [negb].
  rewrite Hstock, sys_record_stock. reflexivity.
Qed.

(** The stock stage always comes back with a quote. *)
Lemma get_stock_data_3 (symbol : string) (s : Sys F World) :
  exists q s1, get_stock_data C symbol 3 s = (Some q, s1).
Proof.
  destruct (stock_attempts_run C symbol 3 2 0 s eq_refl)
    as [_ [_ [q [s1 [H _]]]]].
  now exists q, s1.
Qed.

End Vendors.

Section VendorClaims.
Import PyStr PyStrFacts.

Context {F : Type} {FO : FloatOps F} {World : Type}.
Variable C : Collaborators F World.

Lemma get_max_sentiment_label (sents : list string) :
  sents <> [] -> Forall is_label sents -> is_label (get_max_sentiment sents).
Proof.
  intros Hne Hall. unfold is_label.
  destruct (get_max_sentiment_cases sents)
    as [[[H|H] E]|[[_ E]|[[_ [_ E]]|[_ [_ [_ E]]]]]]; rewrite E; auto.
  - contradiction.
  - exfalso. destruct sents as [|x sents]; [congruence|].
    inversion H; subst. inversion Hall as [|? ? Hx _]; subst.
    destruct Hx as [Hx|[Hx|Hx]]; discriminate Hx.
Qed.

(** A vendor whose stock and news stages both return. *)
Lemma process_vendor_ok (analyzer : string) (idx : nat) (vendor : PyDict)
  (r : Run F World) (raw_symbol raw_name : string)
  (close_price pct_change : F) (volume : Z) (s1 s2 : Sys F World)
  (arts : list Article) :
  dict_get vendor "symbol" (PyStr "") = PyStr raw_symbol ->
  dict_get vendor "companyname" (PyStr "") = PyStr raw_name ->
  let symbol := upper (strip raw_symbol) in
  let company_name := strip raw_name in
  symbol <> "" ->
  get_stock_data C symbol 3 (sys r)
  = (Some (close_price, pct_change, volume), s1) ->
  get_news_articles C symbol company_name 10 3 s1 = (Ok arts, s2) ->
  let r' := process_vendor C analyzer idx vendor r in
  exists sents hrows,
    stock_data r'
    = stock_data r
      ++ [mkStockRow symbol company_name close_price pct_change volume
            (get_max_sentiment sents)]
    /\ headline_data r' = headline_data r ++ hrows
    /\ stock_success (stats r')
       = stock_success (stats r) + (if f_gt close_price f_zero then 1 else 0)
    /\ stock_failures (stats r')
       = stock_failures (stats r) + (if f_gt close_price f_zero then 0 else 1)
    /\ (arts = [] ->
        sents = ["N/A"]
        /\ hrows = [mkHeadlineRow symbol "N/A" "N/A"]
        /\ news_failures (stats r') = news_failures (stats r) + 1
        /\ news_success (stats r') = news_success (stats r))
    /\ (arts <> [] ->
        List.length sents = List.length arts
        /\ Forall is_label sents
        /\ hrows = map (fun p => mkHeadlineRow symbol (title (fst p)) (snd p))
                     (combine arts sents)
        /\ news_success (stats r') = news_success (stats r) + 1
        /\ news_failures (stats r') = news_failures (stats r)).
Proof.
  intros Hs Hn symbol company_name Hne Hstock Hfetch r'. subst r'.
  unfold process_vendor.
  rewrite (vendor_try_reached C analyzer vendor r raw_symbol raw_name
             close_price pct_change volume s1 Hs Hn Hne Hstock).
  cbv zeta. fold symbol company_name. rewrite Hfetch.
  set (r1 := record_stock symbol close_price (set_sys s1 r)).
  destruct (record_news_run C analyzer symbol arts (set_sys s2 r1))
    as [hrows [G1 [G2 [G3 [G4 [G5 G6]]]]]].
  destruct (record_news C analyzer symbol arts (set_sys s2 r1))
    as [sents r3].
  cbn [fst snd] in *.
  destruct (stats_record_stock symbol close_price (set_sys s1 r))
    as [T1 [T2 [T3 [T4 _]]]].
  destruct (rows_record_stock symbol close_price (set_sys s1 r)) as [R1 R2].
  fold r1 in T1, T2, T3, T4, R1, R2.
  cbn [set_sys stats stock_data headline_data add_stock_row] in *.
  exists sents, hrows.
  split; [now rewrite G1, R1|]. split; [now rewrite G2, R2|].
  split; [now rewrite G3, T1|]. split; [now rewrite G4, T2|].
  split.
  - intros Ha. destruct (G5 Ha) as [E1 [E2 [E3 [E4 _]]]].
    repeat split; try assumption; lia.
  - intros Ha. destruct (G6 Ha) as [E1 [E2 [E3 [E4 [E5 _]]]]].
    split; [assumption|]. split.
    { apply E3. eapply fetched_well_formed. now rewrite Hfetch. }
    repeat split; try assumption; lia.
Qed.

(** A vendor whose news fetch raises: the handler records the error, and
    the rows and the news counters stay as they were. *)
Lemma process_vendor_raise (analyzer : string) (idx : nat) (vendor : PyDict)
  (r : Run F World) (raw_symbol raw_name : string)
  (close_price pct_change : F) (volume : Z) (s1 s2 : Sys F World)
  (e : Exn) :
  dict_get vendor "symbol" (PyStr "") = PyStr raw_symbol ->
  dict_get vendor "companyname" (PyStr "") = PyStr raw_name ->
  let symbol := upper (strip raw_symbol) in
  let company_name := strip raw_name in
  symbol <> "" ->
  get_stock_data C symbol 3 (sys r)
  = (Some (close_price, pct_change, volume), s1) ->
  get_news_articles C symbol company_name 10 3 s1 = (Raise e, s2) ->
  let r' := process_vendor C analyzer idx vendor r in
  stock_data r' = stock_data r
  /\ headline_data r' = headline_data r
  /\ sys r' = s2
  /\ stock_success (stats r')
     = stock_success (stats r) + (if f_gt close_price f_zero then 1 else 0)
  /\ stock_failures (stats r')
     = stock_failures (stats r) + (if f_gt close_price f_zero then 0 else 1)
  /\ exists msg, errors (stats r')
                 = errors (stats (record_stock symbol close_price r)) ++ [msg].
Proof.
  intros Hs Hn symbol company_name Hne Hstock Hfetch r'. subst r'.
  unfold process_vendor.
  rewrite (vendor_try_reached C analyzer vendor r raw_symbol raw_name
             close_price pct_change volume s1 Hs Hn Hne Hstock).
  cbv zeta. fold symbol company_name. rewrite Hfetch.
  destruct (stats_record_stock symbol close_price (set_sys s1 r))
    as [T1 [T2 _]].
  destruct (rows_record_stock symbol close_price (set_sys s1 r)) as [R1 R2].
  assert (HE : errors (stats (record_stock symbol close_price (set_sys s1 r)))
               = errors (stats (record_stock symbol close_price r))).
  { unfold record_stock. now destruct (f_gt close_price f_zero). }
  destruct e; cbn [set_sys set_stats add_error stats stock_data headline_data
                     sys stock_success stock_failures errors] in *;
    (split; [assumption|]); (split; [assumption|]); (split; [reflexivity|]);
    (split; [assumption|]); (split; [assumption|]);
    rewrite HE; eexists; reflexivity.
Qed.

(** The loop goes on with the vendors that follow. *)
Lemma process_loop_app (analyzer : string) (before after : list PyDict) :
  forall idx (r : Run F World),
    process_loop C analyzer idx (before ++ after) r
    = process_loop C analyzer (idx + List.length before) after
        (process_loop C analyzer idx before r).
Proof.
  induction before as [|v before IH]; intros idx r; cbn [app process_loop].
  - now rewrite Nat.add_0_r.
  - rewrite IH. cbn [List.length]. now rewrite Nat.add_succ_r.
Qed.

End VendorClaims.

Section PipelineClaims.
Import PyStr PyStrFacts.

Context {F : Type} {FO : FloatOps F} {World : Type}.
Variable C : Collaborators F World.

(** C2 (amended). A vendor record whose symbol is empty after
    normalisation is skipped and gets no row.  For every vendor record
    with a non-empty symbol whose news fetch returns (no exception leaves
    the processing of the vendor), processing appends exactly one
    stock-report row and at least one headline-report row, all for the
    symbol of the vendor: one row per article found, or the placeholder
    row with headline "N/A" and sentiment "N/A" when none was found, the
    stock row then carrying the sentiment "N/A". *)
Theorem vendor_rows (analyzer : string) (idx : nat) (vendor : PyDict)
  (r : Run F World) (raw_symbol raw_name : string) :
  dict_get vendor "symbol" (PyStr "") = PyStr raw_symbol ->
  dict_get vendor "companyname" (PyStr "") = PyStr raw_name ->
  let symbol := upper (strip raw_symbol) in
  let company_name := strip raw_name in
  let r' := process_vendor C analyzer idx vendor r in
  (symbol = "" ->
   stock_data r' = stock_data r /\ headline_data r' = headline_data r)
  /\ (symbol <> "" ->
      forall q s1 arts s2,
        get_stock_data C symbol 3 (sys r) = (Some q, s1) ->
        get_news_articles C symbol company_name 10 3 s1 = (Ok arts, s2) ->
        exists row hrows,
          stock_data r' = stock_data r ++ [row]
          /\ headline_data r' = headline_data r ++ hrows
          /\ hrows <> []
          /\ sr_symbol row = symbol
          /\ Forall (fun h => hr_symbol h = symbol) hrows
          /\ (arts = [] ->
              hrows = [mkHeadlineRow symbol "N/A" "N/A"]
              /\ sr_sentiment row = "N/A")
          /\ (arts <> [] -> List.length hrows = List.length arts)).
Proof.
  intros Hs Hn symbol company_name r'. split.
  - intros Hempty. subst r'. unfold process_vendor, vendor_try.
    rewrite Hs, Hn. cbn [py_strip]. fold symbol. rewrite Hempty.
    cbn. now split.
  - intros Hne [[close_price pct_change] volume] s1 arts s2 Hstock Hfetch.
    destruct (process_vendor_ok C analyzer idx vendor r raw_symbol raw_name
                close_price pct_change volume s1 s2 arts Hs Hn Hne Hstock
                Hfetch)
      as [sents [hrows [H1 [H2 [_ [_ [H5 H6]]]]]]].
    fold symbol company_name r' in H1, H2, H5, H6.
    exists (mkStockRow symbol company_name close_price pct_change volume
              (get_max_sentiment sents)), hrows.
    split; [assumption|]. split; [assumption|].
    destruct arts as [|a arts].
    + destruct (H5 eq_refl) as [E1 [E2 _]]. subst sents hrows.
      split; [discriminate|]. split; [reflexivity|].
      split; [now repeat constructor|].
      split; [now split | congruence].
    + destruct (H6 ltac:(discriminate)) as [E1 [_ [E2 _]]].
      assert (Hlen : List.length hrows = List.length (a :: arts)).
      { rewrite E2, length_map, length_combine, E1. apply Nat.min_id. }
      split; [intros ->; discriminate Hlen|].
      split; [reflexivity|].
      split; [|split; [discriminate | intros _; exact Hlen]].
      rewrite E2. apply Forall_map. apply Forall_forall. now intros p _.
Qed.

(** C6. When a search of the news fetch of a vendor fails with the
    rate-limit kind, that call is the last call of the fetch (no retry,
    no further query or tier) and the fetch returns the empty list; the
    vendor is recorded as a news failure, as for no article found (the
    placeholder headline row, a stock row with sentiment "N/A"), and the
    loop goes on with the vendors that follow. *)
Theorem rate_limit_isolated (analyzer : string) (idx : nat)
  (vendor : PyDict) (rest : list PyDict) (r : Run F World)
  (raw_symbol raw_name : string) (close_price pct_change : F) (volume : Z)
  (s1 : Sys F World) (pre post : list (Event F)) (e : Event F) :
  dict_get vendor "symbol" (PyStr "") = PyStr raw_symbol ->
  dict_get vendor "companyname" (PyStr "") = PyStr raw_name ->
  let symbol := upper (strip raw_symbol) in
  let company_name := strip raw_name in
  symbol <> "" ->
  get_stock_data C symbol 3 (sys r)
  = (Some (close_price, pct_change, volume), s1) ->
  let fetch := get_news_articles C symbol company_name 10 3 s1 in
  trace (snd fetch) = trace s1 ++ pre ++ e :: post ->
  rate_limit_event e = true ->
  let r' := process_vendor C analyzer idx vendor r in
  post = []
  /\ fst fetch = Ok []
  /\ news_failures (stats r') = news_failures (stats r) + 1
  /\ news_success (stats r') = news_success (stats r)
  /\ headline_data r' = headline_data r ++ [mkHeadlineRow symbol "N/A" "N/A"]
  /\ stock_data r'
     = stock_data r
       ++ [mkStockRow symbol company_name close_price pct_change volume "N/A"]
  /\ process_loop C analyzer idx (vendor :: rest) r
     = process_loop C analyzer (S idx) rest r'.
Proof.
  intros Hs Hn symbol company_name Hne Hstock fetch Htr Hrate r'.
  destruct (fetch_rate_limited C symbol company_name 10 3 s1 pre post e
              Htr Hrate) as [Hpost Hres].
  fold fetch in Hres.
  split; [assumption|]. split; [assumption|].
  destruct fetch as [res s2] eqn:Hfetch. cbn [fst] in Hres. subst res.
  destruct (process_vendor_ok C analyzer idx vendor r raw_symbol raw_name
              close_price pct_change volume s1 s2 [] Hs Hn Hne Hstock Hfetch)
    as [sents [hrows [H1 [H2 [_ [_ [H5 _]]]]]]].
  fold symbol company_name r' in H1, H2, H5.
  destruct (H5 eq_refl) as [E1 [E2 [E3 E4]]]. subst sents hrows.
  repeat split; assumption.
Qed.

(** C9 (amended). For every vendor that reaches the stock stage, exactly
    one of the two stock counters is incremented, by one: the failure
    counter if and only if the close price of the quote returned by the
    stock fetch is not greater than zero, which is the case for the zero
    sentinel, and the success counter if and only if it is greater than
    zero. *)
Theorem stock_counted_once (analyzer : string) (idx : nat) (vendor : PyDict)
  (r : Run F World) (raw_symbol raw_name : string)
  (close_price pct_change : F) (volume : Z) (s1 : Sys F World) :
  dict_get vendor "symbol" (PyStr "") = PyStr raw_symbol ->
  dict_get vendor "companyname" (PyStr "") = PyStr raw_name ->
  let symbol := upper (strip raw_symbol) in
  symbol <> "" ->
  get_stock_data C symbol 3 (sys r)
  = (Some (close_price, pct_change, volume), s1) ->
  let r' := process_vendor C analyzer idx vendor r in
  (stock_failures (stats r') = stock_failures (stats r) + 1
   <-> f_gt close_price f_zero = false)
  /\ (stock_success (stats r') = stock_success (stats r) + 1
      <-> f_gt close_price f_zero = true)
  /\ stock_success (stats r') + stock_failures (stats r')
     = stock_success (stats r) + stock_failures (stats r) + 1
  /\ ((close_price, pct_change, volume) = zero_quote ->
      stock_failures (stats r') = stock_failures (stats r) + 1).
Proof.
  intros Hs Hn symbol Hne Hstock r'.
  assert (Hcount :
    stock_success (stats r')
    = stock_success (stats r) + (if f_gt close_price f_zero then 1 else 0)
    /\ stock_failures (stats r')
       = stock_failures (stats r) + (if f_gt close_price f_zero then 0 else 1)).
  { destruct (get_news_articles C symbol (strip raw_name) 10 3 s1)
      as [[arts|e] s2] eqn:Hfetch.
    - destruct (process_vendor_ok C analyzer idx vendor r raw_symbol raw_name
                  close_price pct_change volume s1 s2 arts Hs Hn Hne Hstock
                  Hfetch) as [_ [_ [_ [_ [H3 [H4 _]]]]]].
      now split.
    - destruct (process_vendor_raise C analyzer idx vendor r raw_symbol
                  raw_name close_price pct_change volume s1 s2 e Hs Hn Hne
                  Hstock Hfetch) as [_ [_ [_ [H3 [H4 _]]]]].
      now split. }
  destruct Hcount as [H1 H2].
  assert (Hzero : (close_price, pct_change, volume) = zero_quote ->
                  f_gt close_price f_zero = false).
  { intros E. injection E as -> _ _. apply f_zero_not_positive. }
  destruct (f_gt close_price f_zero) eqn:Hgt.
  - split; [split; [lia | discriminate]|].
    split; [split; [reflexivity | lia]|].
    split; [lia|]. intros E. specialize (Hzero E). discriminate.
  - split; [split; [reflexivity | lia]|].
    split; [split; [lia | discriminate]|].
    split; lia.
Qed.

(** C10 (amended). For every vendor whose news fetch returns at least
    one article, the text scored for each article is not empty and is not
    "N/A": it starts with the title without its leading white space,
    followed by a full stop.  So each article's sentiment is one of
    bullish, bearish and neutral, never "N/A", and so is the sentiment of
    the vendor's stock row; that sentiment is "N/A" only when the fetch
    found no article. *)
Theorem scored_articles_labelled (analyzer : string) (idx : nat)
  (vendor : PyDict) (r : Run F World) (raw_symbol raw_name : string)
  (close_price pct_change : F) (volume : Z) (s1 s2 : Sys F World)
  (arts : list Article) :
  dict_get vendor "symbol" (PyStr "") = PyStr raw_symbol ->
  dict_get vendor "companyname" (PyStr "") = PyStr raw_name ->
  let symbol := upper (strip raw_symbol) in
  let company_name := strip raw_name in
  symbol <> "" ->
  get_stock_data C symbol 3 (sys r)
  = (Some (close_price, pct_change, volume), s1) ->
  get_news_articles C symbol company_name 10 3 s1 = (Ok arts, s2) ->
  let r' := process_vendor C analyzer idx vendor r in
  Forall (fun a => full_text a <> "" /\ full_text a <> "N/A"
                   /\ exists tail,
                       full_text a
                       = (lstrip (title a) ++ "." ++ tail)%string) arts
  /\ exists sents max_sentiment,
      stock_data r'
      = stock_data r
        ++ [mkStockRow symbol company_name close_price pct_change volume
              max_sentiment]
      /\ (arts <> [] ->
          List.length sents = List.length arts
          /\ Forall is_label sents
          /\ headline_data r'
             = headline_data r
               ++ map (fun p => mkHeadlineRow symbol (title (fst p)) (snd p))
                    (combine arts sents)
          /\ is_label max_sentiment)
      /\ (max_sentiment = "N/A" <-> arts = []).
Proof.
  intros Hs Hn symbol company_name Hne Hstock Hfetch r'.
  split.
  - assert (Hwf : Forall well_formed arts).
    { eapply fetched_well_formed. now rewrite Hfetch. }
    eapply Forall_impl; [|exact Hwf]. intros a Ha.
    destruct (full_text_scorable a Ha). auto using full_text_shape.
  - destruct (process_vendor_ok C analyzer idx vendor r raw_symbol raw_name
                close_price pct_change volume s1 s2 arts Hs Hn Hne Hstock
                Hfetch)
      as [sents [hrows [H1 [H2 [_ [_ [H5 H6]]]]]]].
    fold symbol company_name r' in H1, H2, H5, H6.
    exists sents, (get_max_sentiment sents).
    split; [assumption|].
    destruct arts as [|a arts].
    + destruct (H5 eq_refl) as [-> _].
      split; [congruence|]. now split.
    + destruct (H6 ltac:(discriminate)) as [E1 [E2 [E3 _]]].
      assert (Hlab : is_label (get_max_sentiment sents)).
      { apply get_max_sentiment_label; [|assumption].
        intros ->. discriminate E1. }
      split.
      * intros _. rewrite H2, E3. auto.
      * split; [|discriminate]. intros E. rewrite E in Hlab.
        destruct Hlab as [Hl|[Hl|Hl]]; discriminate Hl.
Qed.

End PipelineClaims.

(** ** The claims on concrete runs *)

Import Scripted.

Lemma vendor_rows_witness :
  let w := mkScript [HistFrame [bar 100 5; bar 110 7]]
             [ok_response [news_item "Paylocity up"]]
             [VaderCompound (1 # 2)%Q] [] in
  let r := mkRun (mkStats 1 0 0 0 0 0 []) [] [] (start w) in
  let r' := process_vendor collaborators "vader" 1
              (vendor " pcty " "Paylocity Holding Corp.") r in
  exists row hrows,
    stock_data r' = stock_data r ++ [row]
    /\ headline_data r' = headline_data r ++ hrows
    /\ hrows <> []
    /\ sr_symbol row = "PCTY"
    /\ Forall (fun h => hr_symbol h = "PCTY") hrows
    /\ ([mkArticle "Paylocity up" PyNone (PyStr "") "Paylocity up. None"] = [] ->
        hrows = [mkHeadlineRow "PCTY" "N/A" "N/A"]
        /\ sr_sentiment row = "N/A")
    /\ ([mkArticle "Paylocity up" PyNone (PyStr "") "Paylocity up. None"] <> [] ->
        List.length hrows = 1).
Proof.
  intros w r r'.
  eapply (proj2 (vendor_rows collaborators "vader" 1
                   (vendor " pcty " "Paylocity Holding Corp.") r
                   " pcty " "Paylocity Holding Corp." eq_refl eq_refl)).
  - discriminate.
  - reflexivity.
  - reflexivity.
Defined.

(** C2 as stated fails on a record without symbol: the run over this one
    vendor writes no stock row and no headline row. *)
Lemma vendor_rows_counterexample :
  let vendors := [vendor "  " "Acme Inc"] in
  let w := mkScript [HistFrame [bar 100 5]] [] [] [] in
  exists r,
    process_vendors collaborators vendors "vader" (start w) = Some r
    /\ ~ (List.length (stock_data r) = List.length vendors
          /\ List.length vendors <= List.length (headline_data r)).
Proof.
  intros vendors w. eexists. split; [reflexivity|].
  cbn. intros [H _]. discriminate H.
Qed.

Lemma rate_limit_isolated_witness :
  let w := mkScript [HistFrame [bar 100 5; bar 110 7]; HistFrame [bar 50 9]]
             [NewsApiError "rateLimited";
              ok_response [news_item "Fiserv beats estimates"]]
             [VaderCompound (1 # 2)%Q] [] in
  let r := mkRun (mkStats 2 0 0 0 0 0 []) [] [] (start w) in
  let v := vendor "PCTY" "Paylocity Holding Corp." in
  let r' := process_vendor collaborators "vader" 1 v r in
  news_failures (stats r') = 1
  /\ headline_data r' = [mkHeadlineRow "PCTY" "N/A" "N/A"]
  /\ process_loop collaborators "vader" 1 [v; vendor "FISV" "Fiserv"] r
     = process_loop collaborators "vader" 2 [vendor "FISV" "Fiserv"] r'.
Proof.
  intros w r v r'.
  pose proof (rate_limit_isolated collaborators "vader" 1 v
                [vendor "FISV" "Fiserv"] r "PCTY" "Paylocity Holding Corp."
                110%Q 10%Q 7%Z _ []
                [] (EvSearch "Paylocity" true 10 (NewsApiError "rateLimited"))
                eq_refl eq_refl ltac:(discriminate) eq_refl eq_refl eq_refl)
    as [_ [_ [H1 [_ [H2 [_ H3]]]]]].
  exact (conj H1 (conj H2 H3)).
Defined.

(** After the rate limit on the first vendor the second one is processed
    as usual. *)
Example rate_limit_next_vendor :
  let w := mkScript [HistFrame [bar 100 5; bar 110 7]; HistFrame [bar 50 9]]
             [NewsApiError "rateLimited";
              ok_response [news_item "Fiserv beats estimates"]]
             [VaderCompound (1 # 2)%Q] [] in
  exists r,
    process_vendors collaborators
      [vendor "PCTY" "Paylocity Holding Corp."; vendor "FISV" "Fiserv"]
      "vader" (start w) = Some r
    /\ map sr_symbol (stock_data r) = ["PCTY"; "FISV"]
    /\ map sr_sentiment (stock_data r) = ["N/A"; "bullish"]
    /\ search_calls (trace (sys r)) = [("Paylocity", true); ("Fiserv", true)].
Proof. intros w. eexists. split; [reflexivity|]. repeat split. Qed.

Lemma stock_counted_once_witness :
  let w := mkScript [HistFrame []] [] [] [] in
  let r := mkRun (mkStats 1 0 0 0 0 0 []) [] [] (start w) in
  let r' := process_vendor collaborators "vader" 1 (vendor "PCTY" "") r in
  stock_failures (stats r') = 1.
Proof.
  intros w r r'.
  pose proof (stock_counted_once collaborators "vader" 1 (vendor "PCTY" "")
                r "PCTY" "" 0%Q 0%Q 0%Z _
                eq_refl eq_refl ltac:(discriminate) eq_refl)
    as [_ [_ [_ H]]].
  exact (H eq_refl).
Defined.

(** After a close of 1.00 a latest close of 1.004 is reported as 1.00
    with a percent change of 0.0, where
    [(latest_close - previous_close) / previous_close * 100] rounded to
    two places is 0.4 on the closes of the two bars. *)
Lemma stock_percent_change_counterexample :
  let previous_close := 1%Q in
  let latest_close := (1004 # 1000)%Q in
  let w := mkScript [HistFrame [bar previous_close 5; bar latest_close 7]]
             [] [] [] in
  exists close_price pct_change volume,
    fst (get_stock_data collaborators "PCTY" 3 (start w))
    = Some (close_price, pct_change, volume)
    /\ (percent_change_spec latest_close previous_close == 4 # 10)%Q
    /\ (pct_change == 0)%Q
    /\ ~ (pct_change == percent_change_spec latest_close previous_close)%Q.
Proof.
  intros previous_close latest_close w.
  exists 1%Q, 0%Q, 7%Z. split; [reflexivity|].
  split; [reflexivity|]. split; [reflexivity|].
  intros H. vm_compute in H. discriminate H.
Qed.

(** C9 as stated fails on a negative close price: the quote (-1, 0.0, 3)
    is counted as a stock failure although its close price is not 0. *)
Lemma stock_failure_counterexample :
  let s := start (mkScript [HistFrame [bar (-1) 3]] [] [] []) in
  let r := mkRun (mkStats 1 0 0 0 0 0 []) [] [] s in
  let r' := process_vendor collaborators "vader" 1 (vendor "CL" "Crude") r in
  exists close_price pct_change volume,
    fst (get_stock_data collaborators "CL" 3 s)
    = Some (close_price, pct_change, volume)
    /\ ~ (stock_failures (stats r') = stock_failures (stats r) + 1
          <-> (close_price == 0)%Q).
Proof.
  intros s r r'. exists (-1)%Q, 0%Q, 3%Z. split; [reflexivity|].
  intros [H _]. specialize (H eq_refl). discriminate H.
Qed.

(** In exact arithmetic, and for a close price that is not negative, not
    being greater than zero is being zero. *)
Lemma not_positive_iff_zero (close_price : Q) :
  (0 <= close_price)%Q ->
  (f_gt close_price f_zero = false <-> (close_price == 0)%Q).
Proof.
  intros Hnonneg. cbn. unfold QFloat.gtb.
  rewrite negb_false_iff, Qle_bool_iff. split.
  - intros H. now apply Qle_antisym.
  - intros ->. apply Qle_refl.
Qed.

Lemma scored_articles_labelled_witness :
  let w := mkScript [HistFrame [bar 100 5; bar 110 7]]
             [ok_response [news_item "Paylocity up"]]
             [VaderCompound (1 # 2)%Q] [] in
  let r := mkRun (mkStats 1 0 0 0 0 0 []) [] [] (start w) in
  Forall (fun a => full_text a <> "" /\ full_text a <> "N/A"
                   /\ exists tail,
                       full_text a
                       = (PyStr.lstrip (title a) ++ "." ++ tail)%string)
    [mkArticle "Paylocity up" PyNone (PyStr "") "Paylocity up. None"].
Proof.
  intros w r.
  exact (proj1 (scored_articles_labelled collaborators "vader" 1
                  (vendor "PCTY" "Paylocity") r "PCTY" "Paylocity"
                  110%Q 10%Q 7%Z _ _ _
                  eq_refl eq_refl ltac:(discriminate) eq_refl eq_refl)).
Defined.

(** C10 as stated fails on a title that starts with white space: the text
    scored does not contain the title. *)
Lemma full_text_title_counterexample :
  let w := mkScript []
             [ok_response [[("title", PyStr " Fiserv surges")]]] [] [] in
  exists a,
    fst (get_news_articles collaborators "FISV" "Fiserv" 10 3 (start w))
    = Ok [a]
    /\ title a = " Fiserv surges"
    /\ full_text a = "Fiserv surges."
    /\ ~ (PyStr.contains (title a) (full_text a) = true).
Proof.
  intros w. eexists. split; [reflexivity|]. cbn.
  split; [reflexivity|]. split; [reflexivity|]. discriminate.
Qed.

(** C1 on the code: the credential is refused at the first search of the
    first vendor; the exception leaves the fetch, is caught by the
    handler of the loop and recorded as an error of row 1, and the second
    vendor is processed: its stock is fetched and its news searched. *)
Theorem invalid_credential_run_continues :
  let w := mkScript [HistFrame [bar 100 5; bar 110 7]; HistFrame [bar 50 9]]
             [NewsApiError "apiKeyInvalid"; NewsApiError "apiKeyInvalid"]
             [] [] in
  let vendors :=
    [vendor "PCTY" "Paylocity Holding Corp."; vendor "FISV" "Fiserv"] in
  fst (get_news_articles collaborators "PCTY" "Paylocity Holding Corp." 10 3
         (snd (get_stock_data collaborators "PCTY" 3 (start w))))
  = Raise (NewsAPIException "apiKeyInvalid")
  /\ exists r,
      process_vendors collaborators vendors "vader" (start w) = Some r
      /\ trace (sys r)
         = [EvHistory "PCTY" (HistFrame [bar 100 5; bar 110 7]);
            EvSearch "Paylocity" true 10 (NewsApiError "apiKeyInvalid");
            EvHistory "FISV" (HistFrame [bar 50 9]);
            EvSearch "Fiserv" true 10 (NewsApiError "apiKeyInvalid")]
      /\ errors (stats r)
         = ["Row 1: Unexpected error - apiKeyInvalid";
            "Row 2: Unexpected error - apiKeyInvalid"]
      /\ stock_success (stats r) = 2
      /\ stock_data r = []
      /\ headline_data r = [].
Proof.
  intros w vendors. split; [reflexivity|].
  eexists. split; [reflexivity|]. repeat split.
Qed.

(* ================================================================== *)
(** * Further properties *)

(** ** Aggregation as an operation on lists *)

Section AggregationAlgebra.

Let is_na := fun s : string => s =? "N/A".

(** The result in terms of three tests on the list. *)
Lemma get_max_sentiment_tests (l : list string) :
  get_max_sentiment l
  = if forallb is_na l then "N/A"
    else if existsb (String.eqb "bullish") l then "bullish"
    else if existsb (String.eqb "neutral") l then "neutral"
    else "bearish".
Proof.
  assert (Hex : forall x, ~ In x l -> existsb (String.eqb x) l = false).
  { intros x Hx. destruct (existsb (String.eqb x) l) eqn:E; [|reflexivity].
    apply existsb_eqb_in in E. contradiction. }
  assert (Hin : forall x, In x l -> existsb (String.eqb x) l = true).
  { intros x Hx. now apply existsb_eqb_in. }
  assert (Hnot : forall x, x <> "N/A" -> In x l -> forallb is_na l = false).
  { intros x Hx Hi. destruct (forallb is_na l) eqn:E; [|reflexivity].
    apply forallb_na in E. exfalso. exact (na_not_label l x Hx Hi E). }
  destruct (get_max_sentiment_cases l)
    as [[H E]|[[Hb E]|[[Hnb [Hn E]]|[Hne [Hnb [Hn E]]]]]]; rewrite E.
  - assert (Hall : forallb is_na l = true).
    { destruct H as [->|H]; [reflexivity | now apply forallb_na]. }
    now rewrite Hall.
  - rewrite (Hnot "bullish") by (assumption || discriminate).
    now rewrite Hin.
  - rewrite (Hnot "neutral") by (assumption || discriminate).
    now rewrite (Hex "bullish"), Hin.
  - assert (Hall : forallb is_na l = false).
    { destruct (forallb is_na l) eqn:E'; [|reflexivity].
      exfalso. apply Hne. right. now apply forallb_na. }
    now rewrite Hall, (Hex "bullish"), (Hex "neutral").
Qed.

Lemma all_na_no_label (l : list string) (x : string) :
  x <> "N/A" -> forallb is_na l = true -> existsb (String.eqb x) l = false.
Proof.
  intros Hx Hall. destruct (existsb (String.eqb x) l) eqn:E; [|reflexivity].
  apply existsb_eqb_in in E. apply forallb_na in Hall.
  exfalso. exact (na_not_label l x Hx E Hall).
Qed.

Lemma forallb_permutation {A : Type} (f : A -> bool) (l1 l2 : list A) :
  Permutation l1 l2 -> forallb f l1 = forallb f l2.
Proof.
  induction 1; cbn; try congruence.
  now rewrite !andb_assoc, (andb_comm (f y)).
Qed.

Lemma existsb_permutation {A : Type} (f : A -> bool) (l1 l2 : list A) :
  Permutation l1 l2 -> existsb f l1 = existsb f l2.
Proof.
  induction 1; cbn; try congruence.
  now rewrite !orb_assoc, (orb_comm (f y)).
Qed.

(** X1. [get_max_sentiment] does not depend on the order of the
    sentiments, "N/A" entries do not change its result, and the aggregate
    of a concatenation is the aggregate of the two aggregates. *)
Theorem get_max_sentiment_algebra :
  (forall l1 l2, Permutation l1 l2 ->
                 get_max_sentiment l1 = get_max_sentiment l2)
  /\ (forall l1 l2,
         get_max_sentiment (l1 ++ "N/A" :: l2) = get_max_sentiment (l1 ++ l2))
  /\ (forall l1 l2,
         get_max_sentiment (l1 ++ l2)
         = get_max_sentiment [get_max_sentiment l1; get_max_sentiment l2]).
Proof.
  split; [|split].
  - intros l1 l2 Hp. rewrite !get_max_sentiment_tests.
    now rewrite (forallb_permutation _ _ _ Hp),
      (existsb_permutation _ _ _ Hp), (existsb_permutation _ _ _ Hp).
  - intros l1 l2. rewrite !get_max_sentiment_tests.
    rewrite !forallb_app, !existsb_app. cbn.
    reflexivity.
  - intros l1 l2.
    rewrite (get_max_sentiment_tests (l1 ++ l2)).
    rewrite forallb_app, !existsb_app.
    rewrite (get_max_sentiment_tests l1), (get_max_sentiment_tests l2).
    pose proof (all_na_no_label l1 "bullish" ltac:(discriminate)) as A1.
    pose proof (all_na_no_label l1 "neutral" ltac:(discriminate)) as A2.
    pose proof (all_na_no_label l2 "bullish" ltac:(discriminate)) as B1.
    pose proof (all_na_no_label l2 "neutral" ltac:(discriminate)) as B2.
    destruct (forallb is_na l1);
      [rewrite A1, A2 by reflexivity|];
      (destruct (forallb is_na l2);
       [rewrite B1, B2 by reflexivity|]);
      destruct (existsb (String.eqb "bullish") l1),
               (existsb (String.eqb "neutral") l1),
               (existsb (String.eqb "bullish") l2),
               (existsb (String.eqb "neutral") l2);
      reflexivity.
Qed.

Lemma get_max_sentiment_algebra_witness :
  get_max_sentiment ["bearish"; "N/A"; "bullish"]
  = get_max_sentiment ["bullish"; "bearish"; "N/A"].
Proof.
  apply (proj1 get_max_sentiment_algebra).
  apply Permutation_sym, (Permutation_cons_append ["bearish"; "N/A"] "bullish").
Defined.

End AggregationAlgebra.

(** ** The headline on the console *)

Section DisplayHeadline.
Import PyStrFacts.

Lemma substring_split (n : nat) :
  forall s, n <= String.length s ->
            exists cut, s = (substring 0 n s ++ cut)%string
                        /\ String.length (substring 0 n s) = n.
Proof.
  induction n as [|n IH]; intros s Hn.
  - exists s. destruct s; now split.
  - destruct s as [|c s]; [simpl in Hn; lia|].
    destruct (IH s ltac:(simpl in Hn; lia)) as [cut [H1 H2]].
    exists cut. cbn [substring append String.length].
    split; [now rewrite <- H1 | now rewrite H2].
Qed.

(** X2. The headline shown on the console is the title itself when the
    title has at most 75 characters; otherwise it is the first 75
    characters of the title followed by three full stops.  It never has
    more than 78 characters. *)
Theorem display_headline_bounded (title : string) :
  String.length (display_headline title) <= 78
  /\ (String.length title <= 75 -> display_headline title = title)
  /\ (75 < String.length title ->
      exists kept cut,
        title = (kept ++ cut)%string
        /\ String.length kept = 75
        /\ cut <> ""
        /\ display_headline title = (kept ++ "...")%string).
Proof.
  unfold display_headline.
  destruct (Nat.ltb 75 (String.length title)) eqn:E.
  - apply Nat.ltb_lt in E.
    destruct (substring_split 75 title ltac:(lia)) as [cut [H1 H2]].
    split; [rewrite length_app, H2; simpl; lia|].
    split; [lia|]. intros _.
    exists (substring 0 75 title), cut.
    split; [assumption|]. split; [assumption|]. split; [|reflexivity].
    intros ->. rewrite H1, length_app, H2 in E. simpl in E. lia.
  - apply Nat.ltb_ge in E. split; [lia|]. split; [reflexivity | lia].
Qed.

Lemma display_headline_bounded_witness :
  display_headline "Fiserv stock craters 44%" = "Fiserv stock craters 44%".
Proof.
  apply (proj1 (proj2 (display_headline_bounded "Fiserv stock craters 44%"))).
  simpl. lia.
Defined.

End DisplayHeadline.

(** ** The lazily loaded model *)

Section FinbertCacheFacts.
Import FinbertCache.

Context {Model Tokenizer World : Type}.

(** A call that returns the pair leaves both globals set to it. *)
Lemma load_returns_cached (available : bool)
  (L : Loader Model Tokenizer World) (st st' : State Model Tokenizer World)
  (m : Model) (t : Tokenizer) :
  load_finbert_model available L st = (Some (m, t), st') ->
  globals st' = mkGlobals (Some m) (Some t).
Proof.
  unfold load_finbert_model.
  destruct st as [[gm gt] w cs]. cbn [globals finbert_model finbert_tokenizer
                                        FinbertCache.world calls].
  assert (Hload :
    (if negb available then (None, mkState (mkGlobals gm gt) w cs)
     else
       let (loaded_tokenizer, w1) := tokenizer_from_pretrained L w in
       match loaded_tokenizer with
       | None => (None, mkState (mkGlobals gm gt) w1 (cs ++ [CallTokenizer]))
       | Some t0 =>
           let (loaded_model, w2) := model_from_pretrained L w1 in
           match loaded_model with
           | None =>
               (None, mkState (mkGlobals gm (Some t0)) w2
                        (cs ++ [CallTokenizer; CallModel]))
           | Some m0 =>
               let (prepared, w3) := prepare L m0 w2 in
               let st0 :=
                 mkState (mkGlobals (Some m0) (Some t0)) w3
                   (cs ++ [CallTokenizer; CallModel; CallPrepare]) in
               if prepared then (Some (m0, t0), st0) else (None, st0)
           end
       end) = (Some (m, t), st') ->
    globals st' = mkGlobals (Some m) (Some t)).
  { destruct (negb available); [discriminate|].
    destruct (tokenizer_from_pretrained L w) as [[t0|] w1]; [|discriminate].
    destruct (model_from_pretrained L w1) as [[m0|] w2]; [|discriminate].
    destruct (prepare L m0 w2) as [[|] w3]; [|discriminate].
    intros H. injection H as <- <- <-. reflexivity. }
  destruct gm as [m0|]; [destruct gt as [t0|]|]; try exact Hload.
  intros H. injection H as <- <- <-. reflexivity.
Qed.

(** X3. Once [load_finbert_model] has returned a model and a tokenizer,
    every later call returns the same pair from the globals, whatever the
    availability flag and the loader, and changes nothing: the model is
    loaded at most once after a load that succeeded. *)
Theorem load_finbert_model_cached (available available' : bool)
  (L L' : Loader Model Tokenizer World) (st st' : State Model Tokenizer World)
  (m : Model) (t : Tokenizer) :
  load_finbert_model available L st = (Some (m, t), st') ->
  load_finbert_model available' L' st' = (Some (m, t), st').
Proof.
  intros H. apply load_returns_cached in H.
  unfold load_finbert_model. now rewrite H.
Qed.

(** X4. A call that does not find both globals set and finds the
    dependencies missing returns the empty pair and calls nothing.  With
    the dependencies present such a call starts by loading the tokenizer,
    also when a tokenizer is already there.  When the model is loaded but
    its preparation raises, the call returns the empty pair, and yet both
    globals are set: the next call returns that model from the globals
    without preparing it. *)
Theorem load_finbert_model_incomplete (available : bool)
  (L : Loader Model Tokenizer World) (st : State Model Tokenizer World) :
  (finbert_model (globals st) = None
   \/ finbert_tokenizer (globals st) = None) ->
  let r := load_finbert_model available L st in
  (available = false -> r = (None, st))
  /\ (available = true ->
      exists rest, calls (snd r) = calls st ++ CallTokenizer :: rest)
  /\ (available = true ->
      forall rest, calls (snd r) = calls st ++ rest ->
                   In CallPrepare rest -> fst r = None ->
      exists m t,
        globals (snd r) = mkGlobals (Some m) (Some t)
        /\ forall available' L',
            load_finbert_model available' L' (snd r) = (Some (m, t), snd r)).
Proof.
  intros Hmiss r. subst r. unfold load_finbert_model.
  destruct st as [[gm gt] w cs]. cbn [globals finbert_model finbert_tokenizer
                                        FinbertCache.world calls] in *.
  assert (Hguard :
    forall (A : Type) (hit : Model -> Tokenizer -> A) (miss : A),
      match gm with
      | Some m => match gt with Some t => hit m t | None => miss end
      | None => miss
      end = miss).
  { intros A hit miss. destruct Hmiss as [->| ->]; [reflexivity|].
    now destruct gm. }
  rewrite Hguard. split; [|split].
  - intros ->. reflexivity.
  - intros ->. cbn [negb].
    destruct (tokenizer_from_pretrained L w) as [[t0|] w1].
    + destruct (model_from_pretrained L w1) as [[m0|] w2].
      * destruct (prepare L m0 w2) as [[|] w3]; cbn; eexists; reflexivity.
      * cbn. eexists; reflexivity.
    + cbn. eexists; reflexivity.
  - intros -> rest Hcalls Hin Hres. cbn [negb] in *.
    destruct (tokenizer_from_pretrained L w) as [[t0|] w1].
    + destruct (model_from_pretrained L w1) as [[m0|] w2].
      * destruct (prepare L m0 w2) as [[|] w3]; cbn in *; [discriminate|].
        exists m0, t0. split; [reflexivity|]. intros a' L'. reflexivity.
      * cbn in Hcalls. apply app_inv_head in Hcalls. subst rest.
        exfalso. destruct Hin as [H|[H|[]]]; discriminate H.
    + cbn in Hcalls. apply app_inv_head in Hcalls. subst rest.
      exfalso. destruct Hin as [H|[]]; discriminate H.
Qed.

End FinbertCacheFacts.

Lemma load_finbert_model_cached_witness :
  let st := FinbertCache.mkState (FinbertCache.mkGlobals None None) false [] in
  let st' := snd (FinbertCache.load_finbert_model true
                    FinbertCache.example_loader st) in
  FinbertCache.load_finbert_model false FinbertCache.example_loader st'
  = (Some (7, 3), st').
Proof.
  intros st st'.
  apply (load_finbert_model_cached true false FinbertCache.example_loader
           FinbertCache.example_loader st).
  reflexivity.
Defined.

Lemma load_finbert_model_incomplete_witness :
  let st := FinbertCache.mkState (FinbertCache.mkGlobals None (Some 3)) true
              [] in
  let r := FinbertCache.load_finbert_model true FinbertCache.example_loader
             st in
  fst r = None
  /\ exists m t,
      FinbertCache.globals (snd r)
      = FinbertCache.mkGlobals (Some m) (Some t)
      /\ forall available' L',
          FinbertCache.load_finbert_model available' L' (snd r)
          = (Some (m, t), snd r).
Proof.
  intros st r. split; [reflexivity|].
  apply (proj2 (proj2 (load_finbert_model_incomplete true
                         FinbertCache.example_loader st (or_introl eq_refl)))
           eq_refl
           [FinbertCache.CallTokenizer; FinbertCache.CallModel;
            FinbertCache.CallPrepare]).
  - reflexivity.
  - simpl. auto.
  - reflexivity.
Defined.

(** ** The cost of a fetch *)

Section FetchTraces.

Context {F : Type} {FO : FloatOps F} {World : Type}.
Variable C : Collaborators F World.

Lemma pow2_pos (n : nat) : 1 <= 2 ^ n.
Proof. induction n; simpl; lia. Qed.

Lemma stock_events_measures (symbol : string) (outs : list (HistOutcome F)) :
  forall a,
    history_calls (stock_events symbol a outs) = List.length outs
    /\ search_calls (stock_events symbol a outs) = []
    /\ scored_texts (stock_events symbol a outs) = []
    /\ (outs <> [] ->
        total_sleep (stock_events symbol a outs) + 2 ^ a
        = 2 ^ (a + List.length outs - 1)).
Proof.
  induction outs as [|o outs IH]; intros a.
  - cbn. repeat split; congruence.
  - destruct outs as [|o' outs].
    + cbn. repeat split; try reflexivity. intros _.
      now replace (a + 1 - 1) with a by lia.
    + destruct (IH (S a)) as [H1 [H2 [H3 H4]]].
      specialize (H4 ltac:(discriminate)).
      change (stock_events symbol a (o :: o' :: outs))
        with (EvHistory symbol o :: EvSleep (2 ^ a)
                :: stock_events symbol (S a) (o' :: outs)).
      cbn [history_calls search_calls scored_texts total_sleep].
      rewrite H1, H2, H3.
      repeat split; try reflexivity. intros _.
      cbn [List.length] in *.
      replace (a + S (S (List.length outs)) - 1)
        with (S a + S (List.length outs) - 1) by lia.
      rewrite <- H4. cbn [Nat.pow]. lia.
Qed.

(** X5. A stock fetch with [max_retries >= 1] makes between one and
    [max_retries] history calls and calls nothing else; with [k] calls it
    has slept [2 ^ (k - 1) - 1] seconds in all, so never more than
    [2 ^ (max_retries - 1) - 1] seconds (3 seconds for the 3 attempts the
    loop over the vendors asks for). *)
Theorem get_stock_data_pace (symbol : string) (max_retries : nat)
  (s : Sys F World) :
  1 <= max_retries ->
  exists new,
    trace (snd (get_stock_data C symbol max_retries s)) = trace s ++ new
    /\ 1 <= history_calls new <= max_retries
    /\ total_sleep new + 1 = 2 ^ (history_calls new - 1)
    /\ total_sleep new + 1 <= 2 ^ (max_retries - 1)
    /\ search_calls new = []
    /\ scored_texts new = [].
Proof.
  intros Hmax. unfold get_stock_data.
  destruct max_retries as [|n]; [lia|].
  destruct (stock_attempts_run C symbol (S n) n 0 s eq_refl)
    as [outs [last_o [q [s' [H1 [H2 [H3 _]]]]]]].
  rewrite H1. cbn [snd].
  exists (stock_events symbol 0 (outs ++ [last_o])).
  split; [assumption|].
  destruct (stock_events_measures symbol (outs ++ [last_o]) 0)
    as [M1 [M2 [M3 M4]]].
  specialize (M4 ltac:(now destruct outs)).
  rewrite M1, length_app in *. cbn [List.length Nat.pow Nat.add] in *.
  split; [lia|].
  split; [rewrite M4; f_equal; lia|].
  split; [|now split].
  rewrite M4. apply Nat.pow_le_mono_r; lia.
Qed.

Lemma search_events_cons (query : string) (use_domains : bool)
  (page_size a : nat) (o : NewsOutcome) (rest : list NewsOutcome) :
  rest <> [] ->
  @search_events F query use_domains page_size a (o :: rest)
  = EvSearch query use_domains page_size o :: EvSleep (2 ^ a)
      :: search_events query use_domains page_size (S a) rest.
Proof. destruct rest; [congruence | reflexivity]. Qed.

(** The calls of one combination: a search per attempt made, a sleep
    between two searches, and an outcome that is retried at every search
    but the last. *)
Lemma news_attempts_blocks (query : string) (use_domains : bool)
  (max_articles max_retries : nat) :
  forall n a s,
    a + n = max_retries ->
    let r := news_attempts C query use_domains max_articles max_retries
               (seq a n) s in
    exists outs,
      trace (snd r)
      = trace s ++ search_events query use_domains max_articles a outs
      /\ List.length outs <= n
      /\ (1 <= n -> 1 <= List.length outs)
      /\ Forall (fun o => retried o = true) (removelast outs).
Proof.
  induction n as [|n IH]; intros a s Ha r; subst r.
  - exists []. cbn. rewrite app_nil_r. repeat split; try constructor; lia.
  - cbn [seq news_attempts].
    pose proof (call_search_trace C query use_domains max_articles s) as Htr.
    destruct (call_search C query use_domains max_articles s) as [o s1].
    cbn [fst snd] in Htr.
    assert (Hstop : exists outs,
      trace s1 = trace s ++ search_events query use_domains max_articles a outs
      /\ List.length outs <= S n
      /\ (1 <= S n -> 1 <= List.length outs)
      /\ Forall (fun o => retried o = true) (removelast outs)).
    { exists [o]. cbn. repeat split; try assumption; try lia. constructor. }
    assert (Hgo :
      retried o = true ->
      let r := if Nat.ltb a (max_retries - 1)
               then news_attempts C query use_domains max_articles max_retries
                      (seq (S a) n) (sleep C (2 ^ a) s1)
               else (Next, s1) in
      exists outs,
        trace (snd r)
        = trace s ++ search_events query use_domains max_articles a outs
        /\ List.length outs <= S n
        /\ (1 <= S n -> 1 <= List.length outs)
        /\ Forall (fun o => retried o = true) (removelast outs)).
    { intros Hret. destruct (Nat.ltb a (max_retries - 1)) eqn:Hlt;
        [|exact Hstop].
      apply Nat.ltb_lt in Hlt.
      destruct (IH (S a) (sleep C (2 ^ a) s1) ltac:(lia))
        as [outs [H1 [H2 [H3 H4]]]].
      specialize (H3 ltac:(lia)).
      assert (Hne : outs <> []) by (intros ->; simpl in H3; lia).
      exists (o :: outs).
      split.
      { rewrite H1. cbn [sleep trace]. rewrite Htr, <- !app_assoc.
        now rewrite search_events_cons. }
      split; [simpl; lia|]. split; [simpl; lia|].
      destruct outs as [|o' outs]; [congruence|].
      change (removelast (o :: o' :: outs))
        with (o :: removelast (o' :: outs)).
      now constructor. }
    destruct o as [msg|msg|[response|]]; cbn [news_try].
    + destruct (is_rate_limited msg) eqn:Erate; [exact Hstop|].
      destruct (is_key_invalid msg) eqn:Ekey; [exact Hstop|].
      apply Hgo. cbn. now rewrite Erate, Ekey.
    + apply Hgo. reflexivity.
    + destruct (negb (status_ok response)); [exact Hstop|].
      destruct (articles response) as [[|x arts]|]; try exact Hstop.
      destruct (collect_articles (firstn max_articles (x :: arts)));
        exact Hstop.
    + exact Hstop.
Qed.

Lemma cascade_events_nil (page_size : nat) (combos : list (string * bool)) :
  @cascade_events F page_size combos [] = [].
Proof. now destruct combos as [|[q t] combos]. Qed.

(** The calls of a run through the combinations. *)
Lemma run_combinations_blocks (max_articles max_retries : nat) :
  forall combos s,
    let r := run_combinations C max_articles max_retries combos s in
    exists outss,
      trace (snd r) = trace s ++ cascade_events max_articles combos outss
      /\ List.length outss <= List.length combos
      /\ (combos <> [] -> outss <> [])
      /\ Forall (fun outs =>
                   List.length outs <= max_retries
                   /\ (1 <= max_retries -> 1 <= List.length outs)
                   /\ Forall (fun o => retried o = true) (removelast outs))
                outss.
Proof.
  induction combos as [|[query use_domains] rest IH]; intros s r; subst r.
  - exists []. cbn. rewrite app_nil_r. repeat split; try constructor.
    congruence.
  - cbn [run_combinations].
    destruct (news_attempts_blocks query use_domains max_articles max_retries
                max_retries 0 s eq_refl) as [outs [H1 [H2 [H3 H4]]]].
    destruct (news_attempts C query use_domains max_articles max_retries
                (seq 0 max_retries) s) as [flow s1].
    cbn [snd] in H1.
    assert (Hstop : exists outss,
      trace s1
      = trace s ++ cascade_events max_articles ((query, use_domains) :: rest)
                     outss
      /\ List.length outss <= List.length ((query, use_domains) :: rest)
      /\ ((query, use_domains) :: rest <> [] -> outss <> [])
      /\ Forall (fun outs =>
                   List.length outs <= max_retries
                   /\ (1 <= max_retries -> 1 <= List.length outs)
                   /\ Forall (fun o => retried o = true) (removelast outs))
                outss).
    { exists [outs]. cbn [cascade_events].
      rewrite cascade_events_nil, app_nil_r.
      split; [assumption|]. split; [simpl; lia|].
      split; [discriminate|]. now repeat constructor. }
    destruct flow as [|l|e]; [|exact Hstop|exact Hstop].
    destruct (IH s1) as [outss [G1 [G2 [G3 G4]]]].
    exists (outs :: outss). cbn [cascade_events].
    split; [rewrite G1, H1, app_assoc; reflexivity|].
    split; [simpl; lia|]. split; [discriminate|].
    now constructor.
Qed.

Lemma get_news_articles_blocks (symbol company_name : string)
  (max_articles max_retries : nat) (s : Sys F World) :
  let combos := combinations (get_smart_search_queries company_name symbol) in
  let r := get_news_articles C symbol company_name max_articles max_retries s in
  exists outss,
    trace (snd r) = trace s ++ cascade_events max_articles combos outss
    /\ List.length outss <= List.length combos
    /\ (combos <> [] -> outss <> [])
    /\ Forall (fun outs =>
                 List.length outs <= max_retries
                 /\ (1 <= max_retries -> 1 <= List.length outs)
                 /\ Forall (fun o => retried o = true) (removelast outs))
              outss.
Proof.
  intros combos r. subst r. unfold get_news_articles.
  rewrite news_queries_flat. fold combos.
  destruct (run_combinations_blocks max_articles max_retries combos s)
    as [outss H].
  destruct (run_combinations C max_articles max_retries combos s)
    as [[|l|e] s1]; cbn [snd] in *; now exists outss.
Qed.

End FetchTraces.

Lemma get_stock_data_pace_witness :
  exists new,
    trace (snd (get_stock_data Scripted.collaborators "PCTY" 3
                  (Scripted.start
                     (Scripted.mkScript
                        [HistException "e1"; HistException "e2"] [] [] []))))
    = [] ++ new
    /\ 1 <= history_calls new <= 3
    /\ total_sleep new + 1 = 2 ^ (history_calls new - 1)
    /\ total_sleep new + 1 <= 2 ^ (3 - 1)
    /\ search_calls new = []
    /\ scored_texts new = [].
Proof.
  apply (get_stock_data_pace Scripted.collaborators "PCTY" 3). lia.
Defined.

Section FetchBounds.

Context {F : Type} {FO : FloatOps F} {World : Type}.
Variable C : Collaborators F World.

Lemma queries_shape (company_name symbol : string) :
  let queries := get_smart_search_queries company_name symbol in
  1 <= List.length queries <= 4
  /\ exists first rest, queries = first :: rest.
Proof.
  unfold get_smart_search_queries.
  destruct (PyStr.truthy company_name).
  - destruct (negb (shorten suffixes company_name =? company_name));
      cbn; split; try lia; eauto.
  - cbn. split; try lia; eauto.
Qed.

Lemma combinations_length (queries : list string) :
  List.length (combinations queries) = 2 * List.length queries.
Proof.
  induction queries as [|q queries IH]; [reflexivity|].
  cbn [combinations flat_map app List.length] in *.
  fold (combinations queries). rewrite IH. lia.
Qed.

Lemma search_events_measures (query : string) (use_domains : bool)
  (page_size : nat) (outs : list NewsOutcome) :
  forall a,
    let block := @search_events F query use_domains page_size a outs in
    List.length (search_calls block) = List.length outs
    /\ history_calls block = 0
    /\ scored_texts block = []
    /\ Forall (fun e => match e with
                        | EvSearch _ _ n _ => n = page_size
                        | EvSleep _ => True
                        | _ => False
                        end) block
    /\ (outs <> [] ->
        total_sleep block + 2 ^ a = 2 ^ (a + List.length outs - 1)).
Proof.
  induction outs as [|o outs IH]; intros a block; subst block.
  - cbn. repeat split; try constructor; congruence.
  - destruct outs as [|o' outs].
    + cbn. repeat split; try (now repeat constructor). intros _.
      now replace (a + 1 - 1) with a by lia.
    + destruct (IH (S a)) as [H1 [H2 [H3 [H4 H5]]]].
      specialize (H5 ltac:(discriminate)).
      rewrite search_events_cons by discriminate.
      cbn [history_calls search_calls scored_texts total_sleep List.length].
      rewrite H1, H2, H3.
      repeat split; try reflexivity; [now repeat constructor|]. intros _.
      cbn [List.length] in *.
      replace (a + S (S (List.length outs)) - 1)
        with (S a + S (List.length outs) - 1) by lia.
      rewrite <- H5. cbn [Nat.pow]. lia.
Qed.

Lemma history_calls_app (a b : list (Event F)) :
  history_calls (a ++ b) = history_calls a + history_calls b.
Proof. induction a as [|[] a IH]; cbn; lia. Qed.

Lemma scored_texts_app (a b : list (Event F)) :
  scored_texts (a ++ b) = scored_texts a ++ scored_texts b.
Proof. induction a as [|[] a IH]; cbn; congruence. Qed.

Lemma total_sleep_app (a b : list (Event F)) :
  total_sleep (a ++ b) = total_sleep a + total_sleep b.
Proof. induction a as [|[] a IH]; cbn; lia. Qed.

Lemma cascade_events_measures (page_size max_retries : nat) :
  forall combos outss,
    Forall (fun outs =>
              List.length outs <= max_retries
              /\ (1 <= max_retries -> 1 <= List.length outs)
              /\ Forall (fun o => retried o = true) (removelast outs))
           outss ->
    let new := @cascade_events F page_size combos outss in
    List.length (search_calls new) <= List.length outss * max_retries
    /\ total_sleep new <= List.length outss * (2 ^ (max_retries - 1) - 1)
    /\ history_calls new = 0
    /\ scored_texts new = []
    /\ Forall (fun e => match e with
                        | EvSearch _ _ n _ => n = page_size
                        | EvSleep _ => True
                        | _ => False
                        end) new.
Proof.
  induction combos as [|[query use_domains] combos IH]; intros outss Hall new;
    subst new.
  - cbn. repeat split; try apply Nat.le_0_l. constructor.
  - destruct outss as [|outs outss].
    + cbn. repeat split; try apply Nat.le_0_l. constructor.
    + inversion Hall as [|? ? [Hlen _] Hrest]; subst.
      destruct (IH outss Hrest) as [H1 [H2 [H3 [H4 H5]]]].
      destruct (search_events_measures query use_domains page_size outs 0)
        as [M1 [M2 [M3 [M4 M5]]]].
      cbn [cascade_events].
      rewrite search_calls_app, length_app, total_sleep_app,
        history_calls_app, scored_texts_app, M1, M2, M3, H3, H4.
      cbn [List.length].
      split; [lia|]. split; [|split; [reflexivity|split; [reflexivity|]]].
      * assert (Hblock :
          total_sleep (@search_events F query use_domains page_size 0 outs)
          <= 2 ^ (max_retries - 1) - 1).
        { destruct outs as [|o outs]; [cbn; lia|].
          specialize (M5 ltac:(discriminate)).
          cbn [Nat.pow Nat.add] in M5.
          assert (2 ^ (List.length (o :: outs) - 1) <= 2 ^ (max_retries - 1))
            by (apply Nat.pow_le_mono_r; lia).
          lia. }
        lia.
      * apply Forall_app. now split.
Qed.

(** X6. A news fetch calls nothing but the search, always asking for
    [max_articles] results, and sleeps in between.  It makes at most
    [max_retries] calls for each of the two tiers of each query, hence at
    most [8 * max_retries] calls, the queries being at most four, and it
    sleeps at most [2 ^ (max_retries - 1) - 1] seconds per combination:
    for the values the loop over the vendors uses (10 articles, 3
    attempts) at most 24 calls and 24 seconds. *)
Theorem news_fetch_bounds (symbol company_name : string)
  (max_articles max_retries : nat) (s : Sys F World) :
  let queries := get_smart_search_queries company_name symbol in
  let r := get_news_articles C symbol company_name max_articles max_retries s in
  exists new,
    trace (snd r) = trace s ++ new
    /\ List.length (search_calls new) <= 2 * List.length queries * max_retries
    /\ List.length (search_calls new) <= 8 * max_retries
    /\ total_sleep new
       <= 2 * List.length queries * (2 ^ (max_retries - 1) - 1)
    /\ total_sleep new <= 8 * (2 ^ (max_retries - 1) - 1)
    /\ history_calls new = 0
    /\ scored_texts new = []
    /\ Forall (fun e => match e with
                        | EvSearch _ _ n _ => n = max_articles
                        | EvSleep _ => True
                        | _ => False
                        end) new.
Proof.
  intros queries r.
  destruct (get_news_articles_blocks C symbol company_name max_articles
              max_retries s) as [outss [H1 [H2 [_ H4]]]].
  fold queries in H1, H2. fold r in H1.
  rewrite combinations_length in H2.
  destruct (queries_shape company_name symbol) as [[_ Hq] _].
  fold queries in Hq.
  destruct (cascade_events_measures max_articles max_retries
              (combinations queries) outss H4) as [M1 [M2 [M3 [M4 M5]]]].
  exists (cascade_events max_articles (combinations queries) outss).
  split; [assumption|].
  assert (Hc : List.length outss * max_retries
               <= 2 * List.length queries * max_retries)
    by (apply Nat.mul_le_mono_r; lia).
  assert (Hs : List.length outss * (2 ^ (max_retries - 1) - 1)
               <= 2 * List.length queries * (2 ^ (max_retries - 1) - 1))
    by (apply Nat.mul_le_mono_r; lia).
  assert (Hc8 : 2 * List.length queries * max_retries <= 8 * max_retries)
    by (apply Nat.mul_le_mono_r; lia).
  assert (Hs8 : 2 * List.length queries * (2 ^ (max_retries - 1) - 1)
                <= 8 * (2 ^ (max_retries - 1) - 1))
    by (apply Nat.mul_le_mono_r; lia).
  repeat split; try assumption; lia.
Qed.

(** X7. With [max_retries >= 1] a news fetch always makes a call, and
    its first call is the search for the first query generated (the
    shortened company name if there is one, else the company name, else
    the symbol), restricted to the business domains. *)
Theorem news_fetch_first_call (symbol company_name : string)
  (max_articles max_retries : nat) (s : Sys F World) :
  1 <= max_retries ->
  let queries := get_smart_search_queries company_name symbol in
  let r := get_news_articles C symbol company_name max_articles max_retries s in
  exists o rest,
    trace (snd r)
    = trace s ++ EvSearch (hd symbol queries) true max_articles o :: rest.
Proof.
  intros Hmax queries r.
  destruct (get_news_articles_blocks C symbol company_name max_articles
              max_retries s) as [outss [H1 [_ [H3 H4]]]].
  fold queries in H1, H3. fold r in H1.
  destruct (queries_shape company_name symbol) as [_ [q0 [qs Hq]]].
  fold queries in Hq. rewrite Hq in *. cbn [hd].
  cbn [combinations flat_map app] in H1, H3.
  specialize (H3 ltac:(discriminate)).
  destruct outss as [|outs outss]; [congruence|].
  inversion H4 as [|? ? [_ [Hone _]] _]; subst.
  specialize (Hone Hmax).
  destruct outs as [|o outs]; [simpl in Hone; lia|].
  cbn [cascade_events] in H1.
  destruct outs as [|o' outs].
  - cbn [search_events app] in H1. eauto.
  - rewrite search_events_cons in H1 by discriminate.
    cbn [app] in H1. eauto.
Qed.

Lemma block_justified (query : string) (use_domains : bool)
  (page_size : nat) (outs : list NewsOutcome) :
  forall a prev (tl : list (Event F)),
    Forall (fun o => retried o = true) (removelast outs) ->
    (forall p, sleeps_justified p tl = true) ->
    sleeps_justified prev
      (search_events query use_domains page_size a outs ++ tl) = true.
Proof.
  induction outs as [|o outs IH]; intros a prev tl Hret Htl.
  - apply Htl.
  - destruct outs as [|o' outs].
    + cbn. apply Htl.
    + rewrite search_events_cons by discriminate.
      change (removelast (o :: o' :: outs))
        with (o :: removelast (o' :: outs)) in Hret.
      inversion Hret as [|? ? Ho Hrest]; subst.
      cbn [app sleeps_justified]. rewrite Ho. cbn [andb].
      now apply IH.
Qed.

Lemma cascade_justified (page_size max_retries : nat) :
  forall combos outss prev,
    Forall (fun outs =>
              List.length outs <= max_retries
              /\ (1 <= max_retries -> 1 <= List.length outs)
              /\ Forall (fun o => retried o = true) (removelast outs))
           outss ->
    sleeps_justified prev (@cascade_events F page_size combos outss) = true.
Proof.
  induction combos as [|[query use_domains] combos IH]; intros outss prev Hall.
  - reflexivity.
  - destruct outss as [|outs outss]; [reflexivity|].
    inversion Hall as [|? ? [_ [_ Hret]] Hrest]; subst.
    cbn [cascade_events]. apply block_justified; [assumption|].
    intros p. now apply IH.
Qed.

(** X8. In a news fetch only exceptions are retried: every sleep comes
    directly after a search that raised an exception other than the
    rate-limit and the invalid-credential errors.  A search that got a
    response, whatever its status and its articles, is never followed by
    a sleep or by a second call for the same attempt: the fetch returns
    or goes on with the next tier or query. *)
Theorem news_sleeps_justified (symbol company_name : string)
  (max_articles max_retries : nat) (s : Sys F World) :
  let r := get_news_articles C symbol company_name max_articles max_retries s in
  exists new,
    trace (snd r) = trace s ++ new
    /\ sleeps_justified None new = true
    /\ forall pre query use_domains page_size response seconds post,
        new <> pre ++ EvSearch query use_domains page_size
                        (NewsResponse response)
                   :: EvSleep seconds :: post.
Proof.
  intros r.
  destruct (get_news_articles_blocks C symbol company_name max_articles
              max_retries s) as [outss [H1 [_ [_ H4]]]].
  fold r in H1.
  set (combos := combinations (get_smart_search_queries company_name symbol))
    in *.
  exists (cascade_events max_articles combos outss).
  split; [assumption|].
  pose proof (fun p => cascade_justified max_articles max_retries combos
                         outss p H4) as Hj.
  split; [apply Hj|].
  intros pre query use_domains page_size response seconds post Heq.
  assert (Happ : forall (a b : list (Event F)) p,
             sleeps_justified p (a ++ b) = true ->
             b <> [] ->
             exists p', sleeps_justified p' b = true
                        /\ (a = [] -> p' = p)
                        /\ (forall x a', a = a' ++ [x] -> p' = Some x)).
  { induction a as [|x a IHa]; intros b p Hs Hb.
    - exists p. split; [assumption|]. split; [reflexivity|].
      intros x a' E. now destruct a'.
    - cbn [app sleeps_justified] in Hs. apply andb_true_iff in Hs.
      destruct Hs as [_ Hs].
      destruct (IHa b (Some x) Hs Hb) as [p' [G1 [G2 G3]]].
      exists p'. split; [assumption|]. split; [discriminate|].
      intros y a' E. destruct a as [|z a].
      + destruct a' as [|? [|? ?]]; try discriminate E.
        injection E as ->. now apply G2.
      + destruct a' as [|w a']; [discriminate E|].
        injection E as -> E. now apply (G3 y a'). }
  specialize (Hj None). rewrite Heq in Hj.
  change (pre ++ EvSearch query use_domains page_size (NewsResponse response)
              :: EvSleep seconds :: post)
    with (pre ++ [EvSearch query use_domains page_size (NewsResponse response)]
              ++ EvSleep seconds :: post) in Hj.
  rewrite app_assoc in Hj.
  destruct (Happ _ _ _ Hj ltac:(discriminate)) as [p' [G1 [_ G3]]].
  rewrite (G3 _ pre eq_refl) in G1.
  cbn in G1. discriminate G1.
Qed.

(** With [max_retries = 0] neither fetcher calls its collaborator:
    the stock fetch falls through its loop and returns no quote at all
    (not even the zero sentinel), and the news fetch returns the empty
    list. *)
Theorem zero_retries_no_call (symbol company_name : string)
  (max_articles : nat) (s : Sys F World) :
  get_stock_data C symbol 0 s = (None, s)
  /\ get_news_articles C symbol company_name max_articles 0 s = (Ok [], s).
Proof.
  split; [reflexivity|].
  unfold get_news_articles.
  assert (H : forall queries,
             news_queries C max_articles 0 queries s = (Next, s)).
  { induction queries as [|q queries IH]; [reflexivity|].
    cbn. exact IH. }
  now rewrite H.
Qed.

(** X9. The only exception that leaves the news fetch is the
    [NewsAPIException] of a search refused for its credential (its text
    names the invalid key or 401 and does not match the rate-limit
    patterns); that search is the last call of the fetch.  Every other
    failure of a search is absorbed. *)
Theorem news_fetch_raises_only_credential (symbol company_name : string)
  (max_articles max_retries : nat) (s : Sys F World) (e : Exn) :
  let r := get_news_articles C symbol company_name max_articles max_retries s in
  fst r = Raise e ->
  exists msg pre query use_domains,
    e = NewsAPIException msg
    /\ is_key_invalid msg = true
    /\ is_rate_limited msg = false
    /\ trace (snd r)
       = trace s ++ pre ++ [EvSearch query use_domains max_articles
                              (NewsApiError msg)].
Proof.
  intros r Hr.
  destruct (get_news_articles_run C symbol company_name max_articles
              max_retries s)
    as [new [counts [flow [H1 [_ [_ [_ [H5 [H6 _]]]]]]]]].
  fold r in H1, H6. rewrite Hr in H6.
  destruct flow as [|l|x]; cbn [flow_of_res] in H6; try contradiction.
  subst x. cbn [explains] in H5.
  destruct H5 as [pre [q [t [msg [G1 [_ [G3 [G4 G5]]]]]]]].
  exists msg, pre, q, t. rewrite H1, G1. auto.
Qed.

End FetchBounds.

Lemma news_fetch_first_call_witness :
  exists o rest,
    trace (snd (get_news_articles Scripted.collaborators "PCTY"
                  "Paylocity Holding Corp." 10 3
                  (Scripted.start (Scripted.mkScript [] [] [] []))))
    = [] ++ EvSearch
              (hd "PCTY"
                 (get_smart_search_queries "Paylocity Holding Corp." "PCTY"))
              true 10 o :: rest.
Proof.
  apply (news_fetch_first_call Scripted.collaborators "PCTY"
           "Paylocity Holding Corp." 10 3).
  lia.
Defined.

Lemma news_fetch_raises_only_credential_witness :
  exists msg pre query use_domains,
    NewsAPIException "401 apiKeyInvalid" = NewsAPIException msg
    /\ is_key_invalid msg = true
    /\ is_rate_limited msg = false
    /\ trace (snd (get_news_articles Scripted.collaborators "PCTY" "" 10 3
                     (Scripted.start
                        (Scripted.mkScript []
                           [NewsError "timeout";
                            NewsApiError "401 apiKeyInvalid"] [] []))))
       = [] ++ pre ++ [EvSearch query use_domains 10 (NewsApiError msg)].
Proof.
  apply (news_fetch_raises_only_credential Scripted.collaborators "PCTY" ""
           10 3).
  reflexivity.
Defined.

(** ** The loop over the vendors, vendor by vendor *)

Section VendorKinds.
Import PyStr PyStrFacts.

Context {F : Type} {FO : FloatOps F} {World : Type}.
Variable C : Collaborators F World.

Lemma vendor_kind_reached (vendor : PyDict) (symbol company_name : string) :
  vendor_kind vendor = Reached symbol company_name ->
  exists raw_symbol raw_name,
    dict_get vendor "symbol" (PyStr "") = PyStr raw_symbol
    /\ dict_get vendor "companyname" (PyStr "") = PyStr raw_name
    /\ symbol = upper (strip raw_symbol)
    /\ company_name = strip raw_name
    /\ symbol <> "".
Proof.
  unfold vendor_kind.
  destruct (dict_get vendor "symbol" (PyStr "")) as [|raw_symbol];
    [discriminate|].
  destruct (dict_get vendor "companyname" (PyStr "")) as [|raw_name];
    [discriminate|].
  destruct (truthy (upper (strip raw_symbol))) eqn:E; [|discriminate].
  intros H. injection H as <- <-.
  exists raw_symbol, raw_name. repeat split. now apply truthy_true.
Qed.

Lemma process_vendor_skipped (analyzer : string) (idx : nat)
  (vendor : PyDict) (r : Run F World) :
  vendor_kind vendor = Skipped ->
  process_vendor C analyzer idx vendor r = r.
Proof.
  unfold vendor_kind, process_vendor, vendor_try.
  destruct (dict_get vendor "symbol" (PyStr "")) as [|raw_symbol];
    [discriminate|].
  destruct (dict_get vendor "companyname" (PyStr "")) as [|raw_name];
    [discriminate|].
  cbn [py_strip].
  destruct (truthy (upper (strip raw_symbol))); [discriminate|].
  reflexivity.
Qed.

Lemma process_vendor_malformed (analyzer : string) (idx : nat)
  (vendor : PyDict) (r : Run F World) :
  vendor_kind vendor = Malformed ->
  process_vendor C analyzer idx vendor r
  = set_stats
      (add_error
         ("Row " ++ str_of_nat idx
          ++ ": Unexpected error - 'NoneType' object has no attribute 'strip'")
         (stats r)) r.
Proof.
  unfold vendor_kind, process_vendor, vendor_try.
  destruct (dict_get vendor "symbol" (PyStr "")) as [|raw_symbol];
    [reflexivity|].
  destruct (dict_get vendor "companyname" (PyStr "")) as [|raw_name];
    [reflexivity|].
  destruct (truthy (upper (strip raw_symbol))); discriminate.
Qed.

(** The counters and the lengths the accounting speaks about. *)
Let SS (r : Run F World) := stock_success (stats r).
Let SF (r : Run F World) := stock_failures (stats r).
Let NS (r : Run F World) := news_success (stats r).
Let NF (r : Run F World) := news_failures (stats r).
Let TH (r : Run F World) := total_headlines (stats r).
Let TV (r : Run F World) := total_vendors (stats r).
Let E (r : Run F World) := List.length (errors (stats r)).
Let L (r : Run F World) := List.length (stock_data r).
Let H (r : Run F World) := List.length (headline_data r).

Lemma record_stock_tally (symbol : string) (close_price : F)
  (r : Run F World) :
  let r' := record_stock symbol close_price r in
  TV r' = TV r /\ NS r' = NS r /\ NF r' = NF r /\ TH r' = TH r
  /\ L r' = L r /\ H r' = H r
  /\ SS r' + SF r' = SS r + SF r + 1
  /\ E r' + SF r = E r + SF r'.
Proof.
  unfold record_stock, SS, SF, NS, NF, TH, TV, E, L, H.
  destruct (f_gt close_price f_zero); cbn; rewrite ?List.length_app; cbn;
    repeat split; lia.
Qed.

Lemma record_news_tally (analyzer symbol : string) (arts : list Article)
  (r : Run F World) :
  List.length arts <= 10 ->
  let r' := snd (record_news C analyzer symbol arts r) in
  TV r' = TV r /\ SS r' = SS r /\ SF r' = SF r /\ L r' = L r
  /\ NS r' + NF r' = NS r + NF r + 1
  /\ H r' + TH r + NF r = H r + TH r' + NF r'
  /\ E r' + NF r = E r + NF r'
  /\ NS r' + TH r <= NS r + TH r'
  /\ TH r' + 10 * NS r <= TH r + 10 * NS r'.
Proof.
  intros Hlen r'. subst r'. unfold record_news, SS, SF, NS, NF, TH, TV, E, L, H.
  destruct arts as [|a arts].
  - cbn. rewrite !List.length_app. cbn. repeat split; lia.
  - destruct (score_articles_run C analyzer symbol (a :: arts) []
                (set_stats
                   (incr_news_success (List.length (a :: arts)) (stats r)) r))
      as [new [_ [H2 [H3 [H4 [H5 _]]]]]].
    rewrite H3, H4, H5, List.length_app, length_map, length_combine, H2,
      Nat.min_id.
    cbn in *. repeat split; lia.
Qed.

(** The articles of a fetch are at most [max_articles]. *)
Lemma fetched_at_most (symbol company_name : string)
  (max_articles max_retries : nat) (s : Sys F World)
  (article_list : list Article) :
  fst (get_news_articles C symbol company_name max_articles max_retries s)
  = Ok article_list ->
  List.length article_list <= max_articles.
Proof.
  intros Hr.
  destruct (get_news_articles_run C symbol company_name max_articles
              max_retries s)
    as [new [counts [flow [_ [_ [_ [_ [H5 [H6 _]]]]]]]]].
  rewrite Hr in H6.
  destruct flow as [|l|e]; cbn [flow_of_res] in H6.
  - destruct article_list; [simpl; lia | contradiction].
  - subst l. cbn [explains] in H5.
    destruct H5 as [pre [q [t [o [_ [_ [[_ G]|[-> _]]]]]]]]; [|simpl; lia].
    destruct (news_try_return _ _ _ G) as [_ [resp [arts [_ [_ [_ ->]]]]]].
    etransitivity; [apply collect_articles_length | apply firstn_le_length].
  - contradiction.
Qed.

(** What one round of the loop does to the counters and to the lengths
    of the reports. *)
Lemma process_vendor_tally (analyzer : string) (idx : nat) (vendor : PyDict)
  (r : Run F World) :
  let r' := process_vendor C analyzer idx vendor r in
  TV r' = TV r
  /\ L r' + NS r + NF r = L r + NS r' + NF r'
  /\ H r' + TH r + NF r = H r + TH r' + NF r'
  /\ SS r' + SF r' = SS r + SF r + (if is_reached vendor then 1 else 0)
  /\ E r' + L r' + (if is_skipped vendor then 1 else 0) + SF r + NF r
     = E r + L r + 1 + SF r' + NF r'
  /\ NS r' + NF r' + SS r + SF r <= NS r + NF r + SS r' + SF r'
  /\ NS r' + TH r <= NS r + TH r'
  /\ TH r' + 10 * NS r <= TH r + 10 * NS r'.
Proof.
  intros r'. subst r'. unfold is_reached, is_skipped.
  destruct (vendor_kind vendor) as [| |symbol company_name] eqn:K.
  - rewrite process_vendor_malformed by assumption.
    unfold SS, SF, NS, NF, TH, TV, E, L, H. cbn. rewrite List.length_app. cbn.
    repeat split; lia.
  - rewrite process_vendor_skipped by assumption. repeat split; lia.
  - destruct (vendor_kind_reached _ _ _ K)
      as [raw_symbol [raw_name [Hs [Hn [-> [-> Hne]]]]]].
    destruct (get_stock_data_3 C (upper (strip raw_symbol)) (sys r))
      as [[[close_price pct_change] volume] [s1 Hstock]].
    unfold process_vendor.
    rewrite (vendor_try_reached C analyzer vendor r raw_symbol raw_name
               close_price pct_change volume s1 Hs Hn Hne Hstock).
    cbv zeta.
    set (symbol := upper (strip raw_symbol)).
    set (r1 := record_stock symbol close_price (set_sys s1 r)).
    destruct (record_stock_tally symbol close_price (set_sys s1 r))
      as [T1 [T2 [T3 [T4 [T5 [T6 [T7 T8]]]]]]].
    fold r1 in T1, T2, T3, T4, T5, T6, T7, T8.
    pose proof (fetched_at_most symbol (strip raw_name) 10 3 s1) as Hmost.
    destruct (get_news_articles C symbol (strip raw_name) 10 3 s1)
      as [[arts|e] s2].
    + specialize (Hmost arts eq_refl).
      destruct (record_news_tally analyzer symbol arts (set_sys s2 r1) Hmost)
        as [N1 [N2 [N3 [N4 [N5 [N6 [N7 [N8 N9]]]]]]]].
      destruct (record_news C analyzer symbol arts (set_sys s2 r1))
        as [sents r3].
      cbn [snd] in *.
      unfold SS, SF, NS, NF, TH, TV, E, L, H in *.
      cbn [set_sys set_stats add_stock_row stats stock_data headline_data]
        in *.
      rewrite List.length_app. cbn [List.length].
      repeat split; lia.
    + unfold SS, SF, NS, NF, TH, TV, E, L, H in *.
      destruct e;
        cbn [set_sys set_stats add_error stats stock_data headline_data
               total_vendors stock_success stock_failures news_success
               news_failures total_headlines errors] in *;
        rewrite List.length_app; cbn [List.length];
        repeat split; lia.
Qed.

End VendorKinds.

(** ** The loop over the vendors, as a whole *)

Section VendorLoop.
Import PyStr.

Context {F : Type} {FO : FloatOps F} {World : Type}.
Variable C : Collaborators F World.

Lemma reached_vendors_cons (vendor : PyDict) (rest : list PyDict) :
  List.length (reached_vendors (vendor :: rest))
  = (if is_reached vendor then 1 else 0) + List.length (reached_vendors rest).
Proof.
  unfold is_reached. cbn [reached_vendors].
  now destruct (vendor_kind vendor).
Qed.

Lemma reached_vendors_length (vendors : list PyDict) :
  List.length (reached_vendors vendors) <= List.length vendors.
Proof.
  induction vendors as [|v vendors IH]; [simpl; lia|].
  rewrite reached_vendors_cons. destruct (is_reached v); simpl; lia.
Qed.

(** The counters and the lengths after the loop, from any state. *)
Lemma process_loop_tally (analyzer : string) :
  forall vendors idx (r : Run F World),
    let r' := process_loop C analyzer idx vendors r in
    let st := stats r in
    let st' := stats r' in
    total_vendors st' = total_vendors st
    /\ List.length (stock_data r') + news_success st + news_failures st
       = List.length (stock_data r) + news_success st' + news_failures st'
    /\ List.length (headline_data r') + total_headlines st + news_failures st
       = List.length (headline_data r) + total_headlines st'
         + news_failures st'
    /\ stock_success st' + stock_failures st'
       = stock_success st + stock_failures st
         + List.length (reached_vendors vendors)
    /\ List.length (errors st') + List.length (stock_data r')
       + List.length (filter is_skipped vendors)
       + stock_failures st + news_failures st
       = List.length (errors st) + List.length (stock_data r)
         + List.length vendors + stock_failures st' + news_failures st'
    /\ news_success st' + news_failures st' + stock_success st
       + stock_failures st
       <= news_success st + news_failures st + stock_success st'
          + stock_failures st'
    /\ news_success st' + total_headlines st
       <= news_success st + total_headlines st'
    /\ total_headlines st' + 10 * news_success st
       <= total_headlines st + 10 * news_success st'.
Proof.
  induction vendors as [|v vendors IH]; intros idx r r' st st';
    subst r' st st'.
  - cbn. repeat split; lia.
  - cbn [process_loop].
    pose proof (process_vendor_tally C analyzer idx v r) as Hv.
    cbv zeta in Hv.
    destruct Hv as [V1 [V2 [V3 [V4 [V5 [V6 [V7 V8]]]]]]].
    specialize (IH (S idx) (process_vendor C analyzer idx v r)).
    cbv zeta in IH.
    destruct IH as [I1 [I2 [I3 [I4 [I5 [I6 [I7 I8]]]]]]].
    rewrite reached_vendors_cons.
    cbn [filter List.length].
    assert (Hsk : List.length
                    (if is_skipped v
                     then v :: filter is_skipped vendors
                     else filter is_skipped vendors)
                  = (if is_skipped v then 1 else 0)
                    + List.length (filter is_skipped vendors))
      by (destruct (is_skipped v); reflexivity).
    rewrite Hsk.
    repeat split; lia.
Qed.

(** The same for a whole run, which starts from empty reports and
    counters at zero. *)
Lemma process_vendors_tally (vendors : list PyDict) (analyzer : string)
  (s : Sys F World) (r : Run F World) :
  process_vendors C vendors analyzer s = Some r ->
  let st := stats r in
  total_vendors st = List.length vendors
  /\ List.length (stock_data r) = news_success st + news_failures st
  /\ List.length (headline_data r) = total_headlines st + news_failures st
  /\ stock_success st + stock_failures st
     = List.length (reached_vendors vendors)
  /\ List.length (errors st) + List.length (stock_data r)
     + List.length (filter is_skipped vendors)
     = List.length vendors + stock_failures st + news_failures st
  /\ news_success st + news_failures st <= stock_success st + stock_failures st
  /\ news_success st <= total_headlines st
  /\ total_headlines st <= 10 * news_success st.
Proof.
  intros Hr.
  assert (Heq : r = process_loop C analyzer 1 vendors
                      (mkRun (mkStats (List.length vendors) 0 0 0 0 0 [])
                         [] [] s)).
  { unfold process_vendors in Hr. destruct vendors; [discriminate|].
    now injection Hr as <-. }
  clear Hr. subst r.
  remember (mkRun (mkStats (List.length vendors) 0 0 0 0 0 []) [] [] s)
    as r0 eqn:Hr0.
  assert (E1 : total_vendors (stats r0) = List.length vendors)
    by (subst r0; reflexivity).
  assert (E2 : stock_success (stats r0) = 0) by (subst r0; reflexivity).
  assert (E3 : stock_failures (stats r0) = 0) by (subst r0; reflexivity).
  assert (E4 : news_success (stats r0) = 0) by (subst r0; reflexivity).
  assert (E5 : news_failures (stats r0) = 0) by (subst r0; reflexivity).
  assert (E6 : total_headlines (stats r0) = 0) by (subst r0; reflexivity).
  assert (E7 : List.length (errors (stats r0)) = 0)
    by (subst r0; reflexivity).
  assert (E8 : List.length (stock_data r0) = 0) by (subst r0; reflexivity).
  assert (E9 : List.length (headline_data r0) = 0)
    by (subst r0; reflexivity).
  pose proof (process_loop_tally analyzer vendors 1 r0) as Ht.
  cbv zeta in Ht. destruct Ht as [T1 [T2 [T3 [T4 [T5 [T6 [T7 T8]]]]]]].
  clear Hr0. cbv zeta. repeat split; lia.
Qed.

(** X10. After a run, the stock report has one row per vendor counted as
    a news success or a news failure, and the headline report one row per
    headline counted plus one placeholder per news failure; the headline
    report is therefore never shorter than the stock report.  A news
    success stands for between 1 and 10 headlines, and the number of
    vendors reported in the summary is the number of input records,
    whatever happened to them. *)
Theorem report_rows_accounting (vendors : list PyDict) (analyzer : string)
  (s : Sys F World) (r : Run F World) :
  process_vendors C vendors analyzer s = Some r ->
  let st := stats r in
  total_vendors st = List.length vendors
  /\ List.length (stock_data r) = news_success st + news_failures st
  /\ List.length (headline_data r) = total_headlines st + news_failures st
  /\ List.length (stock_data r) <= List.length (headline_data r)
  /\ news_success st <= total_headlines st <= 10 * news_success st.
Proof.
  intros Hr. destruct (process_vendors_tally _ _ _ _ Hr)
    as [T1 [T2 [T3 [_ [_ [_ [T7 T8]]]]]]].
  cbv zeta. repeat split; lia.
Qed.

(** X11. After a run, the stock successes and the stock failures add up
    to the number of input records that reach the stock stage (both
    fields read as strings, symbol not empty), even if the news stage of
    some of them was left by an exception; the news counters never add up
    to more than the stock counters, nor these to more than the number of
    records. *)
Theorem stock_stage_accounting (vendors : list PyDict) (analyzer : string)
  (s : Sys F World) (r : Run F World) :
  process_vendors C vendors analyzer s = Some r ->
  let st := stats r in
  stock_success st + stock_failures st = List.length (reached_vendors vendors)
  /\ news_success st + news_failures st <= stock_success st + stock_failures st
  /\ stock_success st + stock_failures st <= total_vendors st.
Proof.
  intros Hr. destruct (process_vendors_tally _ _ _ _ Hr)
    as [T1 [_ [_ [T4 [_ [T6 _]]]]]].
  pose proof (reached_vendors_length vendors) as Hlen.
  cbv zeta. repeat split; lia.
Qed.

(** X12. Every input record is accounted for exactly once: it is skipped
    without a word for want of a symbol, or it gives a row of the stock
    report, or it gives an error that is neither a stock failure nor a
    news failure (the record of a vendor whose processing was left by an
    exception).  So the recorded errors, the stock rows and the skipped
    records add up to the records plus the stock and news failures. *)
Theorem vendors_accounted_once (vendors : list PyDict) (analyzer : string)
  (s : Sys F World) (r : Run F World) :
  process_vendors C vendors analyzer s = Some r ->
  let st := stats r in
  List.length (errors st) + List.length (stock_data r)
  + List.length (filter is_skipped vendors)
  = List.length vendors + stock_failures st + news_failures st.
Proof.
  intros Hr. destruct (process_vendors_tally _ _ _ _ Hr)
    as [_ [_ [_ [_ [T5 _]]]]].
  exact T5.
Qed.

End VendorLoop.

Example accounting_example_run :
  exists r,
    accounting_example = Some r
    /\ map sr_symbol (stock_data r) = ["PCTY"]
    /\ List.length (headline_data r) = 1
    /\ (stock_success (stats r), stock_failures (stats r),
        news_success (stats r), news_failures (stats r),
        total_headlines (stats r), total_vendors (stats r))
       = (1, 1, 1, 0, 1, 4)
    /\ List.length (errors (stats r)) = 3.
Proof. eexists. split; [reflexivity|]. repeat split. Qed.

Lemma report_rows_accounting_witness :
  exists r,
    accounting_example = Some r
    /\ total_vendors (stats r) = 4
    /\ List.length (stock_data r)
       = news_success (stats r) + news_failures (stats r)
    /\ List.length (headline_data r)
       = total_headlines (stats r) + news_failures (stats r)
    /\ List.length (stock_data r) <= List.length (headline_data r)
    /\ news_success (stats r) <= total_headlines (stats r)
       <= 10 * news_success (stats r).
Proof.
  unfold accounting_example. eexists. split; [reflexivity|].
  exact (report_rows_accounting Scripted.collaborators accounting_vendors "vader"
           accounting_start _ eq_refl).
Defined.

Lemma stock_stage_accounting_witness :
  exists r,
    accounting_example = Some r
    /\ stock_success (stats r) + stock_failures (stats r) = 2
    /\ news_success (stats r) + news_failures (stats r)
       <= stock_success (stats r) + stock_failures (stats r)
    /\ stock_success (stats r) + stock_failures (stats r)
       <= total_vendors (stats r).
Proof.
  unfold accounting_example. eexists. split; [reflexivity|].
  exact (stock_stage_accounting Scripted.collaborators accounting_vendors "vader"
           accounting_start _ eq_refl).
Defined.

Lemma vendors_accounted_once_witness :
  exists r,
    accounting_example = Some r
    /\ List.length (errors (stats r)) + List.length (stock_data r) + 1
       = 4 + stock_failures (stats r) + news_failures (stats r).
Proof.
  unfold accounting_example. eexists. split; [reflexivity|].
  exact (vendors_accounted_once Scripted.collaborators accounting_vendors "vader"
           accounting_start _ eq_refl).
Defined.

(** ** The rows of the reports *)

Section ReportRows.
Import PyStr.

Context {F : Type} {FO : FloatOps F} {World : Type}.
Variable C : Collaborators F World.

Lemma map_snd_combine_eq {A B : Type} (l1 : list A) :
  forall l2 : list B,
    List.length l2 = List.length l1 -> map snd (combine l1 l2) = l2.
Proof.
  induction l1 as [|a l1 IH]; intros [|b l2] Hlen; try discriminate;
    [reflexivity|].
  cbn. f_equal. apply IH. now injection Hlen.
Qed.

Lemma get_max_sentiment_is_sentiment (l : list string) :
  is_sentiment (get_max_sentiment l).
Proof.
  unfold is_sentiment, is_label.
  destruct (get_max_sentiment_cases l)
    as [[_ E]|[[_ E]|[[_ [_ E]]|[_ [_ [_ E]]]]]]; rewrite E; auto.
Qed.

(** A headline row as the loop writes it: for an article, with the label
    it was given, or the placeholder. *)
Let headline_ok (symbol : string) (h : HeadlineRow) : Prop :=
  hr_symbol h = symbol
  /\ (is_label (hr_sentiment h)
      \/ (hr_headline h = "N/A" /\ hr_sentiment h = "N/A")).

(** The rows one round of the loop appends: none, or one stock row and
    the headline rows of the same vendor. *)
Lemma process_vendor_rows (analyzer : string) (idx : nat) (vendor : PyDict)
  (r : Run F World) :
  let r' := process_vendor C analyzer idx vendor r in
  exists srows hrows,
    stock_data r' = stock_data r ++ srows
    /\ headline_data r' = headline_data r ++ hrows
    /\ ((srows = [] /\ hrows = [])
        \/ exists symbol company_name close_price pct_change volume,
            vendor_kind vendor = Reached symbol company_name
            /\ srows = [mkStockRow symbol company_name close_price pct_change
                          volume
                          (get_max_sentiment (map hr_sentiment hrows))]
            /\ hrows <> []
            /\ Forall (headline_ok symbol) hrows).
Proof.
  intros r'. subst r'.
  destruct (vendor_kind vendor) as [| |symbol company_name] eqn:K.
  - rewrite process_vendor_malformed by assumption.
    exists [], []. cbn. rewrite !app_nil_r. auto.
  - rewrite process_vendor_skipped by assumption.
    exists [], []. rewrite !app_nil_r. auto.
  - destruct (vendor_kind_reached _ _ _ K)
      as [raw_symbol [raw_name [Hs [Hn [-> [-> Hne]]]]]].
    destruct (get_stock_data_3 C (upper (strip raw_symbol)) (sys r))
      as [[[close_price pct_change] volume] [s1 Hstock]].
    destruct (get_news_articles C (upper (strip raw_symbol)) (strip raw_name)
                10 3 s1) as [[arts|e] s2] eqn:Hfetch.
    + destruct (process_vendor_ok C analyzer idx vendor r raw_symbol raw_name
                  close_price pct_change volume s1 s2 arts Hs Hn Hne Hstock
                  Hfetch)
        as [sents [hrows [H1 [H2 [_ [_ [H5 H6]]]]]]].
      cbv zeta in H1, H2, H5, H6.
      exists [mkStockRow (upper (strip raw_symbol)) (strip raw_name)
                close_price pct_change volume (get_max_sentiment sents)],
             hrows.
      split; [assumption|]. split; [assumption|]. right.
      exists (upper (strip raw_symbol)), (strip raw_name), close_price,
             pct_change, volume.
      split; [reflexivity|].
      destruct arts as [|a arts].
      * destruct (H5 eq_refl) as [-> [-> _]].
        split; [reflexivity|]. split; [discriminate|].
        constructor; [|constructor].
        split; [reflexivity|]. right. now split.
      * destruct (H6 ltac:(discriminate)) as [E1 [E2 [E3 _]]].
        assert (Hsents : map hr_sentiment hrows = sents).
        { rewrite E3, map_map. cbn [hr_sentiment].
          now apply map_snd_combine_eq. }
        rewrite Hsents. split; [reflexivity|].
        split.
        { intros ->. destruct sents; discriminate. }
        rewrite E3. apply Forall_map. apply Forall_forall.
        intros [a' snt] Hin. split; [reflexivity|]. left. cbn.
        apply in_combine_r in Hin.
        rewrite Forall_forall in E2. now apply E2.
    + destruct (process_vendor_raise C analyzer idx vendor r raw_symbol
                  raw_name close_price pct_change volume s1 s2 e Hs Hn Hne
                  Hstock Hfetch) as [H1 [H2 _]].
      exists [], []. rewrite !app_nil_r. auto.
Qed.

(** The rows the loop appends, from any state. *)
Lemma process_loop_rows (analyzer : string) :
  forall vendors idx (r : Run F World),
    let r' := process_loop C analyzer idx vendors r in
    exists srows hrows,
      stock_data r' = stock_data r ++ srows
      /\ headline_data r' = headline_data r ++ hrows
      /\ subsequence
           (map (fun row => (sr_symbol row, sr_companyname row)) srows)
           (reached_vendors vendors)
      /\ incl (map hr_symbol hrows) (map sr_symbol srows)
      /\ Forall (fun row => is_sentiment (sr_sentiment row)) srows
      /\ Forall (fun h => is_label (hr_sentiment h)
                          \/ (hr_headline h = "N/A"
                              /\ hr_sentiment h = "N/A")) hrows.
Proof.
  induction vendors as [|v vendors IH]; intros idx r r'; subst r'.
  - exists [], []. cbn. rewrite !app_nil_r.
    repeat split; try constructor. intros x [].
  - cbn [process_loop].
    destruct (process_vendor_rows analyzer idx v r)
      as [srows1 [hrows1 [V1 [V2 V3]]]].
    destruct (IH (S idx) (process_vendor C analyzer idx v r))
      as [srows2 [hrows2 [I1 [I2 [I3 [I4 [I5 I6]]]]]]].
    exists (srows1 ++ srows2), (hrows1 ++ hrows2).
    split; [rewrite I1, V1, app_assoc; reflexivity|].
    split; [rewrite I2, V2, app_assoc; reflexivity|].
    destruct V3 as [[-> ->]|
                    [symbol [name [cp [pc [vol [K [-> [Hne Hall]]]]]]]]].
    + cbn [app]. split.
      { cbn [reached_vendors]. destruct (vendor_kind v);
          [assumption | assumption | now constructor]. }
      repeat split; assumption.
    + cbn [reached_vendors]. rewrite K. cbn [app map sr_symbol sr_companyname].
      split; [now constructor|]. split.
      { rewrite map_app. intros x Hx. apply in_app_or in Hx.
        destruct Hx as [Hx|Hx].
        - left. apply in_map_iff in Hx. destruct Hx as [h [<- Hh]].
          rewrite Forall_forall in Hall. symmetry. now apply Hall.
        - right. now apply I4. }
      split.
      { constructor; [apply get_max_sentiment_is_sentiment | assumption]. }
      apply Forall_app. split; [|assumption].
      eapply Forall_impl; [|exact Hall]. now intros h [_ Hh].
Qed.

Lemma process_vendors_loop (vendors : list PyDict) (analyzer : string)
  (s : Sys F World) (r : Run F World) :
  process_vendors C vendors analyzer s = Some r ->
  r = process_loop C analyzer 1 vendors
        (mkRun (mkStats (List.length vendors) 0 0 0 0 0 []) [] [] s).
Proof.
  unfold process_vendors. destruct vendors; [discriminate|].
  intros Hr. now injection Hr as <-.
Qed.

(** X13. The rows of the stock report come in the order of the input:
    their symbols and company names are those of the records that reach
    the stock stage, normalised, with some of them possibly left out, and
    none of them is repeated or moved.  Every headline row carries the
    symbol of a row of the stock report. *)
Theorem report_rows_in_input_order (vendors : list PyDict)
  (analyzer : string) (s : Sys F World) (r : Run F World) :
  process_vendors C vendors analyzer s = Some r ->
  subsequence (map (fun row => (sr_symbol row, sr_companyname row))
                 (stock_data r))
              (reached_vendors vendors)
  /\ incl (map hr_symbol (headline_data r)) (map sr_symbol (stock_data r)).
Proof.
  intros Hr. apply process_vendors_loop in Hr. subst r.
  destruct (process_loop_rows analyzer vendors 1
              (mkRun (mkStats (List.length vendors) 0 0 0 0 0 []) [] [] s))
    as [srows [hrows [H1 [H2 [H3 [H4 _]]]]]].
  rewrite H1, H2. cbn [stock_data headline_data app]. now split.
Qed.

(** X14. Every sentiment written to a report is one of bullish, bearish,
    neutral and N/A.  In the headline report "N/A" is the sentiment of
    placeholder rows only: a row for an article always carries one of the
    three labels. *)
Theorem report_sentiments (vendors : list PyDict) (analyzer : string)
  (s : Sys F World) (r : Run F World) :
  process_vendors C vendors analyzer s = Some r ->
  Forall (fun row => is_sentiment (sr_sentiment row)) (stock_data r)
  /\ Forall (fun h => is_label (hr_sentiment h)
                      \/ (hr_headline h = "N/A" /\ hr_sentiment h = "N/A"))
            (headline_data r).
Proof.
  intros Hr. apply process_vendors_loop in Hr. subst r.
  destruct (process_loop_rows analyzer vendors 1
              (mkRun (mkStats (List.length vendors) 0 0 0 0 0 []) [] [] s))
    as [srows [hrows [H1 [H2 [_ [_ [H5 H6]]]]]]].
  rewrite H1, H2. cbn [stock_data headline_data app]. now split.
Qed.

(** X15. The two reports agree vendor by vendor: a round of the loop
    writes either nothing or one stock row together with at least one
    headline row of the same symbol, and the sentiment of the stock row
    is the aggregate ([get_max_sentiment]) of the sentiments of exactly
    those headline rows. *)
Theorem stock_row_aggregates_headlines (analyzer : string) (idx : nat)
  (vendor : PyDict) (r : Run F World) :
  let r' := process_vendor C analyzer idx vendor r in
  exists srows hrows,
    stock_data r' = stock_data r ++ srows
    /\ headline_data r' = headline_data r ++ hrows
    /\ ((srows = [] /\ hrows = [])
        \/ exists row,
            srows = [row]
            /\ hrows <> []
            /\ Forall (fun h => hr_symbol h = sr_symbol row) hrows
            /\ sr_sentiment row = get_max_sentiment (map hr_sentiment hrows)).
Proof.
  intros r'.
  destruct (process_vendor_rows analyzer idx vendor r)
    as [srows [hrows [H1 [H2 H3]]]].
  exists srows, hrows. split; [assumption|]. split; [assumption|].
  destruct H3 as [H3|[symbol [name [cp [pc [vol [_ [-> [Hne Hall]]]]]]]]];
    [now left | right].
  eexists. split; [reflexivity|]. split; [assumption|].
  split; [|reflexivity].
  eapply Forall_impl; [|exact Hall]. now intros h [Hh _].
Qed.

End ReportRows.

Section ReportReuse.
Import PyStr PyStrFacts.

Context {F : Type} {FO : FloatOps F} {World : Type}.
Variable C : Collaborators F World.

(** X17. A record without symbol (no such key, an empty string or white
    space only, the other field being a string or absent) is skipped
    without a trace: no call, no counter, no error, no row; a run over
    such records only changes nothing at all.  A record one of whose two
    fields is [None] is given up before any call, with one recorded
    error that names its row. *)
Theorem irregular_records (analyzer : string) (idx : nat)
  (r : Run F World) :
  (forall vendors,
      Forall (fun vendor => vendor_kind vendor = Skipped) vendors ->
      process_loop C analyzer idx vendors r = r)
  /\ (forall vendor raw_symbol raw_name,
         dict_get vendor "symbol" (PyStr "") = PyStr raw_symbol ->
         dict_get vendor "companyname" (PyStr "") = PyStr raw_name ->
         strip raw_symbol = "" ->
         vendor_kind vendor = Skipped)
  /\ (forall vendor,
         dict_get vendor "symbol" (PyStr "") = PyNone
         \/ dict_get vendor "companyname" (PyStr "") = PyNone ->
         let r' := process_vendor C analyzer idx vendor r in
         stock_data r' = stock_data r
         /\ headline_data r' = headline_data r
         /\ sys r' = sys r
         /\ stats r'
            = add_error
                ("Row " ++ str_of_nat idx
                 ++ ": Unexpected error - 'NoneType' object has no attribute 'strip'")
                (stats r)).
Proof.
  split; [|split].
  - intros vendors. revert idx r.
    induction vendors as [|v vendors IH]; intros idx r Hall; [reflexivity|].
    inversion Hall as [|? ? Hv Hrest]; subst.
    cbn [process_loop]. rewrite process_vendor_skipped by assumption.
    now apply IH.
  - intros vendor raw_symbol raw_name Hs Hn Hempty.
    unfold vendor_kind. now rewrite Hs, Hn, Hempty.
  - intros vendor Hnone r'. subst r'.
    rewrite process_vendor_malformed; [now repeat split|].
    unfold vendor_kind. destruct Hnone as [-> | ->]; [reflexivity|].
    now destruct (dict_get vendor "symbol" (PyStr "")).
Qed.

End ReportReuse.

Lemma report_rows_in_input_order_witness :
  exists r,
    accounting_example = Some r
    /\ subsequence (map (fun row => (sr_symbol row, sr_companyname row))
                      (stock_data r))
                   (reached_vendors accounting_vendors)
    /\ incl (map hr_symbol (headline_data r)) (map sr_symbol (stock_data r)).
Proof.
  unfold accounting_example. eexists. split; [reflexivity|].
  exact (report_rows_in_input_order Scripted.collaborators accounting_vendors
           "vader" accounting_start _ eq_refl).
Defined.

Lemma report_sentiments_witness :
  exists r,
    accounting_example = Some r
    /\ Forall (fun row => is_sentiment (sr_sentiment row)) (stock_data r)
    /\ Forall (fun h => is_label (hr_sentiment h)
                        \/ (hr_headline h = "N/A" /\ hr_sentiment h = "N/A"))
              (headline_data r).
Proof.
  unfold accounting_example. eexists. split; [reflexivity|].
  exact (report_sentiments Scripted.collaborators accounting_vendors
           "vader" accounting_start _ eq_refl).
Defined.

Lemma irregular_records_witness :
  let r := mkRun (mkStats 2 0 0 0 0 0 []) [] [] accounting_start in
  process_loop Scripted.collaborators "vader" 1
    [Scripted.vendor "  " "No Symbol Inc"; [("companyname", PyStr "Acme")]] r
  = r.
Proof.
  intros r.
  apply (proj1 (irregular_records Scripted.collaborators "vader" 1 r)).
  repeat constructor.
Defined.

(** ** The scoring stage *)

Section Scoring.
Import PyStr PyStrFacts.

Context {F : Type} {FO : FloatOps F} {World : Type}.
Variable C : Collaborators F World.

Lemma classify_trace (analyzer text : string) (s : Sys F World) :
  text <> "" -> text <> "N/A" ->
  let res := classify C analyzer text s in
  (analyzer = "vader" ->
   exists o, trace (snd res) = trace s ++ [EvVader text o])
  /\ (analyzer = "finbert" ->
      exists o, trace (snd res) = trace s ++ [EvFinbert text o])
  /\ (analyzer <> "vader" -> analyzer <> "finbert" -> res = ("neutral", s)).
Proof.
  intros H1 H2 res. subst res.
  assert (Hg : negb (truthy text) || (text =? "N/A") = false).
  { apply truthy_true in H1. rewrite H1. cbn. now apply String.eqb_neq. }
  unfold classify.
  destruct (String.eqb_spec analyzer "vader") as [->|Hv].
  - split; [|split; [discriminate | congruence]]. intros _.
    unfold analyze_sentiment_vader, call_vader. rewrite Hg.
    destruct (polarity_scores C text (world s)) as [o w]. exists o.
    destruct o as [msg|compound]; [reflexivity|].
    destruct (f_ge compound f_pos_threshold); [reflexivity|].
    destruct (f_le compound f_neg_threshold); reflexivity.
  - split; [congruence|].
    destruct (String.eqb_spec analyzer "finbert") as [->|Hf].
    + split; [|congruence]. intros _.
      unfold analyze_sentiment_finbert, call_finbert. rewrite Hg.
      destruct (finbert_scores C text (world s)) as [o w]. exists o.
      destruct o as [|msg|ps ns us]; try reflexivity.
      destruct (f_eq ps (f_max3 ps ns us)); [reflexivity|].
      destruct (f_eq ns (f_max3 ps ns us)); reflexivity.
    + split; [congruence | reflexivity].
Qed.

(** The calls of the loop over the articles. *)
Lemma score_articles_trace (analyzer symbol : string) :
  forall arts sents (r : Run F World),
    Forall well_formed arts ->
    let res := score_articles C analyzer symbol arts sents r in
    (analyzer = "vader" ->
     exists outs,
       List.length outs = List.length arts
       /\ trace (sys (snd res))
          = trace (sys r)
            ++ map (fun p => EvVader (full_text (fst p)) (snd p))
                 (combine arts outs))
    /\ (analyzer = "finbert" ->
        exists outs,
          List.length outs = List.length arts
          /\ trace (sys (snd res))
             = trace (sys r)
               ++ map (fun p => EvFinbert (full_text (fst p)) (snd p))
                    (combine arts outs))
    /\ (analyzer <> "vader" -> analyzer <> "finbert" ->
        sys (snd res) = sys r
        /\ fst res = sents ++ repeat "neutral" (List.length arts)).
Proof.
  intros arts. induction arts as [|a arts IH]; intros sents r Hwf res;
    subst res.
  - cbn. split; [|split].
    + intros _. exists []. now rewrite app_nil_r.
    + intros _. exists []. now rewrite app_nil_r.
    + intros _ _. now rewrite app_nil_r.
  - inversion Hwf as [|? ? Ha Hrest]; subst.
    destruct (full_text_scorable a Ha) as [Hne Hna].
    cbn [score_articles].
    pose proof (classify_trace analyzer (full_text a) (sys r) Hne Hna) as Hc.
    cbv zeta in Hc.
    destruct (classify C analyzer (full_text a) (sys r)) as [sentiment s1].
    cbn [fst snd] in Hc. destruct Hc as [Cv [Cf Cn]].
    specialize (IH (sents ++ [sentiment])
                  (add_headline (mkHeadlineRow symbol (title a) sentiment)
                     (set_sys s1 r)) Hrest).
    cbv zeta in IH. destruct IH as [Iv [If' In']].
    cbn [add_headline set_sys sys] in Iv, If', In'.
    split; [|split].
    + intros Hv. destruct (Cv Hv) as [o Ho].
      destruct (Iv Hv) as [outs [Hlen Htr]].
      exists (o :: outs). split; [simpl; now rewrite Hlen|].
      rewrite Htr, Ho, <- app_assoc. reflexivity.
    + intros Hf. destruct (Cf Hf) as [o Ho].
      destruct (If' Hf) as [outs [Hlen Htr]].
      exists (o :: outs). split; [simpl; now rewrite Hlen|].
      rewrite Htr, Ho, <- app_assoc. reflexivity.
    + intros Hv Hf. specialize (Cn Hv Hf). injection Cn as -> ->.
      destruct (In' Hv Hf) as [Hs Hr]. split; [assumption|].
      rewrite Hr, <- app_assoc. reflexivity.
Qed.

(** X18. In the scoring stage of a vendor the chosen classifier is
    called exactly once per article returned by the news fetch, in the
    order of the articles, each time on the [full_text] of the article,
    and nothing else is called; for an analyzer name that is neither
    "vader" nor "finbert" nothing is called at all.  As every article
    returned has a usable title, a removed article is never scored. *)
Theorem articles_scored_once (analyzer : string) (idx : nat)
  (vendor : PyDict) (r : Run F World) (raw_symbol raw_name : string)
  (close_price pct_change : F) (volume : Z) (s1 s2 : Sys F World)
  (arts : list Article) :
  dict_get vendor "symbol" (PyStr "") = PyStr raw_symbol ->
  dict_get vendor "companyname" (PyStr "") = PyStr raw_name ->
  let symbol := upper (strip raw_symbol) in
  let company_name := strip raw_name in
  symbol <> "" ->
  get_stock_data C symbol 3 (sys r)
  = (Some (close_price, pct_change, volume), s1) ->
  get_news_articles C symbol company_name 10 3 s1 = (Ok arts, s2) ->
  let r' := process_vendor C analyzer idx vendor r in
  Forall (fun a => usable_title (title a)) arts
  /\ (analyzer = "vader" ->
      exists outs,
        List.length outs = List.length arts
        /\ trace (sys r')
           = trace s2
             ++ map (fun p => EvVader (full_text (fst p)) (snd p))
                  (combine arts outs))
  /\ (analyzer = "finbert" ->
      exists outs,
        List.length outs = List.length arts
        /\ trace (sys r')
           = trace s2
             ++ map (fun p => EvFinbert (full_text (fst p)) (snd p))
                  (combine arts outs))
  /\ (analyzer <> "vader" -> analyzer <> "finbert" -> sys r' = s2).
Proof.
  intros Hs Hn symbol company_name Hne Hstock Hfetch r'. subst r'.
  assert (Hwf : Forall well_formed arts).
  { eapply fetched_well_formed. now rewrite Hfetch. }
  split.
  { eapply Forall_impl; [|exact Hwf]. now intros a [Ha _]. }
  unfold process_vendor.
  rewrite (vendor_try_reached C analyzer vendor r raw_symbol raw_name
             close_price pct_change volume s1 Hs Hn Hne Hstock).
  cbv zeta. fold symbol company_name. rewrite Hfetch.
  set (r1 := record_stock symbol close_price (set_sys s1 r)).
  unfold record_news.
  destruct arts as [|a arts].
  - cbn. split; [|split].
    + intros _. exists []. now rewrite app_nil_r.
    + intros _. exists []. now rewrite app_nil_r.
    + reflexivity.
  - pose proof (score_articles_trace analyzer symbol (a :: arts) []
                  (set_stats
                     (incr_news_success (List.length (a :: arts))
                        (stats (set_sys s2 r1))) (set_sys s2 r1)) Hwf) as Ht.
    cbv zeta in Ht.
    destruct (score_articles C analyzer symbol (a :: arts) []
                (set_stats
                   (incr_news_success (List.length (a :: arts))
                      (stats (set_sys s2 r1))) (set_sys s2 r1)))
      as [sents r3].
    cbn [fst snd set_stats set_sys sys add_stock_row] in *.
    destruct Ht as [Tv [Tf Tn]].
    split; [assumption|]. split; [assumption|].
    intros Hv Hf. now destruct (Tn Hv Hf).
Qed.

End Scoring.

Lemma articles_scored_once_witness :
  let w := Scripted.mkScript [HistFrame [Scripted.bar 100 5; Scripted.bar 110 7]]
             [Scripted.ok_response
                [Scripted.news_item "[Removed]";
                 Scripted.news_item "Paylocity up"]]
             [VaderCompound (1 # 2)%Q] [] in
  let r := mkRun (mkStats 1 0 0 0 0 0 []) [] [] (Scripted.start w) in
  let r' := process_vendor Scripted.collaborators "vader" 1
              (Scripted.vendor "PCTY" "Paylocity") r in
  exists outs,
    List.length outs = 1
    /\ scored_texts (trace (sys r')) = ["Paylocity up. None"]
    /\ trace (sys r')
       = [EvHistory "PCTY" (HistFrame [Scripted.bar 100 5; Scripted.bar 110 7]);
          EvSearch "Paylocity" true 10
            (Scripted.ok_response
               [Scripted.news_item "[Removed]";
                Scripted.news_item "Paylocity up"])]
         ++ map (fun p => EvVader (full_text (fst p)) (snd p))
              (combine
                 [mkArticle "Paylocity up" PyNone (PyStr "")
                    "Paylocity up. None"] outs).
Proof.
  intros w r r'.
  destruct (proj1 (proj2 (articles_scored_once Scripted.collaborators "vader"
                            1 (Scripted.vendor "PCTY" "Paylocity") r
                            "PCTY" "Paylocity" 110%Q 10%Q 7%Z _ _ _
                            eq_refl eq_refl ltac:(discriminate)
                            eq_refl eq_refl)) eq_refl)
    as [outs [Hlen Htr]].
  exists outs. split; [exact Hlen|]. split; [reflexivity | exact Htr].
Defined.

(** ** The label FinBERT's scores give *)

Section FinbertLabel.
Import PyStr PyStrFacts.

Context {World : Type}.
Variable C : Collaborators Q World.

Lemma Qle_bool_false (a b : Q) : Qle_bool a b = false -> (b < a)%Q.
Proof.
  intros H. apply Qnot_le_lt. intros Hle.
  apply Qle_bool_iff in Hle. congruence.
Qed.

Lemma Qeq_bool_false (a b : Q) : Qeq_bool a b = false -> ~ (a == b)%Q.
Proof. intros H Heq. apply Qeq_bool_iff in Heq. congruence. Qed.

(** X19. In exact arithmetic the label given to a text with the scores
    (positive, negative, neutral) is "bullish" exactly when the positive
    score is at least the other two, "bearish" exactly when the negative
    score exceeds the positive one and is at least the neutral one, and
    "neutral" exactly when the neutral score exceeds both: ties go to
    bullish first and to bearish next. *)
Theorem finbert_label_ties (text : string) (s : Sys Q World)
  (positive_score negative_score neutral_score : Q) :
  text <> "" -> text <> "N/A" ->
  fst (call_finbert C text s)
  = FinbertScores positive_score negative_score neutral_score ->
  let label := fst (analyze_sentiment_finbert C text s) in
  (label = "bullish" <->
   (negative_score <= positive_score /\ neutral_score <= positive_score)%Q)
  /\ (label = "bearish" <->
      (positive_score < negative_score /\ neutral_score <= negative_score)%Q)
  /\ (label = "neutral" <->
      (positive_score < neutral_score /\ negative_score < neutral_score)%Q).
Proof.
  intros H1 H2 Hcall label. subst label.
  assert (Hg : negb (truthy text) || (text =? "N/A") = false).
  { apply truthy_true in H1. rewrite H1. cbn. now apply String.eqb_neq. }
  unfold analyze_sentiment_finbert. rewrite Hg.
  destruct (call_finbert C text s) as [o s1]. cbn [fst] in Hcall. subst o.
  unfold f_max3. cbn [f_gt f_eq QFloat.ops]. unfold QFloat.gtb.
  destruct (Qle_bool negative_score positive_score) eqn:E1; cbn [negb];
    [apply Qle_bool_iff in E1 | apply Qle_bool_false in E1].
  - destruct (Qle_bool neutral_score positive_score) eqn:E2; cbn [negb];
      [apply Qle_bool_iff in E2 | apply Qle_bool_false in E2].
    + rewrite (proj2 (Qeq_bool_iff positive_score positive_score)
                 (Qeq_refl _)).
      cbn [fst]. repeat split; intros; try discriminate; try lra; tauto.
    + destruct (Qeq_bool positive_score neutral_score) eqn:E3;
        [apply Qeq_bool_iff in E3; lra | apply Qeq_bool_false in E3].
      destruct (Qeq_bool negative_score neutral_score) eqn:E4;
        [apply Qeq_bool_iff in E4; lra | apply Qeq_bool_false in E4].
      cbn [fst]. repeat split; intros; try discriminate; try lra.
  - destruct (Qle_bool neutral_score negative_score) eqn:E2; cbn [negb];
      [apply Qle_bool_iff in E2 | apply Qle_bool_false in E2].
    + destruct (Qeq_bool positive_score negative_score) eqn:E3;
        [apply Qeq_bool_iff in E3; lra | apply Qeq_bool_false in E3].
      rewrite (proj2 (Qeq_bool_iff negative_score negative_score)
                 (Qeq_refl _)).
      cbn [fst]. repeat split; intros; try discriminate; try lra.
    + destruct (Qeq_bool positive_score neutral_score) eqn:E3;
        [apply Qeq_bool_iff in E3; lra | apply Qeq_bool_false in E3].
      destruct (Qeq_bool negative_score neutral_score) eqn:E4;
        [apply Qeq_bool_iff in E4; lra | apply Qeq_bool_false in E4].
      cbn [fst]. repeat split; intros; try discriminate; try lra.
Qed.

End FinbertLabel.

Lemma finbert_label_ties_witness :
  let w := Scripted.mkScript [] [] []
             [FinbertScores (2 # 5)%Q (2 # 5)%Q (1 # 5)%Q] in
  fst (analyze_sentiment_finbert Scripted.collaborators "Fiserv flat"
         (Scripted.start w)) = "bullish".
Proof.
  intros w.
  apply (proj1 (finbert_label_ties Scripted.collaborators "Fiserv flat"
                  (Scripted.start w) (2 # 5)%Q (2 # 5)%Q (1 # 5)%Q
                  ltac:(discriminate) ltac:(discriminate) eq_refl)).
  split; apply Qle_bool_iff; reflexivity.
Defined.

(** ** What the stock fetch reads of a history *)

Section LastBars.

Context {F : Type} {FO : FloatOps F}.

(** X20. The quote is read off the last two bars of the history only:
    whatever bars come before them (and whether they have a close or a
    volume at all) makes no difference to what the [try] block returns or
    raises; with a single bar the quote depends on that bar only and its
    percent change is 0.0. *)
Theorem quote_from_last_two_bars (earlier : list (Bar F))
  (previous latest : Bar F) :
  stock_try (HistFrame (earlier ++ [previous; latest]))
  = stock_try (HistFrame [previous; latest])
  /\ (forall q, stock_try (HistFrame [latest]) = Ok q -> snd (fst q) = f_zero)
  /\ (forall bars q,
         bars <> [] -> stock_try (HistFrame bars) = Ok q ->
         exists front last_bar latest_close,
           bars = front ++ [last_bar]
           /\ Close last_bar = Some latest_close
           /\ fst (fst q) = f_round2 latest_close
           /\ exists latest_volume,
               Volume last_bar = Some latest_volume
               /\ f_to_int latest_volume = Some (snd q)).
Proof.
  split; [|split].
  - cbn [stock_try]. rewrite rev_app_distr. reflexivity.
  - intros q. cbn [stock_try rev app].
    destruct (Close latest); [|discriminate].
    destruct (Volume latest) as [v|]; [|discriminate].
    destruct (f_to_int v); [|discriminate].
    intros H. injection H as <-. reflexivity.
  - intros bars q Hne. cbn [stock_try].
    destruct (exists_last Hne) as [front [last_bar ->]].
    rewrite rev_app_distr. cbn [rev app].
    destruct (Close last_bar) as [c|] eqn:Ec; [|discriminate].
    destruct (Volume last_bar) as [v|] eqn:Ev; [|discriminate].
    destruct (f_to_int v) as [vol|] eqn:Ei; [|discriminate].
    intros H. exists front, last_bar, c.
    split; [reflexivity|]. split; [exact Ec|].
    destruct (rev front) as [|prev rest].
    + injection H as <-. cbn. split; [reflexivity|]. now exists v.
    + destruct (Close prev); [|discriminate].
      injection H as <-. cbn. split; [reflexivity|]. now exists v.
Qed.

End LastBars.

Lemma quote_from_last_two_bars_witness :
  snd (fst (110%Q, 0%Q, 7%Z)) = 0%Q.
Proof.
  exact (proj1 (proj2 (quote_from_last_two_bars (F := Q) []
                         (Scripted.bar 100 5) (Scripted.bar 110 7)))
           (110%Q, 0%Q, 7%Z) eq_refl).
Defined.

(** ** The cost of a run *)

Section RunCost.
Import PyStr PyStrFacts.

Context {F : Type} {FO : FloatOps F} {World : Type}.
Variable C : Collaborators F World.

Lemma vader_events_measures (l : list (Article * VaderOutcome F)) :
  let tr := map (fun p => EvVader (full_text (fst p)) (snd p)) l in
  history_calls tr = 0 /\ search_calls tr = [] /\ total_sleep tr = 0
  /\ List.length (scored_texts tr) = List.length l.
Proof.
  induction l as [|p l IH]; cbn in *; [auto|].
  destruct IH as [H1 [H2 [H3 H4]]]. repeat split; auto.
Qed.

Lemma finbert_events_measures (l : list (Article * FinbertOutcome F)) :
  let tr := map (fun p => EvFinbert (full_text (fst p)) (snd p)) l in
  history_calls tr = 0 /\ search_calls tr = [] /\ total_sleep tr = 0
  /\ List.length (scored_texts tr) = List.length l.
Proof.
  induction l as [|p l IH]; cbn in *; [auto|].
  destruct IH as [H1 [H2 [H3 H4]]]. repeat split; auto.
Qed.

(** The calls of the stock stage. *)
Lemma stock_stage_cost (symbol : string) (s : Sys F World) :
  exists q s1 new,
    get_stock_data C symbol 3 s = (Some q, s1)
    /\ trace s1 = trace s ++ new
    /\ history_calls new <= 3
    /\ search_calls new = []
    /\ total_sleep new <= 3
    /\ scored_texts new = [].
Proof.
  destruct (stock_attempts_run C symbol 3 2 0 s eq_refl)
    as [outs [last_o [q [s1 [H1 [H2 [H3 _]]]]]]].
  exists q, s1, (stock_events symbol 0 (outs ++ [last_o])).
  destruct (stock_events_measures symbol (outs ++ [last_o]) 0)
    as [M1 [M2 [M3 M4]]].
  specialize (M4 ltac:(now destruct outs)).
  rewrite List.length_app in M1, M4. cbn [List.length Nat.add Nat.pow] in *.
  split; [exact H1|]. split; [exact H2|].
  split; [lia|]. split; [assumption|]. split; [|assumption].
  assert (2 ^ (List.length outs + 1 - 1) <= 2 ^ 2)
    by (apply Nat.pow_le_mono_r; lia).
  cbn in *. lia.
Qed.

(** The calls of the news stage. *)
Lemma news_stage_cost (symbol company_name : string) (s : Sys F World) :
  exists new,
    trace (snd (get_news_articles C symbol company_name 10 3 s))
    = trace s ++ new
    /\ history_calls new = 0
    /\ List.length (search_calls new) <= 24
    /\ total_sleep new <= 24
    /\ scored_texts new = [].
Proof.
  destruct (get_news_articles_blocks C symbol company_name 10 3 s)
    as [outss [H1 [H2 [_ H4]]]].
  rewrite combinations_length in H2.
  destruct (queries_shape company_name symbol) as [[_ Hq] _].
  destruct (cascade_events_measures (F := F) 10 3
              (combinations (get_smart_search_queries company_name symbol))
              outss H4) as [M1 [M2 [M3 [M4 _]]]].
  eexists. split; [exact H1|].
  cbn in M1, M2. repeat split; try assumption; lia.
Qed.

(** The calls of one round of the loop. *)
Lemma process_vendor_cost (analyzer : string) (idx : nat) (vendor : PyDict)
  (r : Run F World) :
  let r' := process_vendor C analyzer idx vendor r in
  let k := if is_reached vendor then 1 else 0 in
  exists new,
    trace (sys r') = trace (sys r) ++ new
    /\ history_calls new <= 3 * k
    /\ List.length (search_calls new) <= 24 * k
    /\ total_sleep new <= 27 * k
    /\ List.length (scored_texts new) + total_headlines (stats r)
       <= total_headlines (stats r')
    /\ (analyzer = "vader" \/ analyzer = "finbert" ->
        List.length (scored_texts new) + total_headlines (stats r)
        = total_headlines (stats r')).
Proof.
  intros r' k. subst r' k. unfold is_reached.
  destruct (vendor_kind vendor) as [| |symbol company_name] eqn:K.
  - rewrite process_vendor_malformed by assumption.
    exists []. cbn. rewrite app_nil_r. repeat split; lia.
  - rewrite process_vendor_skipped by assumption.
    exists []. cbn. rewrite app_nil_r. repeat split; lia.
  - destruct (vendor_kind_reached _ _ _ K)
      as [raw_symbol [raw_name [Hs [Hn [-> [-> Hne]]]]]].
    destruct (stock_stage_cost (upper (strip raw_symbol)) (sys r))
      as [[[close_price pct_change] volume]
            [s1 [new1 [Hstock [A1 [A2 [A3 [A4 A5]]]]]]]].
    destruct (news_stage_cost (upper (strip raw_symbol)) (strip raw_name) s1)
      as [new2 [B1 [B2 [B3 [B4 B5]]]]].
    unfold process_vendor.
    rewrite (vendor_try_reached C analyzer vendor r raw_symbol raw_name
               close_price pct_change volume s1 Hs Hn Hne Hstock).
    cbv zeta.
    set (symbol := upper (strip raw_symbol)) in *.
    set (r1 := record_stock symbol close_price (set_sys s1 r)).
    assert (Hth : total_headlines (stats r1) = total_headlines (stats r)).
    { subst r1. unfold record_stock.
      now destruct (f_gt close_price f_zero). }
    pose proof (fetched_well_formed C symbol (strip raw_name) 10 3 s1) as Hwf.
    destruct (get_news_articles C symbol (strip raw_name) 10 3 s1)
      as [[arts|e] s2]; cbn [snd fst] in B1, Hwf.
    + specialize (Hwf arts eq_refl).
      unfold record_news. destruct arts as [|a arts].
      * exists (new1 ++ new2).
        cbn [add_stock_row add_headline set_stats set_sys sys stats
               add_error incr_news_failures total_headlines].
        rewrite Hth, B1, A1, <- app_assoc.
        rewrite history_calls_app, search_calls_app, List.length_app,
          total_sleep_app, scored_texts_app, A3, A5, B2, B5.
        cbn [List.length app]. repeat split; lia.
      * pose proof (score_articles_trace C analyzer symbol (a :: arts) []
                      (set_stats
                         (incr_news_success (List.length (a :: arts))
                            (stats (set_sys s2 r1))) (set_sys s2 r1)) Hwf)
          as Ht.
        destruct (score_articles_run C analyzer symbol (a :: arts) []
                    (set_stats
                       (incr_news_success (List.length (a :: arts))
                          (stats (set_sys s2 r1))) (set_sys s2 r1)))
          as [sents [_ [_ [Hst _]]]].
        cbv zeta in Ht.
        destruct (score_articles C analyzer symbol (a :: arts) []
                    (set_stats
                       (incr_news_success (List.length (a :: arts))
                          (stats (set_sys s2 r1))) (set_sys s2 r1)))
          as [sents' r3].
        cbn [fst snd set_stats set_sys sys stats add_stock_row] in *.
        rewrite Hst.
        cbn [incr_news_success total_headlines]. rewrite Hth.
        destruct Ht as [Tv [Tf Tn]].
        destruct (String.eqb_spec analyzer "vader") as [Hv|Hv].
        -- destruct (Tv Hv) as [outs [Hlen Htr]].
           destruct (vader_events_measures (combine (a :: arts) outs))
             as [V1 [V2 [V3 V4]]].
           rewrite length_combine, Hlen, Nat.min_id in V4.
           eexists. split.
           { rewrite Htr, B1, A1, <- !app_assoc. reflexivity. }
           rewrite !history_calls_app, !search_calls_app, !List.length_app,
             !total_sleep_app, !scored_texts_app, !List.length_app,
             A3, A5, B2, B5, V1, V2, V3, V4.
           cbn [List.length app] in *. repeat split; lia.
        -- destruct (String.eqb_spec analyzer "finbert") as [Hf|Hf].
           ++ destruct (Tf Hf) as [outs [Hlen Htr]].
              destruct (finbert_events_measures (combine (a :: arts) outs))
                as [V1 [V2 [V3 V4]]].
              rewrite length_combine, Hlen, Nat.min_id in V4.
              eexists. split.
              { rewrite Htr, B1, A1, <- !app_assoc. reflexivity. }
              rewrite !history_calls_app, !search_calls_app,
                !List.length_app, !total_sleep_app, !scored_texts_app,
                !List.length_app, A3, A5, B2, B5, V1, V2, V3, V4.
              cbn [List.length app] in *. repeat split; lia.
           ++ destruct (Tn Hv Hf) as [Hsys _].
              exists (new1 ++ new2). rewrite Hsys, B1, A1, <- app_assoc.
              rewrite history_calls_app, search_calls_app, List.length_app,
                total_sleep_app, scored_texts_app, A3, A5, B2, B5.
              cbn [List.length app] in *.
              repeat split; try lia. intros [H|H]; contradiction.
    + exists (new1 ++ new2).
      assert (Hsame : forall msg,
                 total_headlines (add_error msg (stats (set_sys s2 r1)))
                 = total_headlines (stats r)).
      { intros msg. cbn. exact Hth. }
      destruct e;
        cbn [set_stats set_sys sys stats]; rewrite Hsame, B1, A1, <- app_assoc;
        rewrite history_calls_app, search_calls_app, List.length_app,
          total_sleep_app, scored_texts_app, A3, A5, B2, B5;
        cbn [List.length app]; repeat split; lia.
Qed.

(** The calls of the loop, from any state. *)
Lemma process_loop_cost (analyzer : string) :
  forall vendors idx (r : Run F World),
    let r' := process_loop C analyzer idx vendors r in
    let n := List.length (reached_vendors vendors) in
    exists new,
      trace (sys r') = trace (sys r) ++ new
      /\ history_calls new <= 3 * n
      /\ List.length (search_calls new) <= 24 * n
      /\ total_sleep new <= 27 * n
      /\ List.length (scored_texts new) + total_headlines (stats r)
         <= total_headlines (stats r')
      /\ (analyzer = "vader" \/ analyzer = "finbert" ->
          List.length (scored_texts new) + total_headlines (stats r)
          = total_headlines (stats r')).
Proof.
  induction vendors as [|v vendors IH]; intros idx r r' n; subst r' n.
  - exists []. cbn. rewrite app_nil_r. repeat split; lia.
  - cbn [process_loop].
    destruct (process_vendor_cost analyzer idx v r)
      as [new1 [V1 [V2 [V3 [V4 [V5 V6]]]]]].
    destruct (IH (S idx) (process_vendor C analyzer idx v r))
      as [new2 [I1 [I2 [I3 [I4 [I5 I6]]]]]].
    exists (new1 ++ new2).
    split; [rewrite I1, V1, app_assoc; reflexivity|].
    rewrite history_calls_app, search_calls_app, List.length_app,
      total_sleep_app, scored_texts_app, List.length_app.
    assert (Hn : List.length (reached_vendors (v :: vendors))
                 = (if is_reached v then 1 else 0)
                   + List.length (reached_vendors vendors)).
    { unfold is_reached. cbn [reached_vendors].
      now destruct (vendor_kind v). }
    rewrite Hn.
    split; [lia|]. split; [lia|]. split; [lia|]. split; [lia|].
    intros Ha. specialize (V6 Ha). specialize (I6 Ha). lia.
Qed.

(** X21. In a whole run, each record that reaches the stock stage costs
    at most 3 history calls, 24 searches and 27 seconds of sleep, and the
    other records cost nothing; the classifier is called at most once per
    headline counted in the statistics, and exactly once per headline
    when the analyzer is "vader" or "finbert". *)
Theorem run_cost_bounds (vendors : list PyDict) (analyzer : string)
  (s : Sys F World) (r : Run F World) :
  process_vendors C vendors analyzer s = Some r ->
  let n := List.length (reached_vendors vendors) in
  exists new,
    trace (sys r) = trace s ++ new
    /\ history_calls new <= 3 * n
    /\ List.length (search_calls new) <= 24 * n
    /\ total_sleep new <= 27 * n
    /\ List.length (scored_texts new) <= total_headlines (stats r)
    /\ (analyzer = "vader" \/ analyzer = "finbert" ->
        List.length (scored_texts new) = total_headlines (stats r)).
Proof.
  intros Hr n. apply (process_vendors_loop C) in Hr. subst r n.
  destruct (process_loop_cost analyzer vendors 1
              (mkRun (mkStats (List.length vendors) 0 0 0 0 0 []) [] [] s))
    as [new [H1 [H2 [H3 [H4 [H5 H6]]]]]].
  exists new. cbn [sys] in H1. split; [exact H1|].
  cbn [stats total_headlines] in H5, H6.
  repeat split; try assumption; try lia.
  intros Ha. specialize (H6 Ha). lia.
Qed.

End RunCost.

Lemma run_cost_bounds_witness :
  exists r new,
    accounting_example = Some r
    /\ trace (sys r) = trace accounting_start ++ new
    /\ history_calls new <= 3 * 2
    /\ List.length (search_calls new) <= 24 * 2
    /\ total_sleep new <= 27 * 2
    /\ List.length (scored_texts new) <= total_headlines (stats r)
    /\ ("vader" = "vader" \/ "vader" = "finbert" ->
        List.length (scored_texts new) = total_headlines (stats r)).
Proof.
  unfold accounting_example. eexists.
  destruct (run_cost_bounds Scripted.collaborators accounting_vendors "vader"
              accounting_start _ eq_refl) as [new H].
  exists new. split; [reflexivity | exact H].
Defined.
